(** * Delivery route optimizer: gateway, agent and CrewAI pipeline

    A shallow embedding of the three Python programs of the repository

      - [backend/main.py]        the FastAPI gateway          (module [Backend])
      - [agent/main.py]          the Flask agent, direct mode (module [Agent])
      - [agent/crewai_agents.py] the CrewAI pipeline          (module [Crew])

    together with the part of the Python library they lean on (module [Py]):
    JSON-like values, exceptions and [try]/[except], [str.strip],
    [str.join], [str.format], [re.search] with the pattern of the pipeline and
    [json.loads].  The model of the language, the OpenAI client and the crew
    are arguments of the functions that call them: a function from the
    messages, or from the task descriptions, to a reply or an exception.

    Python [str] values are Rocq strings holding the UTF-8 encoding of the
    text.  Every exception of the model is an instance of [Exception]
    ([KeyboardInterrupt] and the like are outside the model).

    The modules [RouteResult], [Rendering] and [Samples] hold the notions of
    the specification, the prompts written part by part, and the concrete
    requests and replies used in the examples.  The facts come after the
    definitions, the claims C1 to C10 last. *)

From Stdlib Require Import String Ascii List ZArith NArith Lia Bool DecimalString.
Import ListNotations.

Open Scope list_scope.
Open Scope string_scope.

(* ================================================================== *)
(** * Python values, exceptions and library functions *)
(* ================================================================== *)

Module Py.

(** ** Values: what [json.loads] returns and what [jsonify] accepts.
    A [dict] is an association list in insertion order with distinct keys; a
    [float] keeps the lexeme it was read from. *)

#[warning="-register-all"]
Inductive pyval : Type :=
| PNone
| PBool (b : bool)
| PInt (z : Z)
| PFloat (lexeme : string)
| PStr (s : string)
| PList (l : list pyval)
| PDict (d : list (string * pyval)).

(** [d.get(k)] *)
Fixpoint dict_get (k : string) (d : list (string * pyval)) : option pyval :=
  match d with
  | [] => None
  | (k', v) :: d' => if String.eqb k k' then Some v else dict_get k d'
  end.

(** [d[k] = v]: an existing key keeps its position and takes the new value. *)
Fixpoint dict_set (d : list (string * pyval)) (k : string) (v : pyval)
  : list (string * pyval) :=
  match d with
  | [] => [(k, v)]
  | (k', v') :: d' =>
      if String.eqb k k' then (k', v) :: d' else (k', v') :: dict_set d' k v
  end.

(** [v.get(k)] on an arbitrary value: [None] when [v] is not a dict with
    that key. *)
Definition get (k : string) (v : pyval) : option pyval :=
  match v with
  | PDict d => dict_get k d
  | _ => None
  end.

(** ** Exceptions *)

Inductive exn_class : Type :=
| JSONDecodeError      (* json.JSONDecodeError, a ValueError *)
| AttributeError
| IndexError
| KeyError
| ValueError
| TimeoutException     (* httpx.TimeoutException and its subclasses *)
| ConnectError         (* httpx.ConnectError *)
| HTTPException (status_code : Z) (detail : string)   (* fastapi.HTTPException *)
| OtherException.      (* any other subclass of Exception *)

(** An exception instance: its class and what [str(e)] returns. *)
Record exn : Type := MkExn { exn_cls : exn_class; exn_str : string }.

Inductive pyresult (A : Type) : Type :=
| Ok (a : A)
| Raise (e : exn).
Arguments Ok {A} a.
Arguments Raise {A} e.

Definition bind {A B} (m : pyresult A) (k : A -> pyresult B) : pyresult B :=
  match m with
  | Ok a => k a
  | Raise e => Raise e
  end.

Notation "x <- m ;; k" := (bind m (fun x => k))
  (at level 61, m at next level, right associativity).

(** The [except] clauses of a [try] statement, in order: the first clause
    whose class test accepts the exception handles it; with none, the
    exception goes on to the caller. *)
Definition clause (A : Type) : Type := ((exn -> bool) * (exn -> pyresult A))%type.

Fixpoint handle {A} (clauses : list (clause A)) (e : exn) : pyresult A :=
  match clauses with
  | [] => Raise e
  | (catches, handler) :: rest => if catches e then handler e else handle rest e
  end.

(** [try: body  except C1 as e: h1 e  except C2 as e: h2 e ...] *)
Definition try_except {A} (body : pyresult A) (clauses : list (clause A))
  : pyresult A :=
  match body with
  | Ok a => Ok a
  | Raise e => handle clauses e
  end.

(** The class tests of the [except] clauses of this repository.  Every
    exception is an instance of [Exception], [fastapi.HTTPException]
    included. *)
Definition Exception (e : exn) : bool := true.

Definition is_JSONDecodeError (e : exn) : bool :=
  match exn_cls e with JSONDecodeError => true | _ => false end.

Definition is_AttributeError (e : exn) : bool :=
  match exn_cls e with AttributeError => true | _ => false end.

Definition is_TimeoutException (e : exn) : bool :=
  match exn_cls e with TimeoutException => true | _ => false end.

Definition is_ConnectError (e : exn) : bool :=
  match exn_cls e with ConnectError => true | _ => false end.

(** ** Characters and strings *)

Definition chr (n : nat) : ascii := ascii_of_nat n.
Definition dquote : ascii := chr 34.
Definition nl : string := String (chr 10) "".

Definition str_of_bytes (l : list nat) : string :=
  string_of_list_ascii (map chr l).

Definition rev_string (s : string) : string :=
  string_of_list_ascii (rev (list_ascii_of_string s)).

(** [str(z)] for an [int] *)
Definition str_of_Z (z : Z) : string := NilZero.string_of_int (Z.to_int z).
Definition str_of_nat (n : nat) : string := NilZero.string_of_uint (Nat.to_uint n).

(** [sep.join(l)] *)
Definition join (sep : string) (l : list string) : string := String.concat sep l.

(** [enumerate(l, start)] *)
Fixpoint enumerate {A} (l : list A) (start : nat) : list (nat * A) :=
  match l with
  | [] => []
  | a :: l' => (start, a) :: enumerate l' (S start)
  end.

(** [s] with the prefix [p] removed, when it has that prefix. *)
Fixpoint drop_prefix (p s : string) : option string :=
  match p, s with
  | EmptyString, _ => Some s
  | String a p', String b s' => if Ascii.eqb a b then drop_prefix p' s' else None
  | String _ _, EmptyString => None
  end.

(** The code points [str.isspace] accepts, in UTF-8: U+0009..U+000D,
    U+001C..U+0020, U+0085, U+00A0, U+1680, U+2000..U+200A, U+2028, U+2029,
    U+202F, U+205F and U+3000. *)
Definition whitespace : list string :=
  map str_of_bytes
    ([[9]; [10]; [11]; [12]; [13]; [28]; [29]; [30]; [31]; [32];
      [194; 133]; [194; 160]; [225; 154; 128]]
     ++ map (fun d => [226; 128; d]) (seq 128 11)
     ++ [[226; 128; 168]; [226; 128; 169]; [226; 128; 175];
         [226; 129; 159]; [227; 128; 128]])%list.

Fixpoint first_some {A} (l : list (option A)) : option A :=
  match l with
  | [] => None
  | Some a :: _ => Some a
  | None :: l' => first_some l'
  end.

Fixpoint lstrip_with (ws : list string) (fuel : nat) (s : string) : string :=
  match fuel with
  | O => s
  | S fuel' =>
      match first_some (map (fun w => drop_prefix w s) ws) with
      | Some r => lstrip_with ws fuel' r
      | None => s
      end
  end.

Definition lstrip (s : string) : string :=
  lstrip_with whitespace (String.length s) s.

Definition rstrip (s : string) : string :=
  rev_string
    (lstrip_with (map rev_string whitespace) (String.length s) (rev_string s)).

(** [s.strip()] *)
Definition strip (s : string) : string := rstrip (lstrip s).

(** Does [sub] occur in [s]?  ([sub in s]) *)
Fixpoint contains (sub s : string) : bool :=
  match drop_prefix sub s with
  | Some _ => true
  | None =>
      match s with
      | EmptyString => false
      | String _ s' => contains sub s'
      end
  end.

(** ** [re.search(r'\{.*\}', s, re.DOTALL)]

    With DOTALL the star runs over line ends, and it is greedy: the leftmost
    match starts at the first opening brace and ends at the last closing brace
    after it.  [None] when no closing brace follows the first opening one. *)

(** The prefix of [s] that ends with the last closing brace of [s]. *)
Fixpoint through_last_close (s : string) : option string :=
  match s with
  | EmptyString => None
  | String c r =>
      match through_last_close r with
      | Some t => Some (String c t)
      | None => if Ascii.eqb c "}" then Some (String c EmptyString) else None
      end
  end.

(** [re.search(...)] followed by [.group()] *)
Fixpoint search_braces (s : string) : option string :=
  match s with
  | EmptyString => None
  | String c r =>
      if Ascii.eqb c "{" then
        match through_last_close r with
        | Some t => Some (String c t)
        | None => None
        end
      else search_braces r
  end.

(** ** [template.format(name=value, ...)]

    Doubled braces are literal braces, a single closing brace or an unclosed
    field is a [ValueError], a field with an empty or numeric name asks for a
    positional argument that is not there ([IndexError]), a name that is not
    a keyword is a [KeyError] whose text is the name between single quotes
    (Python quotes a name with a quote or a backslash in it otherwise).  The templates of
    this repository use plain names only; a field with a conversion ([!r]), a
    format specification ([:>10]) or an attribute or index lookup can only be
    reached through text that an earlier call put into a template, and such a
    field is rendered here as [OtherException]. *)

(** Reads a field up to its closing brace: the name and the rest, or the
    character that stopped the scan. *)
Inductive field_scan : Type :=
| FieldName (name rest : string)
| FieldStop (c : ascii)
| FieldOpen.

Fixpoint scan_field (s : string) : field_scan :=
  match s with
  | EmptyString => FieldOpen
  | String c r =>
      if Ascii.eqb c "}" then FieldName "" r
      else if Ascii.eqb c "{" || Ascii.eqb c ":" || Ascii.eqb c "!"
              || Ascii.eqb c "." || Ascii.eqb c "[" then FieldStop c
      else match scan_field r with
           | FieldName n rest => FieldName (String c n) rest
           | other => other
           end
  end.

Definition is_digit (c : ascii) : bool :=
  (48 <=? nat_of_ascii c)%nat && (nat_of_ascii c <=? 57)%nat.

Fixpoint all_digits (s : string) : bool :=
  match s with
  | EmptyString => true
  | String c r => is_digit c && all_digits r
  end.

Definition nat_of_digits (s : string) : nat :=
  fold_left (fun acc c => 10 * acc + (nat_of_ascii c - 48))%nat
            (list_ascii_of_string s) 0%nat.

Fixpoint kw_get (k : string) (kw : list (string * string)) : option string :=
  match kw with
  | [] => None
  | (k', v) :: kw' => if String.eqb k k' then Some v else kw_get k kw'
  end.

Fixpoint format_with (fuel : nat) (tpl : string) (kw : list (string * string))
  : pyresult string :=
  match fuel with
  | O => Ok ""
  | S fuel' =>
      match tpl with
      | EmptyString => Ok ""
      | String c r =>
          if Ascii.eqb c "}" then
            match r with
            | String c' r' =>
                if Ascii.eqb c' "}" then
                  bind (format_with fuel' r' kw) (fun t => Ok (String "}" t))
                else Raise (MkExn ValueError
                                  "Single '}' encountered in format string")
            | EmptyString =>
                Raise (MkExn ValueError "Single '}' encountered in format string")
            end
          else if Ascii.eqb c "{" then
            match r with
            | EmptyString =>
                Raise (MkExn ValueError "Single '{' encountered in format string")
            | String c' r' =>
                if Ascii.eqb c' "{" then
                  bind (format_with fuel' r' kw) (fun t => Ok (String "{" t))
                else
                  match scan_field r with
                  | FieldOpen =>
                      Raise (MkExn ValueError "expected '}' before end of string")
                  | FieldStop stop =>
                      if Ascii.eqb stop "{" then
                        Raise (MkExn ValueError "unexpected '{' in field name")
                      else Raise (MkExn OtherException "unmodelled replacement field")
                  | FieldName name rest =>
                      if all_digits name then
                        Raise (MkExn IndexError
                          ("Replacement index " ++ str_of_nat (nat_of_digits name)
                           ++ " out of range for positional args tuple"))
                      else
                        match kw_get name kw with
                        | None => Raise (MkExn KeyError ("'" ++ name ++ "'"))
                        | Some v =>
                            bind (format_with fuel' rest kw)
                                 (fun t => Ok (v ++ t))
                        end
                  end
            end
          else bind (format_with fuel' r kw) (fun t => Ok (String c t))
      end
  end.

Definition format (tpl : string) (kw : list (string * string)) : pyresult string :=
  format_with (S (String.length tpl)) tpl kw.

(** ** [json.loads]

    The scanner of the [json] module: white space is space, tab, line feed
    and carriage return; a number without fraction and exponent is an [int],
    any other number a [float]; [NaN], [Infinity] and [-Infinity] are
    accepted; strings are read in strict mode (no control character, the
    escapes of JSON, a surrogate pair joined into one code point); an object
    with a repeated key keeps the last value; anything after the value but
    white space is an error.  Every failure is a [JSONDecodeError]; the text
    of that error (its line and column) is not modelled, as no caller reads
    it.  The limits of the interpreter (depth of recursion, digits of an
    integer), past which [json.loads] raises another exception, are not
    modelled; the facts proved below about the callers of [json_loads] hold
    for any exception it may raise. *)

Definition is_json_ws (c : ascii) : bool :=
  Ascii.eqb c " " || Ascii.eqb c (chr 9) || Ascii.eqb c (chr 10)
  || Ascii.eqb c (chr 13).

Fixpoint skip_ws (s : string) : string :=
  match s with
  | String c r => if is_json_ws c then skip_ws r else s
  | EmptyString => s
  end.

(** The longest prefix of digits, and the rest. *)
Fixpoint take_digits (s : string) : string * string :=
  match s with
  | String c r =>
      if is_digit c then let (d, r') := take_digits r in (String c d, r')
      else ("", s)
  | EmptyString => ("", s)
  end.

Definition scan_fraction (s : string) : string * string :=
  match s with
  | String c r =>
      if Ascii.eqb c "." then
        match take_digits r with
        | (EmptyString, _) => ("", s)
        | (d, r') => (String c d, r')
        end
      else ("", s)
  | EmptyString => ("", s)
  end.

Definition scan_exponent (s : string) : string * string :=
  match s with
  | String c r =>
      if Ascii.eqb c "e" || Ascii.eqb c "E" then
        let (sign, r1) :=
          match r with
          | String c' r' =>
              if Ascii.eqb c' "+" || Ascii.eqb c' "-"
              then (String c' "", r') else ("", r)
          | EmptyString => ("", r)
          end in
        match take_digits r1 with
        | (EmptyString, _) => ("", s)
        | (d, r2) => (String c (sign ++ d), r2)
        end
      else ("", s)
  | EmptyString => ("", s)
  end.

(** A number: an optional minus sign, then zero or a digit string that does
    not start with zero, then an optional fraction and an optional exponent. *)
Definition scan_number (s : string) : option (pyval * string) :=
  let (neg, s1) :=
    match s with
    | String c r => if Ascii.eqb c "-" then (true, r) else (false, s)
    | EmptyString => (false, s)
    end in
  match s1 with
  | String c r =>
      if is_digit c then
        let (ip, r1) := if Ascii.eqb c "0" then ("0", r) else take_digits s1 in
        let (frac, r2) := scan_fraction r1 in
        let (ex, r3) := scan_exponent r2 in
        match frac ++ ex with
        | EmptyString =>
            let n := Z.of_nat (nat_of_digits ip) in
            Some (PInt (if neg then (- n)%Z else n), r3)
        | tail => Some (PFloat ((if neg then "-" else "") ++ ip ++ tail), r3)
        end
      else None
  | EmptyString => None
  end.

Definition hex_value (c : ascii) : option N :=
  let n := N_of_ascii c in
  if ((48 <=? n) && (n <=? 57))%N then Some (n - 48)%N
  else if ((65 <=? n) && (n <=? 70))%N then Some (n - 55)%N
  else if ((97 <=? n) && (n <=? 102))%N then Some (n - 87)%N
  else None.

Definition hex4 (a b c d : ascii) : option N :=
  match hex_value a, hex_value b, hex_value c, hex_value d with
  | Some x, Some y, Some z, Some w => Some (((x * 16 + y) * 16 + z) * 16 + w)%N
  | _, _, _, _ => None
  end.

(** The UTF-8 encoding of a code point. *)
Definition utf8 (cp : N) : string :=
  let b (n : N) := ascii_of_N n in
  (if cp <? 128 then String (b cp) ""
   else if cp <? 2048 then
     String (b (192 + cp / 64)) (String (b (128 + cp mod 64)) "")
   else if cp <? 65536 then
     String (b (224 + cp / 4096))
       (String (b (128 + (cp / 64) mod 64)) (String (b (128 + cp mod 64)) ""))
   else
     String (b (240 + cp / 262144))
       (String (b (128 + (cp / 4096) mod 64))
          (String (b (128 + (cp / 64) mod 64))
             (String (b (128 + cp mod 64)) ""))))%N.

Definition is_high_surrogate (cp : N) : bool := ((55296 <=? cp) && (cp <=? 56319))%N.
Definition is_low_surrogate (cp : N) : bool := ((56320 <=? cp) && (cp <=? 57343))%N.

(** The characters of a string literal after its opening quote: the decoded
    text and what follows the closing quote. *)
Fixpoint scanstring (s : string) : option (string * string) :=
  let cons (t : string) (k : option (string * string)) :=
    match k with
    | Some (u, rest) => Some (t ++ u, rest)
    | None => None
    end in
  match s with
  | EmptyString => None
  | String c r =>
      if Ascii.eqb c dquote then Some ("", r)
      else if (N_of_ascii c <? 32)%N then None
      else if Ascii.eqb c "\" then
        match r with
        | String e r1 =>
            if Ascii.eqb e dquote then cons (String dquote "") (scanstring r1)
            else if Ascii.eqb e "\" then cons "\" (scanstring r1)
            else if Ascii.eqb e "/" then cons "/" (scanstring r1)
            else if Ascii.eqb e "b" then cons (String (chr 8) "") (scanstring r1)
            else if Ascii.eqb e "f" then cons (String (chr 12) "") (scanstring r1)
            else if Ascii.eqb e "n" then cons (String (chr 10) "") (scanstring r1)
            else if Ascii.eqb e "r" then cons (String (chr 13) "") (scanstring r1)
            else if Ascii.eqb e "t" then cons (String (chr 9) "") (scanstring r1)
            else if Ascii.eqb e "u" then
              match r1 with
              | String h1 (String h2 (String h3 (String h4 r2))) =>
                  match hex4 h1 h2 h3 h4 with
                  | None => None
                  | Some hi =>
                      match r2 with
                      | String b1 (String b2 (String l1 (String l2
                          (String l3 (String l4 r3))))) =>
                          match hex4 l1 l2 l3 l4 with
                          | Some lo =>
                              if Ascii.eqb b1 "\" && Ascii.eqb b2 "u"
                                 && is_high_surrogate hi && is_low_surrogate lo
                              then cons (utf8 (65536 + (hi - 55296) * 1024
                                               + (lo - 56320))%N)
                                        (scanstring r3)
                              else cons (utf8 hi) (scanstring r2)
                          | None => cons (utf8 hi) (scanstring r2)
                          end
                      | _ => cons (utf8 hi) (scanstring r2)
                      end
                  end
              | _ => None
              end
            else None
        | EmptyString => None
        end
      else cons (String c "") (scanstring r)
  end.

Definition scan_literal (s : string) : option (pyval * string) :=
  match drop_prefix "null" s with
  | Some r => Some (PNone, r)
  | None =>
  match drop_prefix "true" s with
  | Some r => Some (PBool true, r)
  | None =>
  match drop_prefix "false" s with
  | Some r => Some (PBool false, r)
  | None =>
  match drop_prefix "NaN" s with
  | Some r => Some (PFloat "NaN", r)
  | None =>
  match drop_prefix "Infinity" s with
  | Some r => Some (PFloat "Infinity", r)
  | None =>
  match drop_prefix "-Infinity" s with
  | Some r => Some (PFloat "-Infinity", r)
  | None => scan_number s
  end end end end end end.

(** [scan_once]: one value at the head of [s], and the rest.  The fuel
    bounds the nesting; [json_loads] gives more than any text can use
    (lemma [json_loads_fuel] below). *)
Fixpoint scan_once (fuel : nat) (s : string) : option (pyval * string) :=
  match fuel with
  | O => None
  | S fuel' =>
      match s with
      | EmptyString => None
      | String c r =>
          if Ascii.eqb c dquote then
            match scanstring r with
            | Some (t, rest) => Some (PStr t, rest)
            | None => None
            end
          else if Ascii.eqb c "{" then
            match skip_ws r with
            | String c' r' =>
                if Ascii.eqb c' "}" then Some (PDict [], r')
                else scan_members fuel' (String c' r') []
            | EmptyString => None
            end
          else if Ascii.eqb c "[" then
            match skip_ws r with
            | String c' r' =>
                if Ascii.eqb c' "]" then Some (PList [], r')
                else scan_elements fuel' (String c' r') []
            | EmptyString => None
            end
          else scan_literal s
      end
  end

with scan_members (fuel : nat) (s : string) (acc : list (string * pyval))
  : option (pyval * string) :=
  match fuel with
  | O => None
  | S fuel' =>
      match s with
      | String q r =>
          if Ascii.eqb q dquote then
            match scanstring r with
            | Some (key, r1) =>
                match skip_ws r1 with
                | String colon r2 =>
                    if Ascii.eqb colon ":" then
                      match scan_once fuel' (skip_ws r2) with
                      | Some (v, r3) =>
                          match skip_ws r3 with
                          | String d r4 =>
                              if Ascii.eqb d "}" then
                                Some (PDict (dict_set acc key v), r4)
                              else if Ascii.eqb d "," then
                                scan_members fuel' (skip_ws r4) (dict_set acc key v)
                              else None
                          | EmptyString => None
                          end
                      | None => None
                      end
                    else None
                | EmptyString => None
                end
            | None => None
            end
          else None
      | EmptyString => None
      end
  end

with scan_elements (fuel : nat) (s : string) (acc : list pyval)
  : option (pyval * string) :=
  match fuel with
  | O => None
  | S fuel' =>
      match scan_once fuel' s with
      | Some (v, r1) =>
          match skip_ws r1 with
          | String d r2 =>
              if Ascii.eqb d "]" then Some (PList (acc ++ [v])%list, r2)
              else if Ascii.eqb d "," then
                scan_elements fuel' (skip_ws r2) (acc ++ [v])%list
              else None
          | EmptyString => None
          end
      | None => None
      end
  end.

Definition decode_error (msg : string) : exn := MkExn JSONDecodeError msg.

Definition json_loads (s : string) : pyresult pyval :=
  match scan_once (2 * String.length s + 2) (skip_ws s) with
  | Some (v, r) =>
      match skip_ws r with
      | EmptyString => Ok v
      | String _ _ => Raise (decode_error "Extra data")
      end
  | None => Raise (decode_error "Expecting value")
  end.

(** A text with double quotes in it is written with [~] in their place. *)
Fixpoint q (s : string) : string :=
  match s with
  | EmptyString => EmptyString
  | String c r => String (if Ascii.eqb c "~" then dquote else c) (q r)
  end.

(** [str(v)].  Exact on [None], [bool], [int] and [str]; the programs below
    only reach it with a [str]. *)
Fixpoint str (v : pyval) : string :=
  match v with
  | PNone => "None"
  | PBool true => "True"
  | PBool false => "False"
  | PInt z => str_of_Z z
  | PFloat lexeme => lexeme
  | PStr s => s
  | PList l => "[" ++ join ", " (map str l) ++ "]"
  | PDict d =>
      "{" ++ join ", " (map (fun kv => "'" ++ fst kv ++ "': " ++ str (snd kv)) d)
      ++ "}"
  end.

End Py.

(* ================================================================== *)
(** * The request as the agent reads it *)
(* ================================================================== *)

Module Request.

(** One entry of ["addresses"]: a dict with an ["address"] string and an
    integer ["priority"]. *)
Record Address : Type := MkAddress { address : string; priority : Z }.

(** A key of the JSON body: left out, sent as [null], or sent with a value. *)
Inductive field (A : Type) : Type :=
| Absent
| Null
| Given (a : A).
Arguments Absent {A}.
Arguments Null {A}.
Arguments Given {A} a.

(** The dict [data] of the agent.  ["addresses"] is a list of well-formed
    entries (a body without the key reads as the empty list, as
    [data.get("addresses", [])] does); the delays are a dict from warehouse
    name to minutes, in insertion order. *)
Record Data : Type := MkData {
  addresses : list Address;
  weather_condition : field string;
  traffic_condition : field string;
  warehouse_delays : field (list (string * Z));
  special_requirements : field (list string)
}.

(** [data.get(key, default)]; [None] is Python's [None]. *)
Definition get_or {A} (f : field A) (default : option A) : option A :=
  match f with
  | Absent => default
  | Null => None
  | Given a => Some a
  end.

(** [[addr["address"] for addr in data.get("addresses", [])]] *)
Definition address_strings (data : Data) : list Py.pyval :=
  map (fun addr => Py.PStr (address addr)) (addresses data).

End Request.

(* ================================================================== *)
(** * agent/crewai_agents.py: the pipeline mode *)
(* ================================================================== *)

Module Crew.
Import Py Request.

(** The four task objects made once by [setup_tasks]; only their
    [description] matters here. *)
Record Tasks : Type := MkTasks {
  weather_task : string;
  traffic_task : string;
  route_task : string;
  coordination_task : string
}.

Definition setup_tasks : Tasks :=
  {| weather_task :=
       join nl
       ["Analyze the weather conditions: {weather_condition}";
        "            and provide insights on how it affects delivery routes.";
        "            Consider factors like:";
        "            - Road safety";
        "            - Visibility";
        "            - Delivery time impact";
        "            - Special precautions needed";
        "            ";
        "            Return your analysis in JSON format with fields:";
        "            - impact_level: low/medium/high";
        "            - safety_concerns: list of concerns";
        "            - time_adjustment: estimated time increase in minutes";
        "            - recommendations: list of recommendations"];
     traffic_task :=
       join nl
       ["Analyze the traffic conditions: {traffic_condition}";
        "            and provide insights on optimal routing strategies.";
        "            Consider factors like:";
        "            - Peak hours impact";
        "            - Alternative routes";
        "            - Time delays";
        "            - Route efficiency";
        "            ";
        "            Return your analysis in JSON format with fields:";
        "            - congestion_level: low/medium/high";
        "            - estimated_delay: minutes of delay";
        "            - alternative_routes: list of alternative options";
        "            - optimal_timing: best times for delivery"];
     route_task :=
       join nl
       ["Create an optimized delivery route for the following addresses:";
        "            {addresses}";
        "            ";
        "            Consider:";
        "            - Customer priorities: {priorities}";
        "            - Weather analysis from weather analyst";
        "            - Traffic analysis from traffic monitor";
        "            - Special requirements: {special_requirements}";
        "            ";
        "            Return the optimized route in JSON format with fields:";
        "            - optimized_route: ordered list of addresses";
        "            - total_estimated_time: estimated total delivery time";
        "            - route_efficiency_score: efficiency rating 1-10";
        "            - reasoning: detailed explanation of route optimization"];
     coordination_task :=
       join nl
       ["As the delivery coordinator, synthesize all analyses and ";
        "            create the final optimized delivery plan.";
        "            ";
        "            Use insights from:";
        "            - Weather analysis";
        "            - Traffic analysis  ";
        "            - Route planning";
        "            ";
        "            Create the final delivery plan in JSON format with fields:";
        "            - optimized_route: final ordered list of addresses";
        "            - explanation: comprehensive explanation of the optimization strategy";
        "            - total_estimated_time: final estimated delivery time";
        "            - risk_assessment: potential risks and mitigations";
        "            - success_probability: probability of successful delivery (1-10)"] |}.

(** Code that reads and assigns the attributes of [self] and may raise: the
    assignments made before an exception stay. *)
Definition M (A : Type) : Type := Tasks -> pyresult A * Tasks.

Definition ret {A} (a : A) : M A := fun st => (Ok a, st).

Definition lift {A} (r : pyresult A) : M A := fun st => (r, st).

Definition mbind {A B} (m : M A) (k : A -> M B) : M B :=
  fun st =>
    match m st with
    | (Ok a, st') => k a st'
    | (Raise e, st') => (Raise e, st')
    end.

Notation "x <~ m ;; k" := (mbind m (fun x => k))
  (at level 61, m at next level, right associativity).

Definition read {A} (f : Tasks -> A) : M A := fun st => (Ok (f st), st).

Definition assign (f : Tasks -> Tasks) : M unit := fun st => (Ok tt, f st).

Definition mtry {A} (body : M A) (clauses : list (clause A)) : M A :=
  fun st =>
    match body st with
    | (Ok a, st') => (Ok a, st')
    | (Raise e, st') => (handle clauses e, st')
    end.

Definition set_weather_task (d : string) (st : Tasks) : Tasks :=
  {| weather_task := d; traffic_task := traffic_task st;
     route_task := route_task st; coordination_task := coordination_task st |}.

Definition set_traffic_task (d : string) (st : Tasks) : Tasks :=
  {| weather_task := weather_task st; traffic_task := d;
     route_task := route_task st; coordination_task := coordination_task st |}.

Definition set_route_task (d : string) (st : Tasks) : Tasks :=
  {| weather_task := weather_task st; traffic_task := traffic_task st;
     route_task := d; coordination_task := coordination_task st |}.

(** How [format] renders a value that is a [str] or [None]. *)
Definition str_or_None (o : option string) : string :=
  match o with
  | Some s => s
  | None => "None"
  end.

(** The result for a reply without braces. *)
Definition no_json_result (addresses : list Address) (result : string) : pyval :=
  PDict [("optimized_route", PList (map (fun addr => PStr (address addr)) addresses));
         ("explanation", PStr result);
         ("total_estimated_time", PStr "2-3 часа");
         ("risk_assessment", PStr "Стандартные риски доставки");
         ("success_probability", PInt 8)].

(** The result when the text between the braces does not parse. *)
Definition parse_error_result (addresses : list Address) (result : pyval) : pyval :=
  PDict [("optimized_route", PList (map (fun addr => PStr (address addr)) addresses));
         ("explanation", PStr ("CrewAI анализ завершен. Результат: " ++ str result));
         ("total_estimated_time", PStr "2-3 часа");
         ("risk_assessment", PStr "Анализ завершен успешно");
         ("success_probability", PInt 7)].

(** The result of the outermost [except]. *)
Definition error_result (data : Data) (e : exn) : pyval :=
  PDict [("optimized_route", PList (address_strings data));
         ("explanation", PStr ("Ошибка CrewAI: " ++ exn_str e));
         ("total_estimated_time", PStr "неизвестно");
         ("risk_assessment", PStr "Ошибка в процессе анализа");
         ("success_probability", PInt 1)].

(** The first half of [RouteOptimizationCrew.optimize_route]: the strings
    made from [data], and the three descriptions overwritten with their own
    formatted text. *)
Definition update_descriptions (data : Data) : M unit :=
  let addresses := addresses data in
  let weather := get_or (weather_condition data) (Some "unknown") in
  let traffic := get_or (traffic_condition data) (Some "unknown") in
  let requirements := get_or (special_requirements data) (Some []) in
  let addresses_str :=
    join nl (map (fun ia => str_of_nat (fst ia + 1) ++ ". " ++ address (snd ia)
                             ++ " (приоритет: " ++ str_of_Z (priority (snd ia))
                             ++ "/5)")
                 (enumerate addresses 0)) in
  let priorities_str :=
    join ", " (map (fun addr => address addr ++ ": " ++ str_of_Z (priority addr))
                   addresses) in
  description <~ read weather_task ;;
  description <~ lift (format description
                         [("weather_condition", str_or_None weather)]) ;;
  _ <~ assign (set_weather_task description) ;;
  description <~ read traffic_task ;;
  description <~ lift (format description
                         [("traffic_condition", str_or_None traffic)]) ;;
  _ <~ assign (set_traffic_task description) ;;
  description <~ read route_task ;;
  description <~ lift (format description
                         [("addresses", addresses_str);
                          ("priorities", priorities_str);
                          ("special_requirements",
                           match requirements with
                           | Some (r :: rs) => join ", " (r :: rs)
                           | _ => "нет"
                           end)]) ;;
  assign (set_route_task description).

(** The last part of [RouteOptimizationCrew.optimize_route]: the inner
    [try] that turns the output of the crew into the result. *)
Definition process_result (addresses : list Address) (result : pyval)
  : pyresult pyval :=
  try_except
    (match result with
     | PStr text =>
         match search_braces text with
         | Some json_match =>
             result_json <- json_loads json_match ;; Ok result_json
         | None => Ok (no_json_result addresses text)
         end
     | _ => Ok result
     end)
    [(fun e => is_JSONDecodeError e || is_AttributeError e,
      fun e => Ok (parse_error_result addresses result))].

(** [RouteOptimizationCrew.optimize_route].  [kickoff] is the crew made of
    the four agents and the four tasks, and its [crew.kickoff()]: it runs the
    tasks as they are described at that moment and gives the output of the
    last one, or raises. *)
Definition optimize_route (kickoff : Tasks -> pyresult pyval) (data : Data)
  : M pyval :=
  mtry
    (_ <~ update_descriptions data ;;
     result <~ (fun st => (kickoff st, st)) ;;
     lift (process_result (addresses data) result))
    [(Exception, fun e => Ok (error_result data e))].

End Crew.

(* ================================================================== *)
(** * agent/main.py: the direct mode *)
(* ================================================================== *)

Module Agent.
Import Py Request.

Definition system_prompt : string :=
  join nl
  ["Ты выступаешь как модуль автономного агента для оптимизации маршрутов доставки в учебном проекте. ";
   "";
   "На вход ты получаешь список заказов и локаций, а также упрощённые условия: пробки, погода, задержки на складах, приоритет клиентов. ";
   "";
   "На выходе ты должен предложить оптимизированный маршрут — в виде упорядоченного списка адресов и краткого пояснения. ";
   "";
   "Решай задачу так, будто это реальное время, но используй эвристики и логику рассуждений вместо точного математического расчёта.";
   "";
   "Отвечай ТОЛЬКО в формате JSON:";
   "{";
   q "    ~optimized_route~: [~адрес1~, ~адрес2~, ~адрес3~],";
   q "    ~explanation~: ~краткое пояснение логики оптимизации~,";
   q "    ~total_estimated_time~: ~примерное время в часах~";
   "}"].

Definition weather_desc : list (string * string) :=
  [("sunny", "солнечная погода"); ("rain", "дождь"); ("snow", "снег");
   ("fog", "туман")].

Definition traffic_desc : list (string * string) :=
  [("light", "легкие пробки"); ("moderate", "умеренные пробки");
   ("heavy", "сильные пробки")].

(** [d.get(k, default)] on a dict of strings *)
Definition desc_get (d : list (string * string)) (k default : string) : string :=
  match kw_get k d with
  | Some v => v
  | None => default
  end.

Definition prompt_head : string :=
  join nl
  ["";
   "Задача оптимизации маршрута доставки:";
   "";
   "АДРЕСА ДОСТАВКИ:";
   ""].

Definition prompt_tail : string :=
  join nl
  ["";
   "Определи оптимальный порядок доставки, учитывая:";
   "1. Приоритеты клиентов";
   "2. Погодные условия";
   "3. Пробки";
   "4. Задержки на складах";
   "5. Особые требования";
   "";
   "Ответь в формате JSON с полями: optimized_route, explanation, total_estimated_time";
   ""].

(** [RouteOptimizerAgent.create_prompt].  [if weather:] holds for a [str]
    that is not empty; [if delays:] and [if requirements:] for a dict or a
    list that is not empty. *)
Definition create_prompt (data : Data) : string :=
  let addresses := addresses data in
  let weather := get_or (weather_condition data) None in
  let traffic := get_or (traffic_condition data) None in
  let delays := get_or (warehouse_delays data) (Some []) in
  let requirements := get_or (special_requirements data) (Some []) in
  let prompt := prompt_head in
  let prompt :=
    fold_left (fun prompt ia =>
                 prompt ++ str_of_nat (fst ia) ++ ". " ++ address (snd ia)
                 ++ " (приоритет: " ++ str_of_Z (priority (snd ia)) ++ "/5)" ++ nl)
              (enumerate addresses 1) prompt in
  let prompt := prompt ++ nl ++ "УСЛОВИЯ:" ++ nl in
  let prompt :=
    match weather with
    | Some (String _ _ as w) =>
        prompt ++ "- Погода: " ++ desc_get weather_desc w w ++ nl
    | _ => prompt
    end in
  let prompt :=
    match traffic with
    | Some (String _ _ as t) =>
        prompt ++ "- Пробки: " ++ desc_get traffic_desc t t ++ nl
    | _ => prompt
    end in
  let prompt :=
    match delays with
    | Some (d :: ds) =>
        fold_left (fun prompt wd =>
                     prompt ++ "  * " ++ fst wd ++ ": +" ++ str_of_Z (snd wd)
                     ++ " минут" ++ nl)
                  (d :: ds) (prompt ++ "- Задержки на складах:" ++ nl)
    | _ => prompt
    end in
  let prompt :=
    match requirements with
    | Some (r :: rs) =>
        prompt ++ "- Особые требования: " ++ join ", " (r :: rs) ++ nl
    | _ => prompt
    end in
  prompt ++ prompt_tail.

(** The result for a reply that is not JSON. *)
Definition not_json_result (data : Data) (result_text : string) : pyval :=
  PDict [("optimized_route", PList (address_strings data));
         ("explanation", PStr result_text);
         ("total_estimated_time", PStr "2-3 часа")].

(** The result of the outer [except]. *)
Definition error_result (data : Data) (e : exn) : pyval :=
  PDict [("optimized_route", PList (address_strings data));
         ("explanation", PStr ("Ошибка при обращении к ChatGPT: " ++ exn_str e));
         ("total_estimated_time", PStr "неизвестно")].

(** [response.choices[0]]: the content of the first choice's message, a
    [str] or [None]. *)
Definition first_choice (choices : list (option string)) : pyresult (option string) :=
  match choices with
  | c :: _ => Ok c
  | [] => Raise (MkExn IndexError "list index out of range")
  end.

(** [content.strip()] *)
Definition content_strip (content : option string) : pyresult string :=
  match content with
  | Some s => Ok (strip s)
  | None => Raise (MkExn AttributeError
                         "'NoneType' object has no attribute 'strip'")
  end.

(** The [messages] argument of the call: the role and the content of each. *)
Definition messages (prompt : string) : list (string * string) :=
  [("system", system_prompt); ("user", prompt)].

(** [RouteOptimizerAgent.optimize_route].  [create] is
    [client.chat.completions.create]: given the messages (role and content)
    it returns the contents of the choices, or raises. *)
Definition optimize_route
           (create : list (string * string) -> pyresult (list (option string)))
           (data : Data) : pyresult pyval :=
  try_except
    (let prompt := create_prompt data in
     response <- create (messages prompt) ;;
     content <- first_choice response ;;
     result_text <- content_strip content ;;
     try_except
       (result <- json_loads result_text ;; Ok result)
       [(is_JSONDecodeError, fun _ => Ok (not_json_result data result_text))])
    [(Exception, fun e => Ok (error_result data e))].

(** The result of the [except] of [optimize_route_crewai]. *)
Definition crewai_error_result (data : Data) (e : exn) : pyval :=
  PDict [("optimized_route", PList (address_strings data));
         ("explanation", PStr ("Ошибка CrewAI: " ++ exn_str e));
         ("total_estimated_time", PStr "неизвестно");
         ("risk_assessment", PStr "Ошибка в процессе анализа");
         ("success_probability", PInt 1)].

(** [RouteOptimizerAgent.optimize_route_crewai]: [self.crew_optimizer] is the
    one [RouteOptimizationCrew] made when the module-level [agent] is built. *)
Definition optimize_route_crewai (kickoff : Crew.Tasks -> pyresult pyval)
           (data : Data) : Crew.M pyval :=
  Crew.mtry (Crew.optimize_route kickoff data)
            [(Exception, fun e => Ok (crewai_error_result data e))].

(** The calls [agent.optimize_route_crewai(data)] that one process makes for
    the requests it receives, one after the other, on the same [agent]: the
    results, each with the task descriptions its crew ran with. *)
Fixpoint serve_crewai (kickoff : Crew.Tasks -> pyresult pyval)
         (requests : list Data) (st : Crew.Tasks)
  : list (pyresult pyval * Crew.Tasks) :=
  match requests with
  | [] => []
  | data :: rest =>
      let r := optimize_route_crewai kickoff data st in
      r :: serve_crewai kickoff rest (snd r)
  end.

End Agent.

(* ================================================================== *)
(** * backend/main.py: the gateway *)
(* ================================================================== *)

Module Backend.
Import Py.

(** ** The pydantic models.  A body is taken well typed: FastAPI answers
    any other body itself (status 422) and never calls the handler. *)

Record Address : Type := MkAddress { address : string; priority : Z }.

(** An entry of ["addresses"] as the client sends it: ["priority"] may be
    left out. *)
Record AddressBody : Type := MkAddressBody {
  body_address : string;
  body_priority : option Z
}.

(** [class Address(BaseModel)]: [address: str], [priority: int = 1] *)
Definition Address_validate (b : AddressBody) : Address :=
  {| address := body_address b;
     priority := match body_priority b with
                 | Some p => p
                 | None => 1%Z
                 end |}.

(** [class DeliveryRequest(BaseModel)]; a key left out or sent as [null] is
    [None]. *)
Record DeliveryRequest : Type := MkDeliveryRequest {
  addresses : list Address;
  weather_condition : option string;
  traffic_condition : option string;
  warehouse_delays : option (list (string * pyval));
  special_requirements : option (list string)
}.

Record DeliveryRequestBody : Type := MkDeliveryRequestBody {
  body_addresses : list AddressBody;
  body_weather_condition : option string;
  body_traffic_condition : option string;
  body_warehouse_delays : option (list (string * pyval));
  body_special_requirements : option (list string)
}.

Definition DeliveryRequest_validate (b : DeliveryRequestBody) : DeliveryRequest :=
  {| addresses := map Address_validate (body_addresses b);
     weather_condition := body_weather_condition b;
     traffic_condition := body_traffic_condition b;
     warehouse_delays := body_warehouse_delays b;
     special_requirements := body_special_requirements b |}.

(** [class RouteResponse(BaseModel)] *)
Record RouteResponse : Type := MkRouteResponse {
  optimized_route : list string;
  explanation : string;
  total_estimated_time : option string
}.

Definition validation_error (loc : string) : exn :=
  MkExn OtherException ("1 validation error for RouteResponse" ++ nl ++ loc).

(** [List[str]] *)
Fixpoint list_of_str (l : list pyval) : option (list string) :=
  match l with
  | [] => Some []
  | PStr s :: l' =>
      match list_of_str l' with
      | Some t => Some (s :: t)
      | None => None
      end
  | _ :: _ => None
  end.

(** [RouteResponse(optimized_route=..., explanation=...,
    total_estimated_time=...)]: each argument has to be of the declared type
    (conversions that pydantic may apply to a value of another type are not
    modelled: such a value is a validation error here). *)
Definition RouteResponse_init (route expl time : pyval) : pyresult RouteResponse :=
  match route with
  | PList l =>
      match list_of_str l with
      | Some strs =>
          match expl with
          | PStr e =>
              match time with
              | PNone => Ok (MkRouteResponse strs e None)
              | PStr t => Ok (MkRouteResponse strs e (Some t))
              | _ => Raise (validation_error "total_estimated_time")
              end
          | _ => Raise (validation_error "explanation")
          end
      | None => Raise (validation_error "optimized_route")
      end
  | _ => Raise (validation_error "optimized_route")
  end.

Definition type_name (v : pyval) : string :=
  match v with
  | PNone => "NoneType"
  | PBool _ => "bool"
  | PInt _ => "int"
  | PFloat _ => "float"
  | PStr _ => "str"
  | PList _ => "list"
  | PDict _ => "dict"
  end.

(** [result.get(key, default)]: only a dict has the method. *)
Definition get_method (result : pyval) (key : string) (default : pyval)
  : pyresult pyval :=
  match result with
  | PDict d =>
      match dict_get key d with
      | Some v => Ok v
      | None => Ok default
      end
  | _ => Raise (MkExn AttributeError
                      ("'" ++ type_name result ++ "' object has no attribute 'get'"))
  end.

(** [raise HTTPException(status_code=..., detail=...)]; [str(e)] is the
    status and the detail, as current Starlette renders it (the text is only
    copied into the detail of a 500 answer). *)
Definition http_exception (status_code : Z) (detail : string) : exn :=
  MkExn (HTTPException status_code detail) (str_of_Z status_code ++ ": " ++ detail).

(** What [client.post] returns: [json] is what [response.json()] gives. *)
Record Response : Type := MkResponse {
  status_code : Z;
  text : string;
  json : pyresult pyval
}.

Definition opt_str (o : option string) : pyval :=
  match o with
  | Some s => PStr s
  | None => PNone
  end.

(** The dict [agent_data] sent to the agent. *)
Definition agent_data (request : DeliveryRequest) : pyval :=
  PDict [("addresses",
          PList (map (fun addr => PDict [("address", PStr (address addr));
                                         ("priority", PInt (priority addr))])
                     (addresses request)));
         ("weather_condition", opt_str (weather_condition request));
         ("traffic_condition", opt_str (traffic_condition request));
         ("warehouse_delays",
          match warehouse_delays request with
          | Some d => PDict d
          | None => PNone
          end);
         ("special_requirements",
          match special_requirements request with
          | Some l => PList (map PStr l)
          | None => PNone
          end)].

(** What the client of the gateway receives. *)
Record HttpResponse : Type := MkHttpResponse { status : Z; body : pyval }.

(** FastAPI around a handler: a returned [RouteResponse] is sent with status
    200 as the three keys of the response model; an [HTTPException] is sent
    with its status and its detail; any other exception is a bare 500. *)
Definition respond (r : pyresult RouteResponse) : HttpResponse :=
  match r with
  | Ok resp =>
      MkHttpResponse 200
        (PDict [("optimized_route", PList (map PStr (optimized_route resp)));
                ("explanation", PStr (explanation resp));
                ("total_estimated_time", opt_str (total_estimated_time resp))])
  | Raise e =>
      match exn_cls e with
      | HTTPException code detail => MkHttpResponse code (PDict [("detail", PStr detail)])
      | _ => MkHttpResponse 500 (PStr "Internal Server Error")
      end
  end.

Section Handlers.

(** [AGENT_URL] is read from the environment; [post url json timeout] is
    [client.post] of an [httpx.AsyncClient]. *)
Variable AGENT_URL : string.
Variable post : string -> pyval -> Z -> pyresult Response.

(** [optimize_route], the handler of [POST /optimize-route] *)
Definition optimize_route (request : DeliveryRequest) : pyresult RouteResponse :=
  try_except
    (_ <- (match addresses request with
           | [] => Raise (http_exception 400 "Список адресов не может быть пустым")
           | _ :: _ => Ok tt
           end) ;;
     _ <- (if (List.length (addresses request) <? 2)%nat
           then Raise (http_exception 400
                         "Необходимо минимум 2 адреса для оптимизации")
           else Ok tt) ;;
     let agent_data := agent_data request in
     response <- post (AGENT_URL ++ "/optimize") agent_data 30 ;;
     _ <- (if negb (status_code response =? 200)%Z
           then Raise (http_exception 500 ("Ошибка агента: " ++ text response))
           else Ok tt) ;;
     result <- json response ;;
     route <- get_method result "optimized_route" (PList []) ;;
     expl <- get_method result "explanation" (PStr "") ;;
     time <- get_method result "total_estimated_time" PNone ;;
     RouteResponse_init route expl time)
    [(is_TimeoutException,
      fun _ => Raise (http_exception 504 "Таймаут запроса к агенту"));
     (is_ConnectError,
      fun _ => Raise (http_exception 503 "Агент недоступен"));
     (Exception,
      fun e => Raise (http_exception 500
                        ("Внутренняя ошибка сервера: " ++ exn_str e)))].

(** [optimize_route_crewai], the handler of [POST /optimize-route-crewai] *)
Definition optimize_route_crewai (request : DeliveryRequest)
  : pyresult RouteResponse :=
  try_except
    (_ <- (match addresses request with
           | [] => Raise (http_exception 400 "Список адресов не может быть пустым")
           | _ :: _ => Ok tt
           end) ;;
     _ <- (if (List.length (addresses request) <? 2)%nat
           then Raise (http_exception 400
                         "Необходимо минимум 2 адреса для оптимизации")
           else Ok tt) ;;
     let agent_data := agent_data request in
     response <- post (AGENT_URL ++ "/optimize-crewai") agent_data 60 ;;
     _ <- (if negb (status_code response =? 200)%Z
           then Raise (http_exception 500
                         ("Ошибка CrewAI агента: " ++ text response))
           else Ok tt) ;;
     result <- json response ;;
     route <- get_method result "optimized_route" (PList []) ;;
     expl <- get_method result "explanation" (PStr "") ;;
     time <- get_method result "total_estimated_time" PNone ;;
     RouteResponse_init route expl time)
    [(is_TimeoutException,
      fun _ => Raise (http_exception 504 "Таймаут запроса к CrewAI агенту"));
     (is_ConnectError,
      fun _ => Raise (http_exception 503 "CrewAI агент недоступен"));
     (Exception,
      fun e => Raise (http_exception 500
                        ("Внутренняя ошибка сервера: " ++ exn_str e)))].

(** The two endpoints as the client sees them. *)
Definition post_optimize_route (b : DeliveryRequestBody) : HttpResponse :=
  respond (optimize_route (DeliveryRequest_validate b)).

Definition post_optimize_route_crewai (b : DeliveryRequestBody) : HttpResponse :=
  respond (optimize_route_crewai (DeliveryRequest_validate b)).

End Handlers.

End Backend.

(* ================================================================== *)
(** * agent/main.py: the endpoints *)
(* ================================================================== *)

Module AgentApp.
Import Py Request.

(** What [request.get_json()] returns when the body is a JSON object whose
    keys have the types the agent reads them at: each of the five keys left
    out, null or given, and the keys the agent never reads. *)
Record Body : Type := MkBody {
  key_addresses : field (list Address);
  key_weather_condition : field string;
  key_traffic_condition : field string;
  key_warehouse_delays : field (list (string * Z));
  key_special_requirements : field (list string);
  other_keys : list (string * pyval)
}.

(** The dict as [optimize_route] reads it. *)
Definition data_of (b : Body) : Data :=
  {| addresses := match key_addresses b with
                  | Given l => l
                  | _ => []
                  end;
     weather_condition := key_weather_condition b;
     traffic_condition := key_traffic_condition b;
     warehouse_delays := key_warehouse_delays b;
     special_requirements := key_special_requirements b |}.

Definition is_absent {A} (f : field A) : bool :=
  match f with
  | Absent => true
  | _ => false
  end.

(** [not data]: no body, or a dict without any key. *)
Definition not_data (data : option Body) : bool :=
  match data with
  | None => true
  | Some b =>
      is_absent (key_addresses b) && is_absent (key_weather_condition b)
      && is_absent (key_traffic_condition b) && is_absent (key_warehouse_delays b)
      && is_absent (key_special_requirements b)
      && match other_keys b with
         | [] => true
         | _ :: _ => false
         end
  end.

(** ["addresses" not in data or not data["addresses"]] *)
Definition no_addresses (b : Body) : bool :=
  match key_addresses b with
  | Given (_ :: _) => false
  | _ => true
  end.

(** [jsonify({"error": msg})] *)
Definition error (msg : string) : pyval := PDict [("error", PStr msg)].

(** [health_check], the handler of [GET /] *)
Definition health_check : Z * pyval :=
  (200%Z, PDict [("status", PStr "agent running");
                 ("service", PStr "route-optimizer-agent")]).

(** [optimize], the handler of [POST /optimize]: the status and the JSON of
    the answer.  [get_json] is [request.get_json()], which raises when the
    body cannot be read as JSON. *)
Definition optimize
           (create : list (string * string) -> pyresult (list (option string)))
           (get_json : pyresult (option Body)) : pyresult (Z * pyval) :=
  try_except
    (data <- get_json ;;
     match data with
     | Some b =>
         if not_data data then Ok (400%Z, error "Отсутствуют данные")
         else if no_addresses b then Ok (400%Z, error "Необходим список адресов")
         else
           result <- Agent.optimize_route create (data_of b) ;;
           Ok (200%Z, result)
     | None => Ok (400%Z, error "Отсутствуют данные")
     end)
    [(Exception, fun e => Ok (500%Z, error ("Внутренняя ошибка: " ++ exn_str e)))].

(** [optimize_crewai], the handler of [POST /optimize-crewai] *)
Definition optimize_crewai (kickoff : Crew.Tasks -> pyresult pyval)
           (get_json : pyresult (option Body)) : Crew.M (Z * pyval) :=
  Crew.mtry
    (Crew.mbind (Crew.lift get_json) (fun data =>
     match data with
     | Some b =>
         if not_data data then Crew.ret (400%Z, error "Отсутствуют данные")
         else if no_addresses b then
           Crew.ret (400%Z, error "Необходим список адресов")
         else
           Crew.mbind (Agent.optimize_route_crewai kickoff (data_of b))
                      (fun result => Crew.ret (200%Z, result))
     | None => Crew.ret (400%Z, error "Отсутствуют данные")
     end))
    [(Exception, fun e => Ok (500%Z, error ("Внутренняя ошибка: " ++ exn_str e)))].

(** The data of [test_endpoint] and of [test_crewai_endpoint]. *)
Definition test_data : Data :=
  MkData [MkAddress "ул. Ленина, 10, Москва" 3%Z;
          MkAddress "пр. Мира, 25, Москва" 5%Z;
          MkAddress "ул. Тверская, 15, Москва" 2%Z]
         (Given "rain") (Given "heavy") (Given [("warehouse_1", 15%Z)])
         (Given ["хрупкий груз"]).

Definition test_data_crewai : Data :=
  MkData [MkAddress "ул. Ленина, 10, Москва" 3%Z;
          MkAddress "пр. Мира, 25, Москва" 5%Z;
          MkAddress "ул. Тверская, 15, Москва" 2%Z]
         (Given "rain") (Given "heavy") (Given [("warehouse_1", 15%Z)])
         (Given ["хрупкий груз"; "срочная доставка"]).

(** [test_endpoint], the handler of [GET /test]: no [try] of its own. *)
Definition test_endpoint
           (create : list (string * string) -> pyresult (list (option string)))
  : pyresult (Z * pyval) :=
  result <- Agent.optimize_route create test_data ;; Ok (200%Z, result).

(** [test_crewai_endpoint], the handler of [GET /test-crewai] *)
Definition test_crewai_endpoint (kickoff : Crew.Tasks -> pyresult pyval)
  : Crew.M (Z * pyval) :=
  Crew.mbind (Agent.optimize_route_crewai kickoff test_data_crewai)
             (fun result => Crew.ret (200%Z, result)).

(** One request to the process: which endpoint, and what it was sent. *)
Inductive call : Type :=
| PostOptimize (get_json : pyresult (option Body))
| PostOptimizeCrewai (get_json : pyresult (option Body))
| GetTest
| GetTestCrewai
| GetRoot.

(** The answer to one request, and the tasks of the process after it. *)
Definition answer
           (create : list (string * string) -> pyresult (list (option string)))
           (kickoff : Crew.Tasks -> pyresult pyval) (c : call)
  : Crew.M (Z * pyval) :=
  match c with
  | PostOptimize get_json => Crew.lift (optimize create get_json)
  | PostOptimizeCrewai get_json => optimize_crewai kickoff get_json
  | GetTest => Crew.lift (test_endpoint create)
  | GetTestCrewai => test_crewai_endpoint kickoff
  | GetRoot => Crew.ret health_check
  end.

(** The requests of one process, one after the other, starting with the
    tasks as they are. *)
Fixpoint serve
         (create : list (string * string) -> pyresult (list (option string)))
         (kickoff : Crew.Tasks -> pyresult pyval)
         (calls : list call) (st : Crew.Tasks)
  : list (pyresult (Z * pyval)) * Crew.Tasks :=
  match calls with
  | [] => ([], st)
  | c :: rest =>
      let (r, st') := answer create kickoff c st in
      let (rs, st'') := serve create kickoff rest st' in
      (r :: rs, st'')
  end.

(** ** The JSON the gateway sends, as the agent reads it *)

Definition read_field {A} (read : pyval -> option A) (v : option pyval)
  : option (field A) :=
  match v with
  | None => Some Absent
  | Some PNone => Some Null
  | Some x =>
      match read x with
      | Some a => Some (Given a)
      | None => None
      end
  end.

Definition read_str (v : pyval) : option string :=
  match v with
  | PStr s => Some s
  | _ => None
  end.

Fixpoint read_all {A B} (read : A -> option B) (l : list A) : option (list B) :=
  match l with
  | [] => Some []
  | x :: l' =>
      match read x, read_all read l' with
      | Some a, Some t => Some (a :: t)
      | _, _ => None
      end
  end.

Definition read_list {A} (read : pyval -> option A) (v : pyval) : option (list A) :=
  match v with
  | PList l => read_all read l
  | _ => None
  end.

(** An entry of ["addresses"]: a dict with a string under ["address"] and an
    integer under ["priority"]. *)
Definition read_address (v : pyval) : option Address :=
  match get "address" v, get "priority" v with
  | Some (PStr a), Some (PInt p) => Some (MkAddress a p)
  | _, _ => None
  end.

Definition read_delay (kv : string * pyval) : option (string * Z) :=
  match snd kv with
  | PInt z => Some (fst kv, z)
  | _ => None
  end.

Definition read_delays (v : pyval) : option (list (string * Z)) :=
  match v with
  | PDict d => read_all read_delay d
  | _ => None
  end.

Definition read_keys : list string :=
  ["addresses"; "weather_condition"; "traffic_condition"; "warehouse_delays";
   "special_requirements"].

(** The reading of a JSON value at the types of [Body]; [None] for a value
    that is no dict or has a key of another type (such bodies are outside
    this model of the agent). *)
Definition of_json (j : pyval) : option Body :=
  match j with
  | PDict d =>
      match read_field (read_list read_address) (dict_get "addresses" d),
            read_field read_str (dict_get "weather_condition" d),
            read_field read_str (dict_get "traffic_condition" d),
            read_field read_delays (dict_get "warehouse_delays" d),
            read_field (read_list read_str) (dict_get "special_requirements" d)
      with
      | Some a, Some w, Some t, Some dl, Some r =>
          Some (MkBody a w t dl r
                  (filter (fun kv => negb (existsb (String.eqb (fst kv)) read_keys)) d))
      | _, _, _, _, _ => None
      end
  | _ => None
  end.

End AgentApp.

(* ================================================================== *)
(** * The gateway in front of the agent *)
(* ================================================================== *)

Module Deploy.
Import Py.

(** A request of the gateway whose warehouse delays are integers. *)
Definition typed_delays (d : list (string * Z)) : list (string * pyval) :=
  map (fun kz => (fst kz, PInt (snd kz))) d.

Definition field_of_option {A} (o : option A) : Request.field A :=
  match o with
  | Some a => Request.Given a
  | None => Request.Null
  end.

(** The body the agent gets from the gateway for the validated request with
    the given addresses, conditions, integer delays and requirements: every
    key is there, null when the client gave no value. *)
Definition forwarded (addresses : list Backend.Address)
           (weather traffic : option string)
           (delays : option (list (string * Z)))
           (requirements : option (list string)) : AgentApp.Body :=
  AgentApp.MkBody
    (Request.Given (map (fun a => Request.MkAddress (Backend.address a)
                                                    (Backend.priority a))
                        addresses))
    (field_of_option weather) (field_of_option traffic)
    (field_of_option delays) (field_of_option requirements) [].

(** The agent behind [post] is this agent in the direct mode: to the JSON
    [j] that reads as [body], it answers what [optimize] answers. *)
Definition agent_answers
           (create : list (string * string) -> pyresult (list (option string)))
           (body : AgentApp.Body) (response : Backend.Response) : Prop :=
  exists code result,
    AgentApp.optimize create (Ok (Some body)) = Ok (code, result)
    /\ Backend.status_code response = code
    /\ Backend.json response = Ok result.

(** The same in the pipeline mode, for a process with tasks [st]. *)
Definition crew_answers (kickoff : Crew.Tasks -> pyresult pyval) (st : Crew.Tasks)
           (body : AgentApp.Body) (response : Backend.Response) : Prop :=
  exists code result,
    fst (AgentApp.optimize_crewai kickoff (Ok (Some body)) st) = Ok (code, result)
    /\ Backend.status_code response = code
    /\ Backend.json response = Ok result.

End Deploy.

(* ================================================================== *)
(** * The RouteResult shape of the specification *)
(* ================================================================== *)

Module RouteResult.
Import Py.

Fixpoint all_str (l : list pyval) : bool :=
  match l with
  | [] => true
  | PStr _ :: l' => all_str l'
  | _ :: _ => false
  end.

(** An object with an [optimized_route] that is a list of strings and an
    [explanation] that is a string. *)
Definition conforms (v : pyval) : bool :=
  match get "optimized_route" v, get "explanation" v with
  | Some (PList l), Some (PStr _) => all_str l
  | _, _ => false
  end.

(** Does [c] occur in [s]? *)
Fixpoint has_char (c : ascii) (s : string) : bool :=
  match s with
  | EmptyString => false
  | String c' s' => Ascii.eqb c c' || has_char c s'
  end.

(** [sub] occurs in [s]. *)
Definition infix (sub s : string) : Prop :=
  exists pre post, s = pre ++ sub ++ post.

(** The prefixes of [s] that are not empty. *)
Fixpoint prefixes (s : string) : list string :=
  match s with
  | EmptyString => []
  | String c r => String c "" :: map (String c) (prefixes r)
  end.

(** The substrings of [s] that are not empty. *)
Fixpoint substrings (s : string) : list string :=
  match s with
  | EmptyString => []
  | String _ r => (prefixes s ++ substrings r)%list
  end.

(** Does some part of [s] parse as a JSON object? *)
Definition has_json_object (s : string) : bool :=
  existsb (fun sub => match json_loads sub with
                      | Ok (PDict _) => true
                      | _ => false
                      end)
          (substrings s).

End RouteResult.

(* ================================================================== *)
(** * The prompts, part by part *)
(* ================================================================== *)

Module Rendering.
Import Py Request.

(** The line of an address, without its line end. *)
Definition address_line (i : nat) (a : Address) : string :=
  str_of_nat i ++ ". " ++ address a ++ " (приоритет: " ++ str_of_Z (priority a)
  ++ "/5)".

Definition weather_part (data : Data) : string :=
  match get_or (weather_condition data) None with
  | Some (String _ _ as w) =>
      "- Погода: " ++ Agent.desc_get Agent.weather_desc w w ++ nl
  | _ => ""
  end.

Definition traffic_part (data : Data) : string :=
  match get_or (traffic_condition data) None with
  | Some (String _ _ as t) =>
      "- Пробки: " ++ Agent.desc_get Agent.traffic_desc t t ++ nl
  | _ => ""
  end.

Definition delay_line (wd : string * Z) : string :=
  "  * " ++ fst wd ++ ": +" ++ str_of_Z (snd wd) ++ " минут" ++ nl.

Definition delays_part (data : Data) : string :=
  match get_or (warehouse_delays data) (Some []) with
  | Some (d :: ds) =>
      "- Задержки на складах:" ++ nl ++ String.concat "" (map delay_line (d :: ds))
  | _ => ""
  end.

Definition requirements_part (data : Data) : string :=
  match get_or (special_requirements data) (Some []) with
  | Some (r :: rs) => "- Особые требования: " ++ join ", " (r :: rs) ++ nl
  | _ => ""
  end.

(** The prompt of the direct mode as the sequence of its parts, to be
    compared with [Agent.create_prompt]. *)
Definition prompt (data : Data) : string :=
  Agent.prompt_head
  ++ String.concat ""
       (map (fun ia => address_line (fst ia) (snd ia) ++ nl)
            (enumerate (addresses data) 1))
  ++ (nl ++ "УСЛОВИЯ:" ++ nl)
  ++ weather_part data ++ traffic_part data ++ delays_part data
  ++ requirements_part data ++ Agent.prompt_tail.

(** The descriptions of the pipeline mode with their fields filled in, to
    be compared with what [format] makes of the templates. *)
Definition weather_description (weather : string) : string :=
  join nl
    ["Analyze the weather conditions: " ++ weather;
     "            and provide insights on how it affects delivery routes.";
     "            Consider factors like:";
     "            - Road safety";
     "            - Visibility";
     "            - Delivery time impact";
     "            - Special precautions needed";
     "            ";
     "            Return your analysis in JSON format with fields:";
     "            - impact_level: low/medium/high";
     "            - safety_concerns: list of concerns";
     "            - time_adjustment: estimated time increase in minutes";
     "            - recommendations: list of recommendations"].

Definition traffic_description (traffic : string) : string :=
  join nl
    ["Analyze the traffic conditions: " ++ traffic;
     "            and provide insights on optimal routing strategies.";
     "            Consider factors like:";
     "            - Peak hours impact";
     "            - Alternative routes";
     "            - Time delays";
     "            - Route efficiency";
     "            ";
     "            Return your analysis in JSON format with fields:";
     "            - congestion_level: low/medium/high";
     "            - estimated_delay: minutes of delay";
     "            - alternative_routes: list of alternative options";
     "            - optimal_timing: best times for delivery"].

Definition route_description (addresses_str priorities_str requirements : string)
  : string :=
  join nl
    ["Create an optimized delivery route for the following addresses:";
     "            " ++ addresses_str;
     "            ";
     "            Consider:";
     "            - Customer priorities: " ++ priorities_str;
     "            - Weather analysis from weather analyst";
     "            - Traffic analysis from traffic monitor";
     "            - Special requirements: " ++ requirements;
     "            ";
     "            Return the optimized route in JSON format with fields:";
     "            - optimized_route: ordered list of addresses";
     "            - total_estimated_time: estimated total delivery time";
     "            - route_efficiency_score: efficiency rating 1-10";
     "            - reasoning: detailed explanation of route optimization"].

(** The three strings that [update_descriptions] makes from the request. *)
Definition addresses_str (data : Data) : string :=
  join nl (map (fun ia => address_line (fst ia + 1) (snd ia))
               (enumerate (addresses data) 0)).

Definition priorities_str (data : Data) : string :=
  join ", " (map (fun addr => address addr ++ ": " ++ str_of_Z (priority addr))
                 (addresses data)).

Definition requirements_str (data : Data) : string :=
  match get_or (special_requirements data) (Some []) with
  | Some (r :: rs) => join ", " (r :: rs)
  | _ => "нет"
  end.

(** The tasks of a fresh process after its first call. *)
Definition described (data : Data) : Crew.Tasks :=
  {| Crew.weather_task :=
       weather_description
         (Crew.str_or_None (get_or (weather_condition data) (Some "unknown")));
     Crew.traffic_task :=
       traffic_description
         (Crew.str_or_None (get_or (traffic_condition data) (Some "unknown")));
     Crew.route_task :=
       route_description (addresses_str data) (priorities_str data)
                         (requirements_str data);
     Crew.coordination_task := Crew.coordination_task Crew.setup_tasks |}.

End Rendering.

(* ================================================================== *)
(** * Notions for the further properties *)
(* ================================================================== *)

Module Notions.
Import Py Request RouteResult.

(** An answer of the gateway as its handlers can give it: status 200, 500,
    503 or 504, and with status 200 the three keys of [RouteResponse]. *)
Definition gateway_answer (answer : Backend.HttpResponse) : Prop :=
  (Backend.status answer = 200 \/ Backend.status answer = 500
   \/ Backend.status answer = 503 \/ Backend.status answer = 504)%Z
  /\ (Backend.status answer = 200%Z ->
      exists route expl time,
        Backend.body answer
        = PDict [("optimized_route", PList (map PStr route));
                 ("explanation", PStr expl);
                 ("total_estimated_time", Backend.opt_str time)]).

(** What the gateway requires of the JSON of the agent to answer 200: a dict
    whose [optimized_route] (the empty list when missing) is a list of
    strings, whose [explanation] (the empty string when missing) is a string
    and whose [total_estimated_time] (null when missing) is a string or
    null. *)
Definition kept (v : pyval) (route : list string) (expl : string)
           (time : option string) : Prop :=
  exists d,
    v = PDict d
    /\ Backend.get_method (PDict d) "optimized_route" (PList [])
       = Ok (PList (map PStr route))
    /\ Backend.get_method (PDict d) "explanation" (PStr "") = Ok (PStr expl)
    /\ Backend.get_method (PDict d) "total_estimated_time" PNone
       = Ok (Backend.opt_str time).

(** A text without braces. *)
Definition no_brace (s : string) : bool :=
  negb (has_char "{" s) && negb (has_char "}" s).

(** A request none of whose texts that go into the task descriptions has a
    brace: the addresses, the weather, the traffic and the requirements. *)
Definition brace_free (data : Data) : bool :=
  forallb (fun a => no_brace (address a)) (addresses data)
  && no_brace (Crew.str_or_None (get_or (weather_condition data) (Some "unknown")))
  && no_brace (Crew.str_or_None (get_or (traffic_condition data) (Some "unknown")))
  && match get_or (special_requirements data) (Some []) with
     | Some l => forallb no_brace l
     | None => true
     end.

(** Tasks whose three formatted descriptions have no brace left. *)
Definition settled (st : Crew.Tasks) : bool :=
  no_brace (Crew.weather_task st) && no_brace (Crew.traffic_task st)
  && no_brace (Crew.route_task st).

(** An answer of a handler of the agent: a status among 200, 400 and 500
    with a JSON body, no exception. *)
Definition agent_answer (r : pyresult (Z * pyval)) : Prop :=
  exists code v, r = Ok (code, v) /\ (code = 200 \/ code = 400 \/ code = 500)%Z.

End Notions.

(* ================================================================== *)
(** * Sample requests and replies *)
(* ================================================================== *)

Module Samples.
Import Py.

(** The request of the end-to-end scenario: A with priority 3, B with
    priority 5, rain, heavy traffic. *)
Definition body_AB : Backend.DeliveryRequestBody :=
  Backend.MkDeliveryRequestBody
    [Backend.MkAddressBody "A" (Some 3%Z); Backend.MkAddressBody "B" (Some 5%Z)]
    (Some "rain") (Some "heavy") None None.

(** The same with no priority given for B. *)
Definition body_AB_no_priority : Backend.DeliveryRequestBody :=
  Backend.MkDeliveryRequestBody
    [Backend.MkAddressBody "A" (Some 3%Z); Backend.MkAddressBody "B" None]
    (Some "rain") (Some "heavy") None None.

Definition body_empty : Backend.DeliveryRequestBody :=
  Backend.MkDeliveryRequestBody [] None None None None.

Definition agent_url : string := "http://localhost:5000".

(** The reply of the agent in the scenario, and one of the pipeline mode. *)
Definition reply_three_fields : pyval :=
  PDict [("optimized_route", PList [PStr "B"; PStr "A"]);
         ("explanation", PStr "B is higher priority");
         ("total_estimated_time", PStr "1 hour")].

Definition reply_five_fields : pyval :=
  PDict [("optimized_route", PList [PStr "B"; PStr "A"]);
         ("explanation", PStr "B is higher priority");
         ("total_estimated_time", PStr "1 hour");
         ("risk_assessment", PStr "rain slows the second leg");
         ("success_probability", PInt 8)].

(** An agent that answers every call with status 200 and the given JSON. *)
Definition post_replying (reply : pyval) (url : string) (data : pyval) (timeout : Z)
  : pyresult Backend.Response :=
  Ok (Backend.MkResponse 200 "" (Ok reply)).

(** The same request as the agent reads it. *)
Definition data_AB : Request.Data :=
  Request.MkData [Request.MkAddress "A" 3%Z; Request.MkAddress "B" 5%Z]
                 (Request.Given "rain") (Request.Given "heavy")
                 Request.Null Request.Null.

Definition data_CD : Request.Data :=
  Request.MkData [Request.MkAddress "C" 1%Z; Request.MkAddress "D" 2%Z]
                 (Request.Given "snow") (Request.Given "light")
                 Request.Null Request.Null.

(** The request of the endpoint [/test-crewai]. *)
Definition data_test : Request.Data :=
  Request.MkData [Request.MkAddress "ул. Ленина, 10, Москва" 3%Z;
                  Request.MkAddress "пр. Мира, 25, Москва" 5%Z;
                  Request.MkAddress "ул. Тверская, 15, Москва" 2%Z]
                 (Request.Given "rain") (Request.Given "heavy")
                 (Request.Given [("warehouse_1", 15%Z)])
                 (Request.Given ["хрупкий груз"; "срочная доставка"]).

(** A request with a delay and an empty list of requirements. *)
Definition data_no_requirements : Request.Data :=
  Request.MkData [Request.MkAddress "A" 3%Z; Request.MkAddress "B" 5%Z]
                 (Request.Given "rain") (Request.Given "heavy")
                 (Request.Given [("warehouse_1", 15%Z)]) (Request.Given []).

(** An address with braces in it. *)
Definition data_braces : Request.Data :=
  Request.MkData [Request.MkAddress "Main St 5 {rear entrance}" 4%Z;
                  Request.MkAddress "B" 5%Z]
                 Request.Null Request.Null Request.Null Request.Null.

(** A model that times out, and models that reply with a given text. *)
Definition timed_out : exn := MkExn OtherException "Request timed out.".

Definition create_failing (msgs : list (string * string))
  : pyresult (list (option string)) := Raise timed_out.

Definition create_replying (text : string) (msgs : list (string * string))
  : pyresult (list (option string)) := Ok [Some text].

Definition kickoff_failing (tasks : Crew.Tasks) : pyresult pyval := Raise timed_out.

Definition kickoff_replying (text : string) (tasks : Crew.Tasks) : pyresult pyval :=
  Ok (PStr text).

(** A crew whose last agent repeats the route task it was given. *)
Definition kickoff_echo (tasks : Crew.Tasks) : pyresult pyval :=
  Ok (PStr (Crew.route_task tasks)).

(** Replies of the model. *)
Definition text_json : string :=
  q "{~optimized_route~: [~B~, ~A~], ~explanation~: ~B is higher priority~}".

Definition text_json_in_prose : string :=
  q "Here is the plan: {~optimized_route~: [~B~, ~A~], ~explanation~: ~B is higher priority~}".

Definition text_json_then_braces : string :=
  q "{~optimized_route~: [~B~, ~A~], ~explanation~: ~B is higher priority~} see note {1}".

Definition text_empty_route : string :=
  q "{~optimized_route~: [], ~explanation~: ~no route found~}".

Definition text_number : string := "42".

Definition text_plain : string := "Visit B first, then A.".

Definition text_plain_padded : string := " Visit B first, then A. ".

Definition text_plain_braces : string := "Visit {B} first, then {A}.".

(** An agent that cannot be reached, and one that is too slow. *)
Definition refused : exn := MkExn ConnectError "All connection attempts failed".

Definition read_timeout : exn := MkExn TimeoutException "".

Definition post_failing (e : exn) (url : string) (data : pyval) (timeout : Z)
  : pyresult Backend.Response := Raise e.

(** The body of [body_AB] as the agent reads it from the gateway. *)
Definition forwarded_AB : AgentApp.Body :=
  AgentApp.MkBody
    (Request.Given [Request.MkAddress "A" 3%Z; Request.MkAddress "B" 5%Z])
    (Request.Given "rain") (Request.Given "heavy") Request.Null Request.Null [].

(** A body sent to the agent directly, with the addresses alone. *)
Definition direct_AB : AgentApp.Body :=
  AgentApp.MkBody
    (Request.Given [Request.MkAddress "A" 3%Z; Request.MkAddress "B" 5%Z])
    Request.Absent Request.Absent Request.Absent Request.Absent [].

(** Another body sent to the agent directly. *)
Definition direct_CD : AgentApp.Body :=
  AgentApp.MkBody
    (Request.Given [Request.MkAddress "C" 1%Z; Request.MkAddress "D" 2%Z])
    (Request.Given "snow") Request.Absent Request.Absent Request.Absent [].

(** An object with an object inside, between two lines of prose. *)
Definition text_nested_in_prose : string :=
  "Plan:" ++ nl
  ++ q "{~optimized_route~: [~B~, ~A~], ~explanation~: ~B first~, ~times~: {~B~: 1, ~A~: 2}}"
  ++ nl ++ "Done.".

(** Two addresses and nothing else, and the body the agent reads then. *)
Definition body_AB_bare : Backend.DeliveryRequestBody :=
  Backend.MkDeliveryRequestBody
    [Backend.MkAddressBody "A" (Some 3%Z); Backend.MkAddressBody "B" (Some 5%Z)]
    None None None None.

Definition forwarded_AB_bare : AgentApp.Body :=
  AgentApp.MkBody
    (Request.Given [Request.MkAddress "A" 3%Z; Request.MkAddress "B" 5%Z])
    Request.Null Request.Null Request.Null Request.Null [].

End Samples.

(* ================================================================== *)
(** * Facts about the gateway *)
(* ================================================================== *)

Section GatewayFacts.
Import Py Backend.

Variable AGENT_URL : string.
Variable post : string -> pyval -> Z -> pyresult Response.

Lemma list_of_str_map (l : list string) : list_of_str (map PStr l) = Some l.
Proof.
  induction l as [|s l IH]; simpl; [reflexivity|].
  now rewrite IH.
Qed.

(** With two addresses or more, the handler runs up to the call of the
    agent, and the outcome of that call decides the rest. *)
Lemma optimize_route_upstream_raises (request : DeliveryRequest) (e : exn) :
  (2 <= List.length (addresses request))%nat ->
  post (AGENT_URL ++ "/optimize") (agent_data request) 30 = Raise e ->
  optimize_route AGENT_URL post request = handle
    [(is_TimeoutException,
      fun _ => Raise (http_exception 504 "Таймаут запроса к агенту"));
     (is_ConnectError,
      fun _ => Raise (http_exception 503 "Агент недоступен"));
     (Exception,
      fun e => Raise (http_exception 500
                        ("Внутренняя ошибка сервера: " ++ exn_str e)))] e.
Proof.
  intros Hlen Hpost. unfold optimize_route.
  destruct (addresses request) as [|a [|a' l]] eqn:Ha; simpl in Hlen; try lia.
  simpl. rewrite Hpost. reflexivity.
Qed.

(** What the spec says of upstream failures holds: 504 for a timeout, 503
    for a refused connection, 500 for anything else. *)
Lemma upstream_failure_status (request : DeliveryRequest) (e : exn) :
  (2 <= List.length (addresses request))%nat ->
  post (AGENT_URL ++ "/optimize") (agent_data request) 30 = Raise e ->
  status (respond (optimize_route AGENT_URL post request)) =
    match exn_cls e with
    | TimeoutException => 504
    | ConnectError => 503
    | _ => 500
    end%Z.
Proof.
  intros Hlen Hpost.
  rewrite (optimize_route_upstream_raises request e Hlen Hpost).
  destruct e as [[] msg]; reflexivity.
Qed.

Lemma upstream_bad_status (request : DeliveryRequest) (response : Response) :
  (2 <= List.length (addresses request))%nat ->
  post (AGENT_URL ++ "/optimize") (agent_data request) 30 = Ok response ->
  status_code response <> 200%Z ->
  status (respond (optimize_route AGENT_URL post request)) = 500%Z.
Proof.
  intros Hlen Hpost Hcode. unfold optimize_route.
  destruct (addresses request) as [|a [|a' l]] eqn:Ha; simpl in Hlen; try lia.
  simpl. rewrite Hpost. simpl.
  destruct (Z.eqb_spec (status_code response) 200); [contradiction|].
  reflexivity.
Qed.

(** A reply with status 200 whose JSON is a dict. *)
Lemma optimize_route_200 (request : DeliveryRequest) (response : Response)
      (d : list (string * pyval)) :
  (2 <= List.length (addresses request))%nat ->
  post (AGENT_URL ++ "/optimize") (agent_data request) 30 = Ok response ->
  status_code response = 200%Z ->
  json response = Ok (PDict d) ->
  optimize_route AGENT_URL post request =
    try_except
      (route <- get_method (PDict d) "optimized_route" (PList []) ;;
       expl <- get_method (PDict d) "explanation" (PStr "") ;;
       time <- get_method (PDict d) "total_estimated_time" PNone ;;
       RouteResponse_init route expl time)
      [(is_TimeoutException,
        fun _ => Raise (http_exception 504 "Таймаут запроса к агенту"));
       (is_ConnectError,
        fun _ => Raise (http_exception 503 "Агент недоступен"));
       (Exception,
        fun e => Raise (http_exception 500
                          ("Внутренняя ошибка сервера: " ++ exn_str e)))].
Proof.
  intros Hlen Hpost Hcode Hjson. unfold optimize_route.
  destruct (addresses request) as [|a [|a' l]] eqn:Ha; simpl in Hlen; try lia.
  simpl. rewrite Hpost. simpl. rewrite Hcode, Hjson. reflexivity.
Qed.

Lemma optimize_route_crewai_200 (request : DeliveryRequest) (response : Response)
      (d : list (string * pyval)) :
  (2 <= List.length (addresses request))%nat ->
  post (AGENT_URL ++ "/optimize-crewai") (agent_data request) 60 = Ok response ->
  status_code response = 200%Z ->
  json response = Ok (PDict d) ->
  optimize_route_crewai AGENT_URL post request =
    try_except
      (route <- get_method (PDict d) "optimized_route" (PList []) ;;
       expl <- get_method (PDict d) "explanation" (PStr "") ;;
       time <- get_method (PDict d) "total_estimated_time" PNone ;;
       RouteResponse_init route expl time)
      [(is_TimeoutException,
        fun _ => Raise (http_exception 504 "Таймаут запроса к CrewAI агенту"));
       (is_ConnectError,
        fun _ => Raise (http_exception 503 "CrewAI агент недоступен"));
       (Exception,
        fun e => Raise (http_exception 500
                          ("Внутренняя ошибка сервера: " ++ exn_str e)))].
Proof.
  intros Hlen Hpost Hcode Hjson. unfold optimize_route_crewai.
  destruct (addresses request) as [|a [|a' l]] eqn:Ha; simpl in Hlen; try lia.
  simpl. rewrite Hpost. simpl. rewrite Hcode, Hjson. reflexivity.
Qed.

(** The three keys the response model keeps, read from a well-typed reply. *)
Lemma kept_fields (d : list (string * pyval)) (route : list string)
      (expl : string) (time : option string) :
  get_method (PDict d) "optimized_route" (PList []) = Ok (PList (map PStr route)) ->
  get_method (PDict d) "explanation" (PStr "") = Ok (PStr expl) ->
  get_method (PDict d) "total_estimated_time" PNone = Ok (opt_str time) ->
  (route' <- get_method (PDict d) "optimized_route" (PList []) ;;
   expl' <- get_method (PDict d) "explanation" (PStr "") ;;
   time' <- get_method (PDict d) "total_estimated_time" PNone ;;
   RouteResponse_init route' expl' time')
  = Ok (MkRouteResponse route expl time).
Proof.
  intros Hr He Ht. rewrite Hr, He, Ht. simpl.
  rewrite list_of_str_map.
  destruct time; reflexivity.
Qed.

End GatewayFacts.

Import Py.

(* ================================================================== *)
(** * Facts about the library functions *)
(* ================================================================== *)

Import RouteResult.

#[local] Arguments Ascii.eqb : simpl never.

Lemma append_assoc (a b c : string) : (a ++ b) ++ c = a ++ (b ++ c).
Proof.
  induction a as [|x a IH]; simpl; [reflexivity|].
  now rewrite IH.
Qed.

Lemma append_nil_r (a : string) : a ++ "" = a.
Proof.
  induction a as [|x a IH]; simpl; [reflexivity|].
  now rewrite IH.
Qed.

Lemma infix_refl (s : string) : infix s s.
Proof.
  exists "", "". simpl. now rewrite append_nil_r.
Qed.

Lemma infix_app_l (sub s t : string) : infix sub s -> infix sub (s ++ t).
Proof.
  intros (pre & post & ->). exists pre, (post ++ t).
  now rewrite !append_assoc.
Qed.

Lemma infix_app_r (sub s t : string) : infix sub s -> infix sub (t ++ s).
Proof.
  intros (pre & post & ->). exists (t ++ pre), post.
  now rewrite !append_assoc.
Qed.

(** Every failure of [json_loads] is a [JSONDecodeError]. *)
Lemma json_loads_raises (s : string) (e : exn) :
  json_loads s = Raise e -> is_JSONDecodeError e = true.
Proof.
  unfold json_loads.
  destruct (scan_once _ _) as [[v r]|].
  - destruct (skip_ws r); intros H; inversion H; reflexivity.
  - intros H; inversion H; reflexivity.
Qed.

(** *** The match of the pattern: from the first opening brace to the last
    closing brace *)

Lemma through_last_close_none (s : string) :
  through_last_close s = None -> has_char "}" s = false.
Proof.
  induction s as [|c r IH]; simpl; [reflexivity|].
  destruct (through_last_close r) as [t'|]; [discriminate|].
  destruct (Ascii.eqb_spec c "}") as [->|Hc]; [discriminate|].
  intros _. destruct (Ascii.eqb_spec "}"%char c) as [E|_]; [congruence|].
  simpl. now apply IH.
Qed.

Lemma through_last_close_spec (s t : string) :
  through_last_close s = Some t ->
  exists body post,
    t = body ++ "}" /\ s = t ++ post /\ has_char "}" post = false.
Proof.
  revert t. induction s as [|c r IH]; intros t H; simpl in H; [discriminate|].
  destruct (through_last_close r) as [t'|] eqn:Hr.
  - inversion H; subst t. destruct (IH t' eq_refl) as (body & post & Ht & Hs & Hp).
    exists (String c body), post. simpl. rewrite <- Ht, <- Hs. auto.
  - destruct (Ascii.eqb_spec c "}") as [->|Hc]; [|discriminate].
    inversion H; subst t. exists "", r. simpl.
    auto using through_last_close_none.
Qed.

Lemma search_braces_spec (s span : string) :
  search_braces s = Some span ->
  exists pre body post,
    s = pre ++ span ++ post
    /\ span = "{" ++ body ++ "}"
    /\ has_char "{" pre = false
    /\ has_char "}" post = false.
Proof.
  revert span. induction s as [|c r IH]; intros span H; simpl in H; [discriminate|].
  destruct (Ascii.eqb_spec c "{") as [->|Hc].
  - destruct (through_last_close r) as [t|] eqn:Hr; [|discriminate].
    inversion H; subst span.
    destruct (through_last_close_spec r t Hr) as (body & post & Ht & Hs & Hp).
    exists "", body, post. simpl. rewrite <- Ht, <- Hs. auto.
  - destruct (IH span H) as (pre & body & post & Hs & Hspan & Hpre & Hpost).
    exists (String c pre), body, post. simpl. rewrite <- Hs.
    destruct (Ascii.eqb_spec "{"%char c) as [E|_]; [congruence|].
    auto.
Qed.

(** No match: the text has no closing brace after its first opening one. *)
Lemma search_braces_none (s : string) :
  search_braces s = None ->
  has_char "{" s = false
  \/ exists pre rest,
       s = pre ++ "{" ++ rest /\ has_char "{" pre = false
       /\ has_char "}" rest = false.
Proof.
  induction s as [|c r IH]; simpl; [now left|].
  destruct (Ascii.eqb_spec c "{") as [->|Hc].
  - destruct (through_last_close r) as [t|] eqn:Hr; [discriminate|].
    intros _. right. exists "", r. simpl.
    auto using through_last_close_none.
  - intros H. destruct (Ascii.eqb_spec "{"%char c) as [E|_]; [congruence|].
    destruct (IH H) as [Hn|(pre & rest & -> & Hpre & Hrest)].
    + now left.
    + right. exists (String c pre), rest. simpl.
      destruct (Ascii.eqb_spec "{"%char c) as [E|_]; [congruence|]. auto.
Qed.

(** *** Fuel: the scanners and [format] are given enough *)

Ltac lens := cbn [String.length] in *; lia.

Lemma drop_prefix_length (p s r : string) :
  drop_prefix p s = Some r -> String.length s = String.length p + String.length r.
Proof.
  revert s. induction p as [|a p IH]; intros [|b s] H; cbn [drop_prefix] in H;
    try discriminate; try (injection H as <-; reflexivity).
  destruct (Ascii.eqb a b); [|discriminate].
  cbn [String.length]. rewrite (IH s H). reflexivity.
Qed.

Lemma skip_ws_length (s : string) : String.length (skip_ws s) <= String.length s.
Proof.
  induction s as [|c r IH]; simpl; [lia|].
  destruct (is_json_ws c); simpl; lia.
Qed.

Lemma take_digits_length (s d r : string) :
  take_digits s = (d, r) -> String.length r <= String.length s.
Proof.
  revert d r. induction s as [|c s IH]; intros d r H; simpl in H.
  - inversion H. simpl. lia.
  - destruct (is_digit c).
    + destruct (take_digits s) as [d' r'] eqn:E. inversion H; subst.
      specialize (IH d' r eq_refl). simpl. lia.
    + inversion H. simpl. lia.
Qed.

Lemma scan_fraction_length (s d r : string) :
  scan_fraction s = (d, r) -> String.length r <= String.length s.
Proof.
  unfold scan_fraction. destruct s as [|c s]; intros H.
  - inversion H; simpl; lia.
  - destruct (Ascii.eqb c "."); [|inversion H; simpl; lia].
    destruct (take_digits s) as [d' r'] eqn:E.
    pose proof (take_digits_length _ _ _ E).
    destruct d'; inversion H; subst; simpl; lia.
Qed.

Lemma scan_exponent_length (s d r : string) :
  scan_exponent s = (d, r) -> String.length r <= String.length s.
Proof.
  unfold scan_exponent. destruct s as [|c s]; intros H.
  - inversion H; simpl; lia.
  - destruct (Ascii.eqb c "e" || Ascii.eqb c "E"); [|inversion H; simpl; lia].
    destruct s as [|c' s'].
    + simpl in H. inversion H; simpl; lia.
    + destruct (Ascii.eqb c' "+" || Ascii.eqb c' "-").
      * destruct (take_digits s') as [d' r'] eqn:E.
        pose proof (take_digits_length _ _ _ E).
        destruct d'; inversion H; subst; simpl; lia.
      * destruct (take_digits (String c' s')) as [d' r'] eqn:E.
        pose proof (take_digits_length _ _ _ E).
        destruct d'; inversion H; subst; simpl in *; lia.
Qed.

Lemma scan_number_length (s : string) (v : pyval) (r : string) :
  scan_number s = Some (v, r) -> String.length r < String.length s.
Proof.
  unfold scan_number.
  destruct s as [|c s]; [discriminate|].
  destruct (Ascii.eqb c "-").
  - destruct s as [|c1 s1]; [discriminate|].
    destruct (is_digit c1); [|discriminate].
    destruct (if Ascii.eqb c1 "0" then ("0", s1) else take_digits (String c1 s1))
      as [ip r1] eqn:E1.
    assert (String.length r1 <= String.length (String c1 s1)).
    { destruct (Ascii.eqb c1 "0"); [inversion E1; simpl; lia|].
      now apply (take_digits_length _ ip). }
    destruct (scan_fraction r1) as [fr r2] eqn:E2.
    pose proof (scan_fraction_length _ _ _ E2).
    destruct (scan_exponent r2) as [ex r3] eqn:E3.
    pose proof (scan_exponent_length _ _ _ E3).
    destruct (fr ++ ex); intros H'; inversion H'; subst; simpl in *; lia.
  - destruct (is_digit c) eqn:Hd; [|discriminate].
    destruct (if Ascii.eqb c "0" then ("0", s) else take_digits (String c s))
      as [ip r1] eqn:E1.
    assert (String.length r1 <= String.length s).
    { destruct (Ascii.eqb c "0"); [inversion E1; simpl; lia|].
      simpl in E1. rewrite Hd in E1.
      destruct (take_digits s) as [d' r'] eqn:E. inversion E1; subst.
      now apply (take_digits_length _ d'). }
    destruct (scan_fraction r1) as [fr r2] eqn:E2.
    pose proof (scan_fraction_length _ _ _ E2).
    destruct (scan_exponent r2) as [ex r3] eqn:E3.
    pose proof (scan_exponent_length _ _ _ E3).
    destruct (fr ++ ex); intros H'; inversion H'; subst; simpl in *; lia.
Qed.

Lemma scan_literal_length (s : string) (v : pyval) (r : string) :
  scan_literal s = Some (v, r) -> String.length r < String.length s.
Proof.
  unfold scan_literal.
  repeat match goal with
         | |- context [drop_prefix ?p s] =>
             let E := fresh "E" in
             destruct (drop_prefix p s) eqn:E;
             [apply drop_prefix_length in E; simpl in E; intros H; inversion H; subst; lia|]
         end.
  apply scan_number_length.
Qed.






Ltac rest_shorter H :=
  injection H as _ <-; cbn [String.length] in *; lia.

Lemma scanstring_length_aux (n : nat) :
  forall s t r, String.length s <= n -> scanstring s = Some (t, r) ->
                String.length r < String.length s.
Proof.
  induction n as [|n IH]; intros s t r Hn H; destruct s as [|c s1];
    cbn [String.length] in Hn; try discriminate; try lia.
  cbn [scanstring] in H.
  destruct (Ascii.eqb c dquote); [rest_shorter H|].
  destruct (N_of_ascii c <? 32)%N; [discriminate|].
  destruct (Ascii.eqb c "\").
  2:{ destruct (scanstring s1) as [[u rest]|] eqn:E; [|discriminate].
      apply IH in E; [|lia]. rest_shorter H. }
  destruct s1 as [|e r1]; [discriminate|].
  cbn [String.length] in *.
  repeat (match type of H with
          | (if ?b then match scanstring r1 with _ => _ end else _) = _ =>
              destruct b;
              [destruct (scanstring r1) as [[u rest]|] eqn:E; [|discriminate];
               apply IH in E; [|lia]; rest_shorter H|]
          end).
  destruct (Ascii.eqb e "u"); [|discriminate].
  destruct r1 as [|h1 [|h2 [|h3 [|h4 r2]]]]; try discriminate.
  destruct (hex4 h1 h2 h3 h4) as [hi|]; [|discriminate].
  cbn [String.length] in *.
  assert (Hr2 : forall u rest, scanstring r2 = Some (u, rest) ->
                               String.length rest < String.length r2)
    by (intros u rest E; apply IH in E; [exact E|lia]).
  assert (Hplain : match scanstring r2 with
                   | Some (u, rest) => Some (utf8 hi ++ u, rest)
                   | None => None
                   end = Some (t, r) -> String.length r < String.length r2).
  { destruct (scanstring r2) as [[u2 rest2]|]; [|discriminate].
    intros H'. specialize (Hr2 u2 rest2 eq_refl). rest_shorter H'. }
  destruct r2 as [|b1 [|b2 [|l1 [|l2 [|l3 [|l4 r3]]]]]];
    try (apply Hplain in H; cbn [String.length] in *; lia).
  destruct (hex4 l1 l2 l3 l4) as [lo|];
    [|apply Hplain in H; cbn [String.length] in *; lia].
  destruct (_ && _); [|apply Hplain in H; cbn [String.length] in *; lia].
  clear Hplain Hr2.
  destruct (scanstring r3) as [[u3 rest3]|] eqn:E3; [|discriminate].
  apply IH in E3; [|cbn [String.length] in *; lia]. rest_shorter H.
Qed.

Lemma scanstring_length (s t r : string) :
  scanstring s = Some (t, r) -> String.length r < String.length s.
Proof. apply (scanstring_length_aux (String.length s)). lia. Qed.

Lemma scan_adequate (f : nat) :
  (forall s v r,
      scan_once f s = Some (v, r) ->
      String.length r < String.length s
      /\ forall f', 2 * (String.length s - String.length r) <= f' ->
                    scan_once f' s = Some (v, r))
  /\ (forall s acc v r,
         scan_members f s acc = Some (v, r) ->
         String.length r < String.length s
         /\ forall f', 2 * (String.length s - String.length r) <= f' ->
                       scan_members f' s acc = Some (v, r))
  /\ (forall s acc v r,
         scan_elements f s acc = Some (v, r) ->
         String.length r < String.length s
         /\ forall f', 2 * (String.length s - String.length r) <= f' ->
                       scan_elements f' s acc = Some (v, r)).
Proof.
  induction f as [|f (IHo & IHm & IHe)]; [repeat split; discriminate|].
  split; [|split].
  - intros s v r H. cbn [scan_once] in H.
    destruct s as [|c s1]; [discriminate|].
    destruct (Ascii.eqb c dquote) eqn:Hq.
    { destruct (scanstring s1) as [[t rest]|] eqn:E; [|discriminate].
      injection H as <- <-. pose proof (scanstring_length _ _ _ E).
      split; [lens|]. intros [|f1] Hf; [lens|].
      cbn [scan_once]. now rewrite Hq, E. }
    destruct (Ascii.eqb c "{") eqn:Ho.
    { pose proof (skip_ws_length s1).
      destruct (skip_ws s1) as [|c' r'] eqn:Es; [discriminate|].
      destruct (Ascii.eqb c' "}") eqn:Hc.
      - injection H as <- <-. split; [lens|]. intros [|f1] Hf; [lens|].
        cbn [scan_once]. now rewrite Hq, Ho, Es, Hc.
      - apply IHm in H. destruct H as [Hl Hre]. split; [lens|].
        intros [|f1] Hf; [lens|].
        cbn [scan_once]. rewrite Hq, Ho, Es, Hc. apply Hre. lens. }
    destruct (Ascii.eqb c "[") eqn:Hb.
    { pose proof (skip_ws_length s1).
      destruct (skip_ws s1) as [|c' r'] eqn:Es; [discriminate|].
      destruct (Ascii.eqb c' "]") eqn:Hc.
      - injection H as <- <-. split; [lens|]. intros [|f1] Hf; [lens|].
        cbn [scan_once]. now rewrite Hq, Ho, Hb, Es, Hc.
      - apply IHe in H. destruct H as [Hl Hre]. split; [lens|].
        intros [|f1] Hf; [lens|].
        cbn [scan_once]. rewrite Hq, Ho, Hb, Es, Hc. apply Hre. lens. }
    pose proof (scan_literal_length _ _ _ H).
    split; [lens|]. intros [|f1] Hf; [lens|].
    cbn [scan_once]. now rewrite Hq, Ho, Hb.
  - intros s acc v r H. cbn [scan_members] in H.
    destruct s as [|q0 r0]; [discriminate|].
    destruct (Ascii.eqb q0 dquote) eqn:Hq; [|discriminate].
    destruct (scanstring r0) as [[key r1]|] eqn:Ek; [|discriminate].
    pose proof (scanstring_length _ _ _ Ek).
    pose proof (skip_ws_length r1).
    destruct (skip_ws r1) as [|colon r2] eqn:E1; [discriminate|].
    destruct (Ascii.eqb colon ":") eqn:Hc; [|discriminate].
    pose proof (skip_ws_length r2).
    destruct (scan_once f (skip_ws r2)) as [[v1 r3]|] eqn:Ev; [|discriminate].
    apply IHo in Ev. destruct Ev as [Hl3 Hre3].
    pose proof (skip_ws_length r3).
    destruct (skip_ws r3) as [|d r4] eqn:E3; [discriminate|].
    destruct (Ascii.eqb d "}") eqn:Hd.
    + injection H as <- <-. split; [lens|]. intros [|f1] Hf; [lens|].
      cbn [scan_members]. rewrite Hq, Ek, E1, Hc, (Hre3 f1) by lens.
      now rewrite E3, Hd.
    + destruct (Ascii.eqb d ",") eqn:Hcomma; [|discriminate].
      pose proof (skip_ws_length r4).
      apply IHm in H. destruct H as [Hl Hre]. split; [lens|].
      intros [|f1] Hf; [lens|].
      cbn [scan_members]. rewrite Hq, Ek, E1, Hc, (Hre3 f1) by lens.
      rewrite E3, Hd, Hcomma. apply Hre. lens.
  - intros s acc v r H. cbn [scan_elements] in H.
    destruct (scan_once f s) as [[v1 r1]|] eqn:Ev; [|discriminate].
    apply IHo in Ev. destruct Ev as [Hl1 Hre1].
    pose proof (skip_ws_length r1).
    destruct (skip_ws r1) as [|d r2] eqn:E1; [discriminate|].
    destruct (Ascii.eqb d "]") eqn:Hd.
    + injection H as <- <-. split; [lens|]. intros [|f1] Hf; [lens|].
      cbn [scan_elements]. rewrite (Hre1 f1) by lens. now rewrite E1, Hd.
    + destruct (Ascii.eqb d ",") eqn:Hcomma; [|discriminate].
      pose proof (skip_ws_length r2).
      apply IHe in H. destruct H as [Hl Hre]. split; [lens|].
      intros [|f1] Hf; [lens|].
      cbn [scan_elements]. rewrite (Hre1 f1) by lens.
      rewrite E1, Hd, Hcomma. apply Hre. lens.
Qed.

(** More fuel than [json_loads] gives changes nothing. *)
Lemma json_loads_fuel (s : string) (f : nat) :
  2 * String.length s + 2 <= f ->
  scan_once f (skip_ws s) = scan_once (2 * String.length s + 2) (skip_ws s).
Proof.
  intros Hf. pose proof (skip_ws_length s) as Hs.
  destruct (scan_once (2 * String.length s + 2) (skip_ws s)) as [[v r]|] eqn:E.
  - apply (proj1 (scan_adequate _)) in E. destruct E as [_ Hre].
    apply Hre. lia.
  - destruct (scan_once f (skip_ws s)) as [[v r]|] eqn:E'; [|reflexivity].
    apply (proj1 (scan_adequate _)) in E'. destruct E' as [_ Hre].
    rewrite Hre in E by lia. discriminate.
Qed.

Lemma scan_field_length (s name rest : string) :
  scan_field s = FieldName name rest -> String.length rest < String.length s.
Proof.
  revert name. induction s as [|c r IH]; intros name H; cbn [scan_field] in H;
    [discriminate|].
  destruct (Ascii.eqb c "}"); [injection H as _ <-; lens|].
  destruct (_ || _); [discriminate|].
  destruct (scan_field r) as [n rest'| |]; try discriminate.
  injection H as _ <-. specialize (IH n eq_refl). lens.
Qed.

(** More fuel than [format] gives changes nothing. *)
Lemma format_with_fuel (kw : list (string * string)) (f : nat) :
  forall tpl f',
    String.length tpl < f -> String.length tpl < f' ->
    format_with f tpl kw = format_with f' tpl kw.
Proof.
  induction f as [|f IH]; intros tpl f' Hf Hf'; [lia|].
  destruct f' as [|f1]; [lia|].
  cbn [format_with]. destruct tpl as [|c r]; [reflexivity|].
  destruct (Ascii.eqb c "}").
  { destruct r as [|c' r']; [reflexivity|].
    destruct (Ascii.eqb c' "}"); [|reflexivity].
    rewrite (IH r' f1) by lens. reflexivity. }
  destruct (Ascii.eqb c "{").
  { destruct r as [|c' r']; [reflexivity|].
    destruct (Ascii.eqb c' "{"); [rewrite (IH r' f1) by lens; reflexivity|].
    destruct (scan_field (String c' r')) as [name rest| |] eqn:E; try reflexivity.
    apply scan_field_length in E.
    destruct (all_digits name); [reflexivity|].
    destruct (kw_get name kw); [|reflexivity].
    rewrite (IH rest f1) by lens. reflexivity. }
  rewrite (IH r f1) by lens. reflexivity.
Qed.

Lemma first_some_in {A B} (g : A -> option B) (l : list A) (b : B) :
  first_some (map g l) = Some b -> exists a, In a l /\ g a = Some b.
Proof.
  induction l as [|a l IH]; cbn [map first_some]; [discriminate|].
  destruct (g a) as [b'|] eqn:E.
  - intros H. injection H as <-. exists a. split; [now left|exact E].
  - intros H. destruct (IH H) as (a' & Hin & Ha'). exists a'. split; [now right|exact Ha'].
Qed.

(** More fuel than [lstrip] and [rstrip] give changes nothing, as no
    white-space sequence is empty. *)
Lemma lstrip_with_fuel (ws : list string) (f : nat) :
  (forall w, In w ws -> w <> "") ->
  forall s f',
    String.length s <= f -> String.length s <= f' ->
    lstrip_with ws f s = lstrip_with ws f' s.
Proof.
  intros Hws. induction f as [|f IH]; intros s f' Hf Hf'.
  - destruct s; [|lens]. destruct f'; cbn [lstrip_with]; [reflexivity|].
    destruct (first_some _) as [r|] eqn:E; [|reflexivity].
    apply first_some_in in E. destruct E as (w & Hin & E).
    apply drop_prefix_length in E. specialize (Hws w Hin).
    destruct w; [contradiction|lens].
  - destruct f' as [|f1].
    + destruct s; [|lens]. cbn [lstrip_with].
      destruct (first_some _) as [r|] eqn:E; [|reflexivity].
      apply first_some_in in E. destruct E as (w & Hin & E).
      apply drop_prefix_length in E. specialize (Hws w Hin).
      destruct w; [contradiction|lens].
    + cbn [lstrip_with].
      destruct (first_some _) as [r|] eqn:E; [|reflexivity].
      apply first_some_in in E. destruct E as (w & Hin & E).
      apply drop_prefix_length in E. specialize (Hws w Hin).
      apply IH; destruct w; try contradiction; lens.
Qed.

Lemma whitespace_nonempty (w : string) : In w whitespace -> w <> "".
Proof.
  intros H. 
  assert (forallb (fun w => negb (String.eqb w "")) whitespace = true) as Hall
    by (vm_compute; reflexivity).
  rewrite forallb_forall in Hall. specialize (Hall w H).
  intros ->. discriminate.
Qed.

Lemma reversed_whitespace_nonempty (w : string) :
  In w (map rev_string whitespace) -> w <> "".
Proof.
  intros H.
  assert (forallb (fun w => negb (String.eqb w "")) (map rev_string whitespace) = true)
    as Hall by (vm_compute; reflexivity).
  rewrite forallb_forall in Hall. specialize (Hall w H).
  intros ->. discriminate.
Qed.

(** *** The library functions on some inputs *)

Example strip_spaces :
  strip (" " ++ nl ++ "Visit B first. " ++ str_of_bytes [194; 160; 9]) = "Visit B first.".
Proof. vm_compute. reflexivity. Qed.

Example search_braces_greedy :
  search_braces ("a {b} c" ++ nl ++ "{d} e") = Some ("{b} c" ++ nl ++ "{d}").
Proof. vm_compute. reflexivity. Qed.

Example search_braces_close_before_open : search_braces "a } b { c" = None.
Proof. reflexivity. Qed.

Example format_fills_named_fields :
  format "{a}, {{b}}, {c}" [("a", "1"); ("c", "3")] = Ok "1, {b}, 3".
Proof. reflexivity. Qed.

Example format_unknown_name :
  format "{a} {rear entrance}" [("a", "1")] = Raise (MkExn KeyError "'rear entrance'").
Proof. reflexivity. Qed.

Example format_single_brace :
  format "{a} }" [("a", "1")]
  = Raise (MkExn ValueError "Single '}' encountered in format string").
Proof. reflexivity. Qed.

Example json_loads_object :
  json_loads (q " {~n~: 1, ~route~: [~B~, ~A\n~], ~t~: null, ~n~: -2.5e3} ")
  = Ok (PDict [("n", PFloat "-2.5e3");
               ("route", PList [PStr "B"; PStr ("A" ++ nl)]);
               ("t", PNone)]).
Proof. vm_compute. reflexivity. Qed.

Example json_loads_extra_data : json_loads (q "{~a~: 1} {~b~: 2}") = Raise (decode_error "Extra data").
Proof. vm_compute. reflexivity. Qed.

Example json_loads_trailing_comma : json_loads "[1, 2,]" = Raise (decode_error "Expecting value").
Proof. vm_compute. reflexivity. Qed.

Example json_loads_prose : json_loads "Visit B first." = Raise (decode_error "Expecting value").
Proof. vm_compute. reflexivity. Qed.

(* ================================================================== *)
(** * Facts about the direct mode *)
(* ================================================================== *)

Section DirectFacts.
Import Request.

Variable create : list (string * string) -> pyresult (list (option string)).
Variable data : Data.

Let msgs := Agent.messages (Agent.create_prompt data).

Lemma all_str_address_strings : all_str (address_strings data) = true.
Proof.
  unfold address_strings. induction (addresses data); simpl; auto.
Qed.

Lemma address_strings_nonempty :
  addresses data <> [] -> address_strings data <> [].
Proof.
  unfold address_strings. destruct (addresses data); simpl; congruence.
Qed.

Lemma direct_create_raises (e : exn) :
  create msgs = Raise e ->
  Agent.optimize_route create data = Ok (Agent.error_result data e).
Proof.
  intros H. unfold Agent.optimize_route. fold msgs. rewrite H. reflexivity.
Qed.

Lemma direct_no_choice :
  create msgs = Ok [] ->
  Agent.optimize_route create data
  = Ok (Agent.error_result data (MkExn IndexError "list index out of range")).
Proof.
  intros H. unfold Agent.optimize_route. fold msgs. rewrite H. reflexivity.
Qed.

Lemma direct_no_content (rest : list (option string)) :
  create msgs = Ok (None :: rest) ->
  Agent.optimize_route create data
  = Ok (Agent.error_result data
          (MkExn AttributeError "'NoneType' object has no attribute 'strip'")).
Proof.
  intros H. unfold Agent.optimize_route. fold msgs. rewrite H. reflexivity.
Qed.

Lemma direct_parsed (content : string) (rest : list (option string)) (v : pyval) :
  create msgs = Ok (Some content :: rest) ->
  json_loads (strip content) = Ok v ->
  Agent.optimize_route create data = Ok v.
Proof.
  intros H Hj. unfold Agent.optimize_route. fold msgs. rewrite H. simpl.
  rewrite Hj. reflexivity.
Qed.

Lemma direct_not_json (content : string) (rest : list (option string)) (e : exn) :
  create msgs = Ok (Some content :: rest) ->
  json_loads (strip content) = Raise e ->
  is_JSONDecodeError e = true ->
  Agent.optimize_route create data
  = Ok (Agent.not_json_result data (strip content)).
Proof.
  intros H Hj He. unfold Agent.optimize_route. fold msgs. rewrite H. simpl.
  rewrite Hj. simpl. rewrite He. reflexivity.
Qed.

(** An exception of [json.loads] that the inner [except] does not name goes
    to the outer one. *)
Lemma direct_loads_raises_other (content : string) (rest : list (option string))
      (e : exn) :
  create msgs = Ok (Some content :: rest) ->
  json_loads (strip content) = Raise e ->
  is_JSONDecodeError e = false ->
  Agent.optimize_route create data = Ok (Agent.error_result data e).
Proof.
  intros H Hj He. unfold Agent.optimize_route. fold msgs. rewrite H. simpl.
  rewrite Hj. simpl. rewrite He. reflexivity.
Qed.

(** The outcomes of the direct mode, all of them. *)
Lemma direct_cases :
  (exists e, Agent.optimize_route create data = Ok (Agent.error_result data e))
  \/ (exists content rest,
        create msgs = Ok (Some content :: rest)
        /\ ((exists v, json_loads (strip content) = Ok v
                       /\ Agent.optimize_route create data = Ok v)
            \/ ((exists e, json_loads (strip content) = Raise e
                           /\ is_JSONDecodeError e = true)
                /\ Agent.optimize_route create data
                   = Ok (Agent.not_json_result data (strip content))))).
Proof.
  destruct (create msgs) as [[|[content|] rest]|e] eqn:H.
  - left. eexists. now apply direct_no_choice.
  - destruct (json_loads (strip content)) as [v|e] eqn:Hj.
    + right. exists content, rest. split; [reflexivity|].
      left. exists v. split; [exact Hj|]. now apply (direct_parsed content rest).
    + destruct (is_JSONDecodeError e) eqn:He.
      * right. exists content, rest. split; [reflexivity|].
        right. split; [now exists e|]. now apply (direct_not_json content rest e).
      * left. exists e. now apply (direct_loads_raises_other content rest).
  - left. eexists. now apply (direct_no_content rest).
  - left. exists e. now apply direct_create_raises.
Qed.

End DirectFacts.

(* ================================================================== *)
(** * Facts about the pipeline mode *)
(* ================================================================== *)

Section PipelineFacts.
Import Request.

Variable kickoff : Crew.Tasks -> pyresult pyval.
Variable data : Data.

(** *** The inner [try] *)

Lemma process_not_str (addrs : list Address) (result : pyval) :
  (forall text, result <> PStr text) ->
  Crew.process_result addrs result = Ok result.
Proof.
  intros H. destruct result; try reflexivity. now destruct (H s).
Qed.

Lemma process_no_braces (addrs : list Address) (text : string) :
  search_braces text = None ->
  Crew.process_result addrs (PStr text) = Ok (Crew.no_json_result addrs text).
Proof.
  intros H. unfold Crew.process_result. now rewrite H.
Qed.

Lemma process_parsed (addrs : list Address) (text span : string) (v : pyval) :
  search_braces text = Some span ->
  json_loads span = Ok v ->
  Crew.process_result addrs (PStr text) = Ok v.
Proof.
  intros H Hj. unfold Crew.process_result. now rewrite H, Hj.
Qed.

Lemma process_parse_error (addrs : list Address) (text span : string) (e : exn) :
  search_braces text = Some span ->
  json_loads span = Raise e ->
  is_JSONDecodeError e = true ->
  Crew.process_result addrs (PStr text)
  = Ok (Crew.parse_error_result addrs (PStr text)).
Proof.
  intros H Hj He. unfold Crew.process_result. rewrite H, Hj. simpl.
  now rewrite He.
Qed.

(** *** The whole call *)

Lemma pipeline_update_raises (st st' : Crew.Tasks) (e : exn) :
  Crew.update_descriptions data st = (Raise e, st') ->
  Crew.optimize_route kickoff data st = (Ok (Crew.error_result data e), st').
Proof.
  intros H. unfold Crew.optimize_route, Crew.mtry, Crew.mbind.
  now rewrite H.
Qed.

Lemma pipeline_kickoff_raises (st st' : Crew.Tasks) (e : exn) :
  Crew.update_descriptions data st = (Ok tt, st') ->
  kickoff st' = Raise e ->
  Crew.optimize_route kickoff data st = (Ok (Crew.error_result data e), st').
Proof.
  intros H Hk. unfold Crew.optimize_route, Crew.mtry, Crew.mbind.
  now rewrite H, Hk.
Qed.

Lemma pipeline_kickoff_returns (st st' : Crew.Tasks) (result : pyval) :
  Crew.update_descriptions data st = (Ok tt, st') ->
  kickoff st' = Ok result ->
  Crew.optimize_route kickoff data st
  = (match Crew.process_result (addresses data) result with
     | Ok v => Ok v
     | Raise e => Ok (Crew.error_result data e)
     end, st').
Proof.
  intros H Hk. unfold Crew.optimize_route, Crew.mtry, Crew.mbind, Crew.lift.
  rewrite H, Hk.
  destruct (Crew.process_result (addresses data) result); reflexivity.
Qed.

Lemma pipeline_processed (st st' : Crew.Tasks) (result v : pyval) :
  Crew.update_descriptions data st = (Ok tt, st') ->
  kickoff st' = Ok result ->
  Crew.process_result (addresses data) result = Ok v ->
  fst (Crew.optimize_route kickoff data st) = Ok v.
Proof.
  intros H Hk Hp. rewrite (pipeline_kickoff_returns st st' result H Hk).
  simpl. now rewrite Hp.
Qed.

(** The tasks after the call are the tasks as [update_descriptions] left
    them, whatever the crew did. *)
Lemma pipeline_tasks_after (st : Crew.Tasks) :
  snd (Crew.optimize_route kickoff data st)
  = snd (Crew.update_descriptions data st).
Proof.
  destruct (Crew.update_descriptions data st) as [[[]|e] st'] eqn:H.
  - destruct (kickoff st') as [result|e] eqn:Hk.
    + now rewrite (pipeline_kickoff_returns st st' result H Hk).
    + now rewrite (pipeline_kickoff_raises st st' e H Hk).
  - now rewrite (pipeline_update_raises st st' e H).
Qed.

(** The outcomes of the pipeline mode, all of them. *)
Lemma pipeline_cases (st : Crew.Tasks) :
  (exists e, fst (Crew.optimize_route kickoff data st)
             = Ok (Crew.error_result data e))
  \/ (exists st' result v,
        Crew.update_descriptions data st = (Ok tt, st')
        /\ kickoff st' = Ok result
        /\ Crew.process_result (addresses data) result = Ok v
        /\ fst (Crew.optimize_route kickoff data st) = Ok v).
Proof.
  destruct (Crew.update_descriptions data st) as [[[]|e] st'] eqn:H.
  - destruct (kickoff st') as [result|e] eqn:Hk.
    + rewrite (pipeline_kickoff_returns st st' result H Hk). simpl.
      destruct (Crew.process_result (addresses data) result) as [v|e] eqn:Hp.
      * right. now exists st', result, v.
      * left. now exists e.
    + left. exists e. now rewrite (pipeline_kickoff_raises st st' e H Hk).
  - left. exists e. now rewrite (pipeline_update_raises st st' e H).
Qed.

Lemma pipeline_total (st : Crew.Tasks) :
  exists v, fst (Crew.optimize_route kickoff data st) = Ok v.
Proof.
  destruct (pipeline_cases st) as [[e H]|(st' & result & v & _ & _ & _ & H)]; eauto.
Qed.

(** The [except] of [optimize_route_crewai] has nothing to catch. *)
Lemma optimize_route_crewai_same (st : Crew.Tasks) :
  Agent.optimize_route_crewai kickoff data st
  = Crew.optimize_route kickoff data st.
Proof.
  unfold Agent.optimize_route_crewai, Crew.mtry.
  destruct (pipeline_total st) as [v Hv].
  destruct (Crew.optimize_route kickoff data st) as [r st'].
  simpl in Hv. now rewrite Hv.
Qed.

End PipelineFacts.

(* ================================================================== *)
(** * Facts about the shape of the results *)
(* ================================================================== *)

Lemma all_str_addresses (addrs : list Request.Address) :
  all_str (map (fun addr => PStr (Request.address addr)) addrs) = true.
Proof.
  induction addrs; simpl; auto.
Qed.

Lemma conforms_direct_error (data : Request.Data) (e : exn) :
  conforms (Agent.error_result data e) = true.
Proof. apply all_str_addresses. Qed.

Lemma conforms_direct_not_json (data : Request.Data) (text : string) :
  conforms (Agent.not_json_result data text) = true.
Proof. apply all_str_addresses. Qed.

Lemma conforms_pipeline_error (data : Request.Data) (e : exn) :
  conforms (Crew.error_result data e) = true.
Proof. apply all_str_addresses. Qed.

Lemma conforms_no_json (addrs : list Request.Address) (text : string) :
  conforms (Crew.no_json_result addrs text) = true.
Proof. apply all_str_addresses. Qed.

Lemma conforms_parse_error (addrs : list Request.Address) (result : pyval) :
  conforms (Crew.parse_error_result addrs result) = true.
Proof. apply all_str_addresses. Qed.

(* ================================================================== *)
(** * Facts about the prompts *)
(* ================================================================== *)

Section PromptFacts.
Import Request Rendering.

Lemma concat_cons (x : string) (l : list string) :
  String.concat "" (x :: l) = x ++ String.concat "" l.
Proof.
  destruct l; simpl; [now rewrite append_nil_r|reflexivity].
Qed.

(** A loop of [prompt += f(x)]. *)
Lemma fold_left_append {A} (f : A -> string) (l : list A) (init : string) :
  fold_left (fun acc x => acc ++ f x) l init = init ++ String.concat "" (map f l).
Proof.
  revert init. induction l as [|x l IH]; intros init.
  - simpl. now rewrite append_nil_r.
  - cbn [fold_left map]. rewrite IH, concat_cons. apply append_assoc.
Qed.

Lemma infix_concat (x : string) (l : list string) :
  In x l -> infix x (String.concat "" l).
Proof.
  induction l as [|y l IH]; intros H; [contradiction|].
  rewrite concat_cons. destruct H as [->|H].
  - apply infix_app_l, infix_refl.
  - apply infix_app_r, IH, H.
Qed.

Lemma enumerate_nth {A} (l : list A) (i start : nat) (a : A) :
  nth_error l i = Some a -> In ((start + i)%nat, a) (enumerate l start).
Proof.
  revert i start. induction l as [|x l IH]; intros [|i] start H;
    try discriminate; simpl in *.
  - left. inversion H. now rewrite Nat.add_0_r.
  - right. replace (start + S i)%nat with (S start + i)%nat by lia.
    now apply IH.
Qed.

(** [create_prompt] is the sequence of its parts. *)
Lemma create_prompt_parts (data : Data) :
  Agent.create_prompt data = prompt data.
Proof.
  unfold Agent.create_prompt, prompt, weather_part, traffic_part, delays_part,
    requirements_part, delay_line.
  rewrite (map_ext (fun ia => address_line (fst ia) (snd ia) ++ nl)
                   (fun ia => str_of_nat (fst ia) ++ ". " ++ address (snd ia)
                              ++ " (приоритет: " ++ str_of_Z (priority (snd ia))
                              ++ "/5)" ++ nl))
    by (intros ia; unfold address_line; now rewrite !append_assoc).
  rewrite fold_left_append.
  destruct (get_or (weather_condition data) None) as [[|c w]|];
    destruct (get_or (traffic_condition data) None) as [[|c' t]|];
    destruct (get_or (warehouse_delays data) (Some [])) as [[|d ds]|];
    destruct (get_or (special_requirements data) (Some [])) as [[|r rs]|];
    rewrite ?fold_left_append, ?append_assoc, ?append_nil_r; reflexivity.
Qed.

(** *** The descriptions of the pipeline mode *)

Lemma format_weather (w : string) :
  format (Crew.weather_task Crew.setup_tasks) [("weather_condition", w)]
  = Ok (weather_description w).
Proof. vm_compute. reflexivity. Qed.

Lemma format_traffic (t : string) :
  format (Crew.traffic_task Crew.setup_tasks) [("traffic_condition", t)]
  = Ok (traffic_description t).
Proof. vm_compute. reflexivity. Qed.

Lemma format_route (a p r : string) :
  format (Crew.route_task Crew.setup_tasks)
         [("addresses", a); ("priorities", p); ("special_requirements", r)]
  = Ok (route_description a p r).
Proof. vm_compute. reflexivity. Qed.

(** The first call of a process fills the three descriptions. *)
Lemma update_descriptions_fresh (data : Data) :
  Crew.update_descriptions data Crew.setup_tasks = (Ok tt, described data).
Proof.
  unfold Crew.update_descriptions, Crew.mbind, Crew.read, Crew.lift, Crew.assign.
  rewrite format_weather.
  cbn [Crew.traffic_task Crew.set_weather_task].
  rewrite format_traffic.
  cbn [Crew.route_task Crew.set_weather_task Crew.set_traffic_task].
  rewrite format_route. reflexivity.
Qed.

Lemma infix_trans (a b c : string) : infix a b -> infix b c -> infix a c.
Proof.
  intros (p1 & q1 & ->) (p2 & q2 & ->). exists (p2 ++ p1), (q1 ++ q2).
  now rewrite !append_assoc.
Qed.

Lemma infix_join (sep x : string) (l : list string) :
  In x l -> infix x (join sep l).
Proof.
  unfold join. induction l as [|y l IH]; intros H; [contradiction|].
  destruct l as [|z l].
  - destruct H as [->|[]]. apply infix_refl.
  - change (String.concat sep (y :: z :: l))
      with (y ++ sep ++ String.concat sep (z :: l)).
    destruct H as [->|H].
    + apply infix_app_l, infix_refl.
    + apply infix_app_r, infix_app_r, IH, H.
Qed.

Lemma requirements_in_route_description (a p r : string) :
  infix ("- Special requirements: " ++ r) (route_description a p r).
Proof.
  apply infix_trans with (b := "            - Special requirements: " ++ r).
  - exists "            ", "". now rewrite append_nil_r.
  - apply infix_join. simpl. auto 10.
Qed.

End PromptFacts.

(* ================================================================== *)
(** * The claims *)
(* ================================================================== *)

(** C1 (as the code behaves).  A request with an empty address list, or with
    a single address, is answered with status 500 on both endpoints: the
    [HTTPException] with status 400 raised by the validation is caught by the
    handler's own [except Exception] and raised again with status 500.  The
    claim promises 400. *)
Theorem C1_short_address_list_is_answered_500 :
  forall (AGENT_URL : string) (post : string -> pyval -> Z -> pyresult Backend.Response)
         (weather traffic : option string)
         (delays : option (list (string * pyval)))
         (requirements : option (list string)) (a : Backend.AddressBody),
    Backend.status (Backend.post_optimize_route AGENT_URL post
      (Backend.MkDeliveryRequestBody [] weather traffic delays requirements)) = 500%Z
    /\ Backend.status (Backend.post_optimize_route AGENT_URL post
      (Backend.MkDeliveryRequestBody [a] weather traffic delays requirements)) = 500%Z
    /\ Backend.status (Backend.post_optimize_route_crewai AGENT_URL post
      (Backend.MkDeliveryRequestBody [] weather traffic delays requirements)) = 500%Z
    /\ Backend.status (Backend.post_optimize_route_crewai AGENT_URL post
      (Backend.MkDeliveryRequestBody [a] weather traffic delays requirements)) = 500%Z.
Proof.
  intros. repeat split; reflexivity.
Qed.

(** C2, counterexample.  The model times out in the direct mode: the result
    has the ["неизвестно"] sentinel and no [success_probability] at all. *)
Lemma C2_direct_error_has_no_success_probability :
  exists v,
    Agent.optimize_route Samples.create_failing Samples.data_AB = Ok v
    /\ get "total_estimated_time" v = Some (PStr "неизвестно")
    /\ get "success_probability" v = None.
Proof.
  eexists. split; [reflexivity|]. split; reflexivity.
Qed.

(** C2, amended.  When the call of the model raises [e], the result is
    returned, not raised; its [optimized_route] is the input addresses in
    input order, its [explanation] carries [str(e)] and its
    [total_estimated_time] is ["неизвестно"].  In the pipeline mode
    [success_probability] is 1; in the direct mode the result has no
    [success_probability]. *)
Theorem C2_error_branches :
  forall (data : Request.Data) (e : exn),
    (forall create,
        create (Agent.messages (Agent.create_prompt data)) = Raise e ->
        exists v,
          Agent.optimize_route create data = Ok v
          /\ get "optimized_route" v = Some (PList (Request.address_strings data))
          /\ get "explanation" v
             = Some (PStr ("Ошибка при обращении к ChatGPT: " ++ exn_str e))
          /\ get "total_estimated_time" v = Some (PStr "неизвестно")
          /\ get "success_probability" v = None)
    /\ (forall kickoff st st',
           Crew.update_descriptions data st = (Ok tt, st') ->
           kickoff st' = Raise e ->
           exists v,
             fst (Crew.optimize_route kickoff data st) = Ok v
             /\ fst (Agent.optimize_route_crewai kickoff data st) = Ok v
             /\ get "optimized_route" v
                = Some (PList (Request.address_strings data))
             /\ get "explanation" v = Some (PStr ("Ошибка CrewAI: " ++ exn_str e))
             /\ get "total_estimated_time" v = Some (PStr "неизвестно")
             /\ get "success_probability" v = Some (PInt 1)).
Proof.
  intros data e. split.
  - intros create H. exists (Agent.error_result data e).
    split; [now apply direct_create_raises|]. repeat split.
  - intros kickoff st st' H Hk. exists (Crew.error_result data e).
    rewrite optimize_route_crewai_same.
    rewrite (pipeline_kickoff_raises kickoff data st st' e H Hk).
    repeat split.
Qed.

(** C2, an instance: the model times out on the request for A and B, in
    each mode. *)
Lemma C2_error_branches_witness :
  (exists v,
      Agent.optimize_route Samples.create_failing Samples.data_AB = Ok v
      /\ get "optimized_route" v = Some (PList [PStr "A"; PStr "B"])
      /\ get "explanation" v
         = Some (PStr "Ошибка при обращении к ChatGPT: Request timed out.")
      /\ get "total_estimated_time" v = Some (PStr "неизвестно")
      /\ get "success_probability" v = None)
  /\ (exists v,
         fst (Crew.optimize_route Samples.kickoff_failing Samples.data_AB
                Crew.setup_tasks) = Ok v
         /\ fst (Agent.optimize_route_crewai Samples.kickoff_failing Samples.data_AB
                   Crew.setup_tasks) = Ok v
         /\ get "optimized_route" v = Some (PList [PStr "A"; PStr "B"])
         /\ get "explanation" v = Some (PStr "Ошибка CrewAI: Request timed out.")
         /\ get "total_estimated_time" v = Some (PStr "неизвестно")
         /\ get "success_probability" v = Some (PInt 1)).
Proof.
  destruct (C2_error_branches Samples.data_AB Samples.timed_out) as [Hd Hp].
  split.
  - apply (Hd Samples.create_failing). reflexivity.
  - apply (Hp Samples.kickoff_failing Crew.setup_tasks
              (snd (Crew.update_descriptions Samples.data_AB Crew.setup_tasks))).
    + vm_compute. reflexivity.
    + reflexivity.
Defined.

(** C3, counterexample.  The model replies [42]: the direct mode returns the
    number 42, which is no RouteResult. *)
Lemma C3_parsed_reply_is_returned_unchecked :
  Agent.optimize_route (Samples.create_replying Samples.text_number)
                       Samples.data_AB = Ok (PInt 42)
  /\ conforms (PInt 42) = false.
Proof.
  split; [vm_compute|]; reflexivity.
Qed.

(** C3, amended.  For every request with a well-formed address list and
    every behaviour of the model, both modes return a value and never raise.
    The value has the RouteResult shape in every branch that builds it
    (error, no JSON, parse failure); a reply that parses, or a pipeline
    result that is not a string, is returned as it is, with no check of its
    shape. *)
Theorem C3_never_raises :
  forall (data : Request.Data),
    (forall create,
        exists v,
          Agent.optimize_route create data = Ok v
          /\ (conforms v = true
              \/ exists content rest,
                   create (Agent.messages (Agent.create_prompt data))
                     = Ok (Some content :: rest)
                   /\ json_loads (strip content) = Ok v))
    /\ (forall kickoff st,
           exists v,
             fst (Crew.optimize_route kickoff data st) = Ok v
             /\ fst (Agent.optimize_route_crewai kickoff data st) = Ok v
             /\ (conforms v = true
                 \/ exists st' result,
                      Crew.update_descriptions data st = (Ok tt, st')
                      /\ kickoff st' = Ok result
                      /\ ((v = result /\ forall text, result <> PStr text)
                          \/ exists text span,
                               result = PStr text
                               /\ search_braces text = Some span
                               /\ json_loads span = Ok v))).
Proof.
  intros data. split.
  - intros create.
    destruct (direct_cases create data)
      as [[e H]|(content & rest & Hc & [(v & Hj & H)|[_ H]])].
    + eexists. split; [exact H|]. left. apply conforms_direct_error.
    + exists v. split; [exact H|]. right. now exists content, rest.
    + eexists. split; [exact H|]. left. apply conforms_direct_not_json.
  - intros kickoff st. rewrite optimize_route_crewai_same.
    destruct (pipeline_cases kickoff data st)
      as [[e H]|(st' & result & v & Hu & Hk & Hp & H)].
    + eexists. split; [exact H|]. split; [exact H|].
      left. apply conforms_pipeline_error.
    + exists v. split; [exact H|]. split; [exact H|].
      destruct result as [| | | |text| |];
        try (simpl in Hp; inversion Hp; subst v;
             right; exists st'; eexists; split; [exact Hu|]; split; [exact Hk|];
             left; split; [reflexivity|discriminate]).
      unfold Crew.process_result in Hp.
      destruct (search_braces text) as [span|] eqn:Hs.
      * destruct (json_loads span) as [w|e] eqn:Hj; simpl in Hp.
        -- inversion Hp; subst w.
           right. exists st', (PStr text). split; [exact Hu|]. split; [exact Hk|].
           right. now exists text, span.
        -- destruct (is_JSONDecodeError e || is_AttributeError e);
             inversion Hp.
           left. apply conforms_parse_error.
      * inversion Hp. left. apply conforms_no_json.
Qed.

(** C4, counterexample.  Two addresses go in; the model replies with a
    well-formed object whose route is empty; the direct mode returns it. *)
Lemma C4_empty_route_for_nonempty_input :
  Request.addresses Samples.data_AB <> []
  /\ Agent.optimize_route (Samples.create_replying Samples.text_empty_route)
                          Samples.data_AB
     = Ok (PDict [("optimized_route", PList []);
                  ("explanation", PStr "no route found")]).
Proof.
  split; [discriminate|]. vm_compute. reflexivity.
Qed.

(** C4, amended.  The list of the input's address strings is not empty when
    the input list is not.  In both modes the [optimized_route] of the result
    is that list, in input order, unless the result is the parsed reply of
    the model (or the pipeline's result that is not a string), whose route is
    whatever the model gave, possibly empty.  In particular the route is that
    list whenever the reply cannot be parsed: a reply that [json.loads]
    rejects (direct mode), a text without a brace pair or one whose
    brace-to-brace part [json.loads] rejects (pipeline mode). *)
Theorem C4_fallback_route_is_input_order :
  forall (data : Request.Data),
    let route := Some (PList (Request.address_strings data)) in
    (Request.addresses data <> [] -> Request.address_strings data <> [])
    /\ (forall create,
           exists v,
             Agent.optimize_route create data = Ok v
             /\ (get "optimized_route" v = route
                 \/ exists content rest,
                      create (Agent.messages (Agent.create_prompt data))
                        = Ok (Some content :: rest)
                      /\ json_loads (strip content) = Ok v))
    /\ (forall create content rest e,
           create (Agent.messages (Agent.create_prompt data))
             = Ok (Some content :: rest) ->
           json_loads (strip content) = Raise e ->
           exists v,
             Agent.optimize_route create data = Ok v
             /\ get "optimized_route" v = route)
    /\ (forall kickoff st st' text,
           Crew.update_descriptions data st = (Ok tt, st') ->
           kickoff st' = Ok (PStr text) ->
           search_braces text = None
           \/ (exists span e, search_braces text = Some span
                              /\ json_loads span = Raise e) ->
           exists v,
             fst (Crew.optimize_route kickoff data st) = Ok v
             /\ get "optimized_route" v = route).
Proof.
  intros data route. split; [apply address_strings_nonempty|].
  split; [|split].
  - intros create.
    destruct (direct_cases create data)
      as [[e H]|(content & rest & Hc & [(v & Hj & H)|[_ H]])].
    + eexists. split; [exact H|]. now left.
    + exists v. split; [exact H|]. right. now exists content, rest.
    + eexists. split; [exact H|]. now left.
  - intros create content rest e Hc Hj.
    destruct (is_JSONDecodeError e) eqn:He.
    + eexists.
      split; [apply (direct_not_json create data content rest e Hc Hj He)|].
      reflexivity.
    + eexists.
      split; [apply (direct_loads_raises_other create data content rest e Hc Hj He)|].
      reflexivity.
  - intros kickoff st st' text Hu Hk Hcase.
    rewrite (pipeline_kickoff_returns kickoff data st st' _ Hu Hk). simpl.
    destruct Hcase as [Hs|(span & e & Hs & Hj)].
    + rewrite (process_no_braces _ text Hs). eexists. split; reflexivity.
    + unfold Crew.process_result. rewrite Hs, Hj. simpl.
      destruct (is_JSONDecodeError e || is_AttributeError e);
        eexists; split; reflexivity.
Qed.

(** C4, an instance: a plain sentence in the direct mode, a sentence with
    braces in the pipeline mode. *)
Lemma C4_fallback_route_is_input_order_witness :
  (exists v,
      Agent.optimize_route (Samples.create_replying Samples.text_plain)
                           Samples.data_AB = Ok v
      /\ get "optimized_route" v = Some (PList [PStr "A"; PStr "B"]))
  /\ (exists v,
         fst (Crew.optimize_route (Samples.kickoff_replying Samples.text_plain_braces)
                Samples.data_AB Crew.setup_tasks) = Ok v
         /\ get "optimized_route" v = Some (PList [PStr "A"; PStr "B"])).
Proof.
  destruct (C4_fallback_route_is_input_order Samples.data_AB)
    as (Hne & _ & Hd & Hp).
  assert (Request.address_strings Samples.data_AB <> [])
    by (apply Hne; discriminate).
  split.
  - apply (Hd (Samples.create_replying Samples.text_plain) Samples.text_plain []
              (decode_error "Expecting value")).
    + reflexivity.
    + vm_compute. reflexivity.
  - apply (Hp (Samples.kickoff_replying Samples.text_plain_braces) Crew.setup_tasks
              (snd (Crew.update_descriptions Samples.data_AB Crew.setup_tasks))
              Samples.text_plain_braces).
    + vm_compute. reflexivity.
    + reflexivity.
    + right. exists "{B} first, then {A}", (decode_error "Expecting value").
      split; vm_compute; reflexivity.
Defined.

(** C5, counterexample.  In the direct mode a reply with a well-formed
    RouteResult object after some prose is not searched: the result is the
    input order with the whole reply as explanation, not the object's route.
    In the pipeline mode the match runs to the last closing brace of the
    reply, so a brace pair after the object makes the parse fail. *)
Lemma C5_embedded_object_is_not_returned :
  contains Samples.text_json Samples.text_json_in_prose = true
  /\ contains Samples.text_json Samples.text_json_then_braces = true
  /\ json_loads Samples.text_json
     = Ok (PDict [("optimized_route", PList [PStr "B"; PStr "A"]);
                  ("explanation", PStr "B is higher priority")])
  /\ Agent.optimize_route (Samples.create_replying Samples.text_json_in_prose)
                          Samples.data_AB
     = Ok (PDict [("optimized_route", PList [PStr "A"; PStr "B"]);
                  ("explanation", PStr Samples.text_json_in_prose);
                  ("total_estimated_time", PStr "2-3 часа")])
  /\ search_braces Samples.text_json_then_braces
     = Some Samples.text_json_then_braces
  /\ fst (Crew.optimize_route
            (Samples.kickoff_replying Samples.text_json_then_braces)
            Samples.data_AB Crew.setup_tasks)
     = Ok (PDict [("optimized_route", PList [PStr "A"; PStr "B"]);
                  ("explanation",
                   PStr ("CrewAI анализ завершен. Результат: "
                         ++ Samples.text_json_then_braces));
                  ("total_estimated_time", PStr "2-3 часа");
                  ("risk_assessment", PStr "Анализ завершен успешно");
                  ("success_probability", PInt 7)]).
Proof.
  repeat split; vm_compute; reflexivity.
Qed.

(** C5, amended.  Pipeline mode: when the reply is a text with an opening
    brace and a closing brace after it, the part from the first opening brace
    to the last closing brace of the whole text (line ends included) is given
    to [json.loads]; if it parses, the parsed value is the result, verbatim;
    if not, the result is the parse-failure fallback: input order, the reply
    after the words ["CrewAI анализ завершен. Результат: "] as explanation,
    ["2-3 часа"], [success_probability] 7.  Direct mode: the whole reply,
    stripped of white space at both ends, is given to [json.loads]; if it
    parses, the parsed value is the result, verbatim; if not, the result is
    the free-text fallback with the stripped reply as explanation. *)
Theorem C5_parse_of_the_reply :
  forall (data : Request.Data),
    (forall kickoff st st' text span,
        Crew.update_descriptions data st = (Ok tt, st') ->
        kickoff st' = Ok (PStr text) ->
        search_braces text = Some span ->
        (exists pre body post,
            text = pre ++ span ++ post
            /\ span = "{" ++ body ++ "}"
            /\ has_char "{" pre = false
            /\ has_char "}" post = false)
        /\ (forall v, json_loads span = Ok v ->
                      fst (Crew.optimize_route kickoff data st) = Ok v)
        /\ (forall e, json_loads span = Raise e ->
                      is_JSONDecodeError e = true ->
                      fst (Crew.optimize_route kickoff data st)
                      = Ok (PDict
                              [("optimized_route", PList (Request.address_strings data));
                               ("explanation",
                                PStr ("CrewAI анализ завершен. Результат: " ++ text));
                               ("total_estimated_time", PStr "2-3 часа");
                               ("risk_assessment", PStr "Анализ завершен успешно");
                               ("success_probability", PInt 7)])))
    /\ (forall create content rest,
           create (Agent.messages (Agent.create_prompt data))
             = Ok (Some content :: rest) ->
           (forall v, json_loads (strip content) = Ok v ->
                      Agent.optimize_route create data = Ok v)
           /\ (forall e, json_loads (strip content) = Raise e ->
                         is_JSONDecodeError e = true ->
                         Agent.optimize_route create data
                         = Ok (PDict
                                 [("optimized_route",
                                   PList (Request.address_strings data));
                                  ("explanation", PStr (strip content));
                                  ("total_estimated_time", PStr "2-3 часа")]))).
Proof.
  intros data. split.
  - intros kickoff st st' text span Hu Hk Hs.
    split; [now apply search_braces_spec|].
    rewrite (pipeline_kickoff_returns kickoff data st st' _ Hu Hk). simpl.
    split.
    + intros v Hj. now rewrite (process_parsed _ text span v Hs Hj).
    + intros e Hj He. now rewrite (process_parse_error _ text span e Hs Hj He).
  - intros create content rest Hc. split.
    + intros v Hj. now apply (direct_parsed create data content rest).
    + intros e Hj He.
      now rewrite (direct_not_json create data content rest e Hc Hj He).
Qed.

(** C5, an instance: the object between two lines of prose in the pipeline
    mode; the object between white space in the direct mode. *)
Lemma C5_parse_of_the_reply_witness :
  fst (Crew.optimize_route
         (Samples.kickoff_replying
            ("Plan:" ++ nl ++ Samples.text_json ++ nl ++ "Done."))
         Samples.data_AB Crew.setup_tasks)
  = Ok (PDict [("optimized_route", PList [PStr "B"; PStr "A"]);
               ("explanation", PStr "B is higher priority")])
  /\ fst (Crew.optimize_route
            (Samples.kickoff_replying Samples.text_json_then_braces)
            Samples.data_AB Crew.setup_tasks)
     = Ok (PDict [("optimized_route", PList [PStr "A"; PStr "B"]);
                  ("explanation",
                   PStr ("CrewAI анализ завершен. Результат: "
                         ++ Samples.text_json_then_braces));
                  ("total_estimated_time", PStr "2-3 часа");
                  ("risk_assessment", PStr "Анализ завершен успешно");
                  ("success_probability", PInt 7)])
  /\ Agent.optimize_route (Samples.create_replying (" " ++ Samples.text_json ++ nl))
                          Samples.data_AB
     = Ok (PDict [("optimized_route", PList [PStr "B"; PStr "A"]);
                  ("explanation", PStr "B is higher priority")])
  /\ Agent.optimize_route (Samples.create_replying Samples.text_json_in_prose)
                          Samples.data_AB
     = Ok (PDict [("optimized_route", PList [PStr "A"; PStr "B"]);
                  ("explanation", PStr (strip Samples.text_json_in_prose));
                  ("total_estimated_time", PStr "2-3 часа")]).
Proof.
  destruct (C5_parse_of_the_reply Samples.data_AB) as [Hp Hd].
  split; [|split; [|split]].
  - apply (Hp (Samples.kickoff_replying
                 ("Plan:" ++ nl ++ Samples.text_json ++ nl ++ "Done."))
              Crew.setup_tasks
              (snd (Crew.update_descriptions Samples.data_AB Crew.setup_tasks))
              ("Plan:" ++ nl ++ Samples.text_json ++ nl ++ "Done.")
              Samples.text_json).
    + vm_compute. reflexivity.
    + reflexivity.
    + vm_compute. reflexivity.
    + vm_compute. reflexivity.
  - apply (Hp (Samples.kickoff_replying Samples.text_json_then_braces)
              Crew.setup_tasks
              (snd (Crew.update_descriptions Samples.data_AB Crew.setup_tasks))
              Samples.text_json_then_braces Samples.text_json_then_braces)
      with (e := decode_error "Extra data").
    + vm_compute. reflexivity.
    + reflexivity.
    + vm_compute. reflexivity.
    + vm_compute. reflexivity.
    + reflexivity.
  - apply (Hd (Samples.create_replying (" " ++ Samples.text_json ++ nl))
              (" " ++ Samples.text_json ++ nl) []).
    + reflexivity.
    + vm_compute. reflexivity.
  - apply (Hd (Samples.create_replying Samples.text_json_in_prose)
              Samples.text_json_in_prose [])
      with (e := decode_error "Expecting value").
    + reflexivity.
    + vm_compute. reflexivity.
    + reflexivity.
Defined.

(** C6, counterexample.  Two plain texts with no JSON object in them.  In the
    pipeline mode the one with braces gets an explanation that is not the
    reply, and [success_probability] 7; in the direct mode the explanation of
    the padded one is the reply without its first and last space. *)
Lemma C6_explanation_is_not_the_raw_reply :
  has_json_object Samples.text_plain_braces = false
  /\ has_json_object Samples.text_plain_padded = false
  /\ (exists v,
        fst (Crew.optimize_route
               (Samples.kickoff_replying Samples.text_plain_braces)
               Samples.data_AB Crew.setup_tasks) = Ok v
        /\ get "explanation" v
           = Some (PStr "CrewAI анализ завершен. Результат: Visit {B} first, then {A}.")
        /\ get "explanation" v <> Some (PStr Samples.text_plain_braces))
  /\ (exists v,
        Agent.optimize_route (Samples.create_replying Samples.text_plain_padded)
                             Samples.data_AB = Ok v
        /\ get "explanation" v = Some (PStr "Visit B first, then A.")
        /\ get "explanation" v <> Some (PStr Samples.text_plain_padded)).
Proof.
  split; [vm_compute; reflexivity|].
  split; [vm_compute; reflexivity|].
  split; eexists; (split; [vm_compute; reflexivity|]);
    (split; [reflexivity|discriminate]).
Qed.

(** C6, amended.  Direct mode: when [json.loads] rejects the reply stripped
    of white space at both ends, the result is the input addresses in input
    order, the stripped reply as [explanation] and ["2-3 часа"] as
    [total_estimated_time].  Pipeline mode: when the reply is a text with no
    closing brace after a first opening brace, the result is the input
    addresses in input order, the entire reply as [explanation] and
    ["2-3 часа"]; when it has such braces and [json.loads] rejects the part
    between them, the [explanation] is the reply after the words
    ["CrewAI анализ завершен. Результат: "], with the same route and time. *)
Theorem C6_free_text_fallback :
  forall (data : Request.Data),
    let route := Some (PList (Request.address_strings data)) in
    (forall create content rest e,
        create (Agent.messages (Agent.create_prompt data))
          = Ok (Some content :: rest) ->
        json_loads (strip content) = Raise e ->
        is_JSONDecodeError e = true ->
        exists v,
          Agent.optimize_route create data = Ok v
          /\ get "optimized_route" v = route
          /\ get "explanation" v = Some (PStr (strip content))
          /\ get "total_estimated_time" v = Some (PStr "2-3 часа"))
    /\ (forall kickoff st st' text,
           Crew.update_descriptions data st = (Ok tt, st') ->
           kickoff st' = Ok (PStr text) ->
           search_braces text = None ->
           exists v,
             fst (Crew.optimize_route kickoff data st) = Ok v
             /\ get "optimized_route" v = route
             /\ get "explanation" v = Some (PStr text)
             /\ get "total_estimated_time" v = Some (PStr "2-3 часа"))
    /\ (forall kickoff st st' text span e,
           Crew.update_descriptions data st = (Ok tt, st') ->
           kickoff st' = Ok (PStr text) ->
           search_braces text = Some span ->
           json_loads span = Raise e ->
           is_JSONDecodeError e = true ->
           exists v,
             fst (Crew.optimize_route kickoff data st) = Ok v
             /\ get "optimized_route" v = route
             /\ get "explanation" v
                = Some (PStr ("CrewAI анализ завершен. Результат: " ++ text))
             /\ get "total_estimated_time" v = Some (PStr "2-3 часа")).
Proof.
  intros data route. split; [|split].
  - intros create content rest e Hc Hj He. eexists.
    split; [apply (direct_not_json create data content rest e Hc Hj He)|].
    repeat split.
  - intros kickoff st st' text Hu Hk Hs.
    rewrite (pipeline_kickoff_returns kickoff data st st' _ Hu Hk). simpl.
    rewrite (process_no_braces _ text Hs). eexists. repeat split.
  - intros kickoff st st' text span e Hu Hk Hs Hj He.
    rewrite (pipeline_kickoff_returns kickoff data st st' _ Hu Hk). simpl.
    rewrite (process_parse_error _ text span e Hs Hj He). eexists. repeat split.
Qed.

(** C6, an instance of each of the three fallbacks. *)
Lemma C6_free_text_fallback_witness :
  (exists v,
      Agent.optimize_route (Samples.create_replying Samples.text_plain_padded)
                           Samples.data_AB = Ok v
      /\ get "optimized_route" v = Some (PList [PStr "A"; PStr "B"])
      /\ get "explanation" v = Some (PStr (strip Samples.text_plain_padded))
      /\ get "total_estimated_time" v = Some (PStr "2-3 часа"))
  /\ (exists v,
         fst (Crew.optimize_route (Samples.kickoff_replying Samples.text_plain)
                Samples.data_AB Crew.setup_tasks) = Ok v
         /\ get "optimized_route" v = Some (PList [PStr "A"; PStr "B"])
         /\ get "explanation" v = Some (PStr Samples.text_plain)
         /\ get "total_estimated_time" v = Some (PStr "2-3 часа"))
  /\ (exists v,
         fst (Crew.optimize_route (Samples.kickoff_replying Samples.text_plain_braces)
                Samples.data_AB Crew.setup_tasks) = Ok v
         /\ get "optimized_route" v = Some (PList [PStr "A"; PStr "B"])
         /\ get "explanation" v
            = Some (PStr ("CrewAI анализ завершен. Результат: "
                          ++ Samples.text_plain_braces))
         /\ get "total_estimated_time" v = Some (PStr "2-3 часа")).
Proof.
  destruct (C6_free_text_fallback Samples.data_AB) as (Hd & Hn & Hp).
  split; [|split].
  - apply (Hd (Samples.create_replying Samples.text_plain_padded)
              Samples.text_plain_padded [] (decode_error "Expecting value")).
    + reflexivity.
    + vm_compute. reflexivity.
    + reflexivity.
  - apply (Hn (Samples.kickoff_replying Samples.text_plain) Crew.setup_tasks
              (snd (Crew.update_descriptions Samples.data_AB Crew.setup_tasks))
              Samples.text_plain).
    + vm_compute. reflexivity.
    + reflexivity.
    + vm_compute. reflexivity.
  - apply (Hp (Samples.kickoff_replying Samples.text_plain_braces) Crew.setup_tasks
              (snd (Crew.update_descriptions Samples.data_AB Crew.setup_tasks))
              Samples.text_plain_braces "{B} first, then {A}"
              (decode_error "Expecting value")).
    + vm_compute. reflexivity.
    + reflexivity.
    + vm_compute. reflexivity.
    + vm_compute. reflexivity.
    + reflexivity.
Defined.

(** In the direct mode the prompt and the result depend on the request and on
    the model alone: [Agent.optimize_route] reads nothing else.  The pipeline
    mode is different. *)

(** C7 (as the code behaves).  The process has one [agent], hence one set of
    task objects.  A call overwrites the descriptions of three of them with
    their formatted text, so the placeholders are gone after the first call:
    a second call, for C and D, runs the crew with the descriptions of the
    first call, for A and B, which is not what a fresh process does with the
    same request.  After a call whose address contains braces, every later
    call fails in [format] and returns the error result, whatever the model
    would reply. *)
Theorem C7_task_descriptions_carry_over :
  forall (kickoff : Crew.Tasks -> pyresult pyval),
    let after_AB := snd (Crew.update_descriptions Samples.data_AB Crew.setup_tasks) in
    let after_CD := snd (Crew.update_descriptions Samples.data_CD Crew.setup_tasks) in
    map snd (Agent.serve_crewai kickoff [Samples.data_AB; Samples.data_CD]
               Crew.setup_tasks) = [after_AB; after_AB]
    /\ map snd (Agent.serve_crewai kickoff [Samples.data_CD] Crew.setup_tasks)
       = [after_CD]
    /\ after_AB <> after_CD
    /\ contains "1. A (приоритет: 3/5)" (Crew.route_task after_AB) = true
    /\ contains "1. C (приоритет: 1/5)" (Crew.route_task after_AB) = false
    /\ contains "1. C (приоритет: 1/5)" (Crew.route_task after_CD) = true
    /\ map fst (Agent.serve_crewai kickoff [Samples.data_braces; Samples.data_AB]
                  Crew.setup_tasks)
       = [fst (Agent.optimize_route_crewai kickoff Samples.data_braces
                 Crew.setup_tasks);
          Ok (Crew.error_result Samples.data_AB
                (MkExn KeyError "'rear entrance'"))].
Proof.
  intros kickoff after_AB after_CD.
  assert (HAB : snd (Agent.optimize_route_crewai kickoff Samples.data_AB
                       Crew.setup_tasks) = after_AB).
  { rewrite optimize_route_crewai_same. apply pipeline_tasks_after. }
  assert (HCD : snd (Agent.optimize_route_crewai kickoff Samples.data_CD after_AB)
                = after_AB).
  { rewrite optimize_route_crewai_same, pipeline_tasks_after.
    vm_compute. reflexivity. }
  split; [cbn [Agent.serve_crewai map]; now rewrite HAB, HCD|].
  split; [cbn [Agent.serve_crewai map];
          now rewrite optimize_route_crewai_same, pipeline_tasks_after|].
  split; [vm_compute; discriminate|].
  split; [vm_compute; reflexivity|].
  split; [vm_compute; reflexivity|].
  split; [vm_compute; reflexivity|].
  cbn [Agent.serve_crewai map]. f_equal. f_equal.
  rewrite !optimize_route_crewai_same, pipeline_tasks_after.
  erewrite pipeline_update_raises; [reflexivity|].
  vm_compute. reflexivity.
Qed.

(** The same with a crew that repeats its route task: the second client is
    told about the addresses of the first. *)
Lemma second_call_answers_with_first_addresses :
  exists v,
    nth_error (map fst (Agent.serve_crewai Samples.kickoff_echo
                          [Samples.data_AB; Samples.data_CD] Crew.setup_tasks)) 1
    = Some (Ok v)
    /\ get "explanation" v
       = Some (PStr (Crew.route_task
                       (snd (Crew.update_descriptions Samples.data_AB
                               Crew.setup_tasks)))).
Proof.
  eexists. split; vm_compute; reflexivity.
Qed.

(** C8, counterexample.  The agent answers 200 with the five fields of the
    pipeline mode; the body the gateway sends has neither [risk_assessment]
    nor [success_probability]. *)
Lemma C8_gateway_drops_fields :
  let response :=
    Backend.post_optimize_route_crewai Samples.agent_url
      (Samples.post_replying Samples.reply_five_fields) Samples.body_AB in
  Backend.status response = 200%Z
  /\ get "risk_assessment" Samples.reply_five_fields
     = Some (PStr "rain slows the second leg")
  /\ get "success_probability" Samples.reply_five_fields = Some (PInt 8)
  /\ get "risk_assessment" (Backend.body response) = None
  /\ get "success_probability" (Backend.body response) = None
  /\ Backend.body response <> Samples.reply_five_fields.
Proof.
  cbv zeta. repeat split; try reflexivity.
  vm_compute. discriminate.
Qed.

(** C8, amended.  For a request with two addresses or more and a reply of
    the agent with status 200 whose JSON is an object, where
    [optimized_route] is a list of strings, [explanation] a string and
    [total_estimated_time] a string or null (each read with the default of
    the handler when the key is missing: the empty list, the empty string,
    null), the gateway answers 200 with exactly those three keys and those
    values; every other key of the reply is left out. *)
Theorem C8_gateway_keeps_three_fields :
  forall (AGENT_URL : string) (post : string -> pyval -> Z -> pyresult Backend.Response)
         (b : Backend.DeliveryRequestBody) (response : Backend.Response)
         (d : list (string * pyval)) (route : list string) (expl : string)
         (time : option string),
    (2 <= List.length (Backend.body_addresses b))%nat ->
    Backend.status_code response = 200%Z ->
    Backend.json response = Ok (PDict d) ->
    Backend.get_method (PDict d) "optimized_route" (PList [])
      = Ok (PList (map PStr route)) ->
    Backend.get_method (PDict d) "explanation" (PStr "") = Ok (PStr expl) ->
    Backend.get_method (PDict d) "total_estimated_time" PNone
      = Ok (Backend.opt_str time) ->
    let kept :=
      Backend.MkHttpResponse 200
        (PDict [("optimized_route", PList (map PStr route));
                ("explanation", PStr expl);
                ("total_estimated_time", Backend.opt_str time)]) in
    (post (AGENT_URL ++ "/optimize")
          (Backend.agent_data (Backend.DeliveryRequest_validate b)) 30%Z
       = Ok response ->
     Backend.post_optimize_route AGENT_URL post b = kept)
    /\ (post (AGENT_URL ++ "/optimize-crewai")
             (Backend.agent_data (Backend.DeliveryRequest_validate b)) 60%Z
          = Ok response ->
        Backend.post_optimize_route_crewai AGENT_URL post b = kept).
Proof.
  intros URL post b response d route expl time Hlen Hcode Hjson Hr He Ht kept.
  assert (Hlen' : (2 <= List.length
                         (Backend.addresses (Backend.DeliveryRequest_validate b)))%nat)
    by (simpl; now rewrite length_map).
  split; intros Hpost.
  - unfold Backend.post_optimize_route.
    rewrite (optimize_route_200 URL post _ response d Hlen' Hpost Hcode Hjson).
    rewrite (kept_fields d route expl time Hr He Ht). reflexivity.
  - unfold Backend.post_optimize_route_crewai.
    rewrite (optimize_route_crewai_200 URL post _ response d Hlen' Hpost Hcode Hjson).
    rewrite (kept_fields d route expl time Hr He Ht). reflexivity.
Qed.

(** C8, an instance: the five-field reply of the scenario comes out with
    three fields. *)
Lemma C8_gateway_keeps_three_fields_witness :
  Backend.post_optimize_route Samples.agent_url
    (Samples.post_replying Samples.reply_five_fields) Samples.body_AB
  = Backend.MkHttpResponse 200 Samples.reply_three_fields
  /\ Backend.post_optimize_route_crewai Samples.agent_url
       (Samples.post_replying Samples.reply_five_fields) Samples.body_AB
     = Backend.MkHttpResponse 200 Samples.reply_three_fields.
Proof.
  assert (H := C8_gateway_keeps_three_fields Samples.agent_url
                 (Samples.post_replying Samples.reply_five_fields) Samples.body_AB
                 (Backend.MkResponse 200 "" (Ok Samples.reply_five_fields))
                 [("optimized_route", PList [PStr "B"; PStr "A"]);
                  ("explanation", PStr "B is higher priority");
                  ("total_estimated_time", PStr "1 hour");
                  ("risk_assessment", PStr "rain slows the second leg");
                  ("success_probability", PInt 8)]
                 ["B"; "A"] "B is higher priority" (Some "1 hour")).
  cbv zeta in H. split; apply H; reflexivity.
Defined.

(** C9, counterexample.  A request with an empty list of requirements: the
    prompt of [create_prompt] has no requirements line and no "none" marker.
    The descriptions of the pipeline mode, on their side, carry the weather
    word as it came, untranslated, and say nothing of the warehouse delay. *)
Lemma C9_no_marker_for_empty_requirements :
  let data := Samples.data_no_requirements in
  let tasks := snd (Crew.update_descriptions data Crew.setup_tasks) in
  Request.special_requirements data = Request.Given []
  /\ contains "Особые требования:" (Agent.create_prompt data) = false
  /\ contains "нет" (Agent.create_prompt data) = false
  /\ contains "- Special requirements: нет" (Crew.route_task tasks) = true
  /\ contains "conditions: rain" (Crew.weather_task tasks) = true
  /\ contains "дождь" (Crew.weather_task tasks) = false
  /\ contains "warehouse_1" (Crew.weather_task tasks ++ Crew.traffic_task tasks
                              ++ Crew.route_task tasks
                              ++ Crew.coordination_task tasks) = false.
Proof.
  cbv zeta. repeat split; vm_compute; reflexivity.
Qed.

(** C9, amended.  [create_prompt] is a total function of the request.  Its
    output has, for the address at each position, the line with the position
    counted from 1, the address and the priority followed by [/5]; for a
    weather or traffic value that is not empty, a line with the phrase of the
    known values ([sunny], [rain], [snow], [fog]; [light], [moderate],
    [heavy]) or with the value itself when it is not one of them; for each
    warehouse delay, a line with the name, a plus sign, the minutes and
    ["минут"]; for requirements that are not empty, a line with the
    requirements joined by a comma and a space.  When the requirements are
    empty, null or left out, the prompt is the prompt of the request without
    requirements: no line, no marker.  The marker ["нет"] belongs to the
    pipeline mode: the route task of a fresh process is described with the
    requirements joined by a comma and a space, or with ["нет"] when there
    are none. *)
Theorem C9_prompt_builder :
  forall (data : Request.Data),
    let prompt := Agent.create_prompt data in
    (forall i a,
        nth_error (Request.addresses data) i = Some a ->
        infix (str_of_nat (S i) ++ ". " ++ Request.address a ++ " (приоритет: "
               ++ str_of_Z (Request.priority a) ++ "/5)" ++ nl) prompt)
    /\ (forall w,
           Request.weather_condition data = Request.Given w -> w <> "" ->
           infix ("- Погода: " ++ Agent.desc_get Agent.weather_desc w w ++ nl) prompt)
    /\ (forall t,
           Request.traffic_condition data = Request.Given t -> t <> "" ->
           infix ("- Пробки: " ++ Agent.desc_get Agent.traffic_desc t t ++ nl) prompt)
    /\ (Agent.desc_get Agent.weather_desc "sunny" "sunny" = "солнечная погода"
        /\ Agent.desc_get Agent.weather_desc "rain" "rain" = "дождь"
        /\ Agent.desc_get Agent.weather_desc "snow" "snow" = "снег"
        /\ Agent.desc_get Agent.weather_desc "fog" "fog" = "туман"
        /\ Agent.desc_get Agent.traffic_desc "light" "light" = "легкие пробки"
        /\ Agent.desc_get Agent.traffic_desc "moderate" "moderate"
           = "умеренные пробки"
        /\ Agent.desc_get Agent.traffic_desc "heavy" "heavy" = "сильные пробки")
    /\ (forall w, ~ In w ["sunny"; "rain"; "snow"; "fog"] ->
                  Agent.desc_get Agent.weather_desc w w = w)
    /\ (forall t, ~ In t ["light"; "moderate"; "heavy"] ->
                  Agent.desc_get Agent.traffic_desc t t = t)
    /\ (forall delays warehouse delay,
           Request.warehouse_delays data = Request.Given delays ->
           In (warehouse, delay) delays ->
           infix ("  * " ++ warehouse ++ ": +" ++ str_of_Z delay ++ " минут" ++ nl)
                 prompt)
    /\ (forall r rs,
           Request.special_requirements data = Request.Given (r :: rs) ->
           infix ("- Особые требования: " ++ join ", " (r :: rs) ++ nl) prompt
           /\ exists tasks,
                Crew.update_descriptions data Crew.setup_tasks = (Ok tt, tasks)
                /\ infix ("- Special requirements: " ++ join ", " (r :: rs))
                         (Crew.route_task tasks))
    /\ ((forall r rs,
            Request.special_requirements data <> Request.Given (r :: rs)) ->
        prompt
        = Agent.create_prompt
            (Request.MkData (Request.addresses data)
                            (Request.weather_condition data)
                            (Request.traffic_condition data)
                            (Request.warehouse_delays data) Request.Absent)
        /\ exists tasks,
             Crew.update_descriptions data Crew.setup_tasks = (Ok tt, tasks)
             /\ infix "- Special requirements: нет" (Crew.route_task tasks)).
Proof.
  intros data prompt. subst prompt. rewrite create_prompt_parts.
  unfold Rendering.prompt.
  split; [|split; [|split; [|split; [|split; [|split; [|split; [|split]]]]]]].
  - intros i a H. apply infix_app_r, infix_app_l.
    apply infix_concat.
    assert (Hin := enumerate_nth _ i 1 a H).
    apply (in_map (fun ia => Rendering.address_line (fst ia) (snd ia) ++ nl))
      in Hin.
    unfold Rendering.address_line in Hin. cbn [fst snd Nat.add] in Hin.
    now rewrite !append_assoc in Hin.
  - intros w Hw Hne. do 3 apply infix_app_r. apply infix_app_l.
    unfold Rendering.weather_part. rewrite Hw. simpl.
    destruct w; [contradiction|]. apply infix_refl.
  - intros t Ht Hne. do 4 apply infix_app_r. apply infix_app_l.
    unfold Rendering.traffic_part. rewrite Ht. simpl.
    destruct t; [contradiction|]. apply infix_refl.
  - repeat split.
  - intros w Hw. unfold Agent.desc_get, Agent.weather_desc, kw_get.
    repeat match goal with
           | |- context [String.eqb ?a ?b] =>
               destruct (String.eqb_spec a b) as [->|_];
               [exfalso; apply Hw; simpl; tauto|]
           end.
    reflexivity.
  - intros t Ht. unfold Agent.desc_get, Agent.traffic_desc, kw_get.
    repeat match goal with
           | |- context [String.eqb ?a ?b] =>
               destruct (String.eqb_spec a b) as [->|_];
               [exfalso; apply Ht; simpl; tauto|]
           end.
    reflexivity.
  - intros delays warehouse delay Hd Hin. do 5 apply infix_app_r.
    apply infix_app_l. unfold Rendering.delays_part. rewrite Hd. simpl Request.get_or.
    destruct delays as [|d ds]; [contradiction|].
    do 2 apply infix_app_r. apply infix_concat.
    apply (in_map Rendering.delay_line) in Hin. exact Hin.
  - intros r rs Hr. split.
    + do 6 apply infix_app_r. apply infix_app_l.
      unfold Rendering.requirements_part. rewrite Hr. apply infix_refl.
    + exists (Rendering.described data).
      split; [apply update_descriptions_fresh|].
      unfold Rendering.described, Rendering.requirements_str. rewrite Hr.
      apply requirements_in_route_description.
  - intros Hnone. split.
    + rewrite create_prompt_parts. unfold Rendering.prompt.
      unfold Rendering.requirements_part, Rendering.weather_part,
        Rendering.traffic_part, Rendering.delays_part.
      destruct (Request.special_requirements data) as [| |[|r rs]] eqn:Hr;
        try reflexivity.
      now destruct (Hnone r rs).
    + exists (Rendering.described data).
      split; [apply update_descriptions_fresh|].
      unfold Rendering.described, Rendering.requirements_str.
      destruct (Request.special_requirements data) as [| |[|r rs]] eqn:Hr;
        try apply requirements_in_route_description.
      now destruct (Hnone r rs).
Qed.

(** C9, two instances: the lines of the prompt for A and B with rain, heavy
    traffic, one delay and an empty list of requirements; the requirements
    of the request of [/test-crewai] in both modes. *)
Lemma C9_prompt_builder_witness :
  (infix ("2. B (приоритет: 5/5)" ++ nl)
         (Agent.create_prompt Samples.data_no_requirements)
   /\ infix ("- Погода: дождь" ++ nl)
            (Agent.create_prompt Samples.data_no_requirements)
   /\ infix ("- Пробки: сильные пробки" ++ nl)
            (Agent.create_prompt Samples.data_no_requirements)
   /\ Agent.desc_get Agent.weather_desc "storm" "storm" = "storm"
   /\ Agent.desc_get Agent.traffic_desc "jam" "jam" = "jam"
   /\ infix ("  * warehouse_1: +15 минут" ++ nl)
            (Agent.create_prompt Samples.data_no_requirements)
   /\ Agent.create_prompt Samples.data_no_requirements
      = Agent.create_prompt
          (Request.MkData
             [Request.MkAddress "A" 3%Z; Request.MkAddress "B" 5%Z]
             (Request.Given "rain") (Request.Given "heavy")
             (Request.Given [("warehouse_1", 15%Z)]) Request.Absent)
   /\ exists tasks,
        Crew.update_descriptions Samples.data_no_requirements Crew.setup_tasks
        = (Ok tt, tasks)
        /\ infix "- Special requirements: нет" (Crew.route_task tasks))
  /\ (infix ("- Особые требования: хрупкий груз, срочная доставка" ++ nl)
            (Agent.create_prompt Samples.data_test)
      /\ exists tasks,
           Crew.update_descriptions Samples.data_test Crew.setup_tasks
           = (Ok tt, tasks)
           /\ infix "- Special requirements: хрупкий груз, срочная доставка"
                    (Crew.route_task tasks)).
Proof.
  split.
  - destruct (C9_prompt_builder Samples.data_no_requirements)
      as (Ha & Hw & Ht & _ & Hu & Hv & Hd & _ & Hn).
    split; [|split; [|split; [|split; [|split; [|split]]]]].
    + apply (Ha 1%nat (Request.MkAddress "B" 5%Z)). reflexivity.
    + apply (Hw "rain"); [reflexivity|discriminate].
    + apply (Ht "heavy"); [reflexivity|discriminate].
    + apply (Hu "storm"). simpl. intros [H|[H|[H|[H|[]]]]]; discriminate.
    + apply (Hv "jam"). simpl. intros [H|[H|[H|[]]]]; discriminate.
    + apply (Hd [("warehouse_1", 15%Z)] "warehouse_1" 15%Z); [reflexivity|].
      simpl. left. reflexivity.
    + apply Hn. intros r rs. simpl. discriminate.
  - destruct (C9_prompt_builder Samples.data_test)
      as (_ & _ & _ & _ & _ & _ & _ & Hr & _).
    apply (Hr "хрупкий груз" ["срочная доставка"]). reflexivity.
Defined.

(** C10.  An address entry without [priority] is accepted with priority 1;
    the [agent_data] built from any accepted body gives every address an
    integer priority (the one sent, or 1); and [agent_data] is what the
    handlers pass to the agent: the only call they make is the one with it. *)
Theorem C10_missing_priority_defaults_to_1 :
  forall (AGENT_URL : string) (post : string -> pyval -> Z -> pyresult Backend.Response)
         (b : Backend.DeliveryRequestBody),
    (forall s, Backend.Address_validate (Backend.MkAddressBody s None)
               = Backend.MkAddress s 1%Z)
    /\ get "addresses" (Backend.agent_data (Backend.DeliveryRequest_validate b))
       = Some (PList (map (fun a =>
                             PDict [("address", PStr (Backend.body_address a));
                                    ("priority",
                                     PInt (match Backend.body_priority a with
                                           | Some p => p
                                           | None => 1%Z
                                           end))])
                          (Backend.body_addresses b)))
    /\ Backend.post_optimize_route AGENT_URL post b
       = Backend.post_optimize_route AGENT_URL
           (fun _ _ _ =>
              post (AGENT_URL ++ "/optimize")
                   (Backend.agent_data (Backend.DeliveryRequest_validate b)) 30%Z) b
    /\ Backend.post_optimize_route_crewai AGENT_URL post b
       = Backend.post_optimize_route_crewai AGENT_URL
           (fun _ _ _ =>
              post (AGENT_URL ++ "/optimize-crewai")
                   (Backend.agent_data (Backend.DeliveryRequest_validate b)) 60%Z) b.
Proof.
  intros URL post b.
  split; [intros s; reflexivity|].
  split; [simpl; rewrite map_map; reflexivity|].
  split; destruct b as [[|a [|a' l]] w t d r]; reflexivity.
Qed.


(* ================================================================== *)
(** * Further properties: the gateway *)
(* ================================================================== *)

Lemma list_of_str_inv (l : list pyval) (strs : list string) :
  Backend.list_of_str l = Some strs -> l = map PStr strs.
Proof.
  revert strs. induction l as [|v l IH]; intros strs H; simpl in H.
  - injection H as <-. reflexivity.
  - destruct v; try discriminate.
    destruct (Backend.list_of_str l) as [t|]; [|discriminate].
    injection H as <-. simpl. now rewrite (IH t eq_refl).
Qed.

(** What [RouteResponse(...)] accepts. *)
Lemma RouteResponse_init_inv (route expl time : pyval) (r : Backend.RouteResponse) :
  Backend.RouteResponse_init route expl time = Ok r ->
  route = PList (map PStr (Backend.optimized_route r))
  /\ expl = PStr (Backend.explanation r)
  /\ time = Backend.opt_str (Backend.total_estimated_time r).
Proof.
  unfold Backend.RouteResponse_init.
  destruct route as [| | | | |l|]; try discriminate.
  destruct (Backend.list_of_str l) as [strs|] eqn:Hl; [|discriminate].
  apply list_of_str_inv in Hl. subst l.
  destruct expl; try discriminate.
  destruct time; try discriminate; intros H; injection H as <-;
    repeat split.
Qed.

(** The handlers raise nothing but [HTTPException], with status 500, 503 or
    504. *)
Lemma gateway_handle_status (A : Type) (t c o : string) (e : exn) :
  exists code detail,
    @handle A
      [(is_TimeoutException, fun _ => Raise (Backend.http_exception 504 t));
       (is_ConnectError, fun _ => Raise (Backend.http_exception 503 c));
       (Exception, fun e => Raise (Backend.http_exception 500 (o ++ exn_str e)))] e
    = Raise (Backend.http_exception code detail)
    /\ (code = 500 \/ code = 503 \/ code = 504)%Z.
Proof.
  destruct e as [[] msg]; simpl; eauto 10.
Qed.

Section GatewayAnswers.

Variable AGENT_URL : string.
Variable post : string -> pyval -> Z -> pyresult Backend.Response.
Variable b : Backend.DeliveryRequestBody.

Let request := Backend.DeliveryRequest_validate b.

(** The outcome of a handler: a [RouteResponse], or an [HTTPException] with
    status 500, 503 or 504. *)
Lemma optimize_route_outcome :
  (exists r, Backend.optimize_route AGENT_URL post request = Ok r)
  \/ (exists code detail,
        Backend.optimize_route AGENT_URL post request
        = Raise (Backend.http_exception code detail)
        /\ (code = 500 \/ code = 503 \/ code = 504)%Z).
Proof.
  unfold Backend.optimize_route, try_except.
  match goal with
  | |- context [match ?body with Ok a => Ok a | Raise e => handle ?cl e end] =>
      destruct body as [r|e]; [left; eauto|right; apply gateway_handle_status]
  end.
Qed.

Lemma optimize_route_crewai_outcome :
  (exists r, Backend.optimize_route_crewai AGENT_URL post request = Ok r)
  \/ (exists code detail,
        Backend.optimize_route_crewai AGENT_URL post request
        = Raise (Backend.http_exception code detail)
        /\ (code = 500 \/ code = 503 \/ code = 504)%Z).
Proof.
  unfold Backend.optimize_route_crewai, try_except.
  match goal with
  | |- context [match ?body with Ok a => Ok a | Raise e => handle ?cl e end] =>
      destruct body as [r|e]; [left; eauto|right; apply gateway_handle_status]
  end.
Qed.

End GatewayAnswers.

(** X1.  Whatever the client sends and whatever the agent does, both
    endpoints answer with status 200, 500, 503 or 504 (never 400), and an
    answer with status 200 has exactly the three keys [optimized_route],
    [explanation] and [total_estimated_time], the first a list of strings,
    the second a string, the third a string or null. *)
Theorem gateway_answers_200_500_503_504 :
  forall (AGENT_URL : string)
         (post : string -> pyval -> Z -> pyresult Backend.Response)
         (b : Backend.DeliveryRequestBody),
    Notions.gateway_answer (Backend.post_optimize_route AGENT_URL post b)
    /\ Notions.gateway_answer (Backend.post_optimize_route_crewai AGENT_URL post b).
Proof.
  intros URL post b.
  assert (Hout : forall answer,
    (exists r, answer = Backend.respond (Ok r))
    \/ (exists code detail,
          answer = Backend.respond (Raise (Backend.http_exception code detail))
          /\ (code = 500 \/ code = 503 \/ code = 504)%Z) ->
    Notions.gateway_answer answer).
  { intros answer [[r ->]|(code & detail & -> & Hc)]; split.
    - now left.
    - intros _. destruct r as [route expl time].
      exists route, expl, time. reflexivity.
    - simpl. tauto.
    - simpl. intros ->. destruct Hc as [Hc|[Hc|Hc]]; discriminate. }
  split; apply Hout.
  - unfold Backend.post_optimize_route.
    destruct (optimize_route_outcome URL post b) as [[r ->]|(c & d & -> & Hc)];
      eauto 10.
  - unfold Backend.post_optimize_route_crewai.
    destruct (optimize_route_crewai_outcome URL post b)
      as [[r ->]|(c & d & -> & Hc)]; eauto 10.
Qed.

Lemma bind_ok_inv {A B} (m : pyresult A) (k : A -> pyresult B) (r : B) :
  bind m k = Ok r -> exists a, m = Ok a /\ k a = Ok r.
Proof.
  destruct m as [a|e]; simpl; [eauto|discriminate].
Qed.

(** A handler returns only what its [try] body returns. *)
Lemma gateway_try_ok_inv (A : Type) (body : pyresult A) (t c o : string) (r : A) :
  try_except body
    [(is_TimeoutException, fun _ => Raise (Backend.http_exception 504 t));
     (is_ConnectError, fun _ => Raise (Backend.http_exception 503 c));
     (Exception, fun e => Raise (Backend.http_exception 500 (o ++ exn_str e)))]
  = Ok r ->
  body = Ok r.
Proof.
  destruct body as [a|e]; [intros H; exact H|].
  cbn [try_except].
  destruct (gateway_handle_status A t c o e) as (code & detail & -> & _).
  discriminate.
Qed.

(** The part of both handlers after the call of the agent. *)
Lemma reply_ok_inv (response : Backend.Response) (msg : string)
      (r : Backend.RouteResponse) :
  (_ <- (if negb (Backend.status_code response =? 200)%Z
         then Raise (Backend.http_exception 500 (msg ++ Backend.text response))
         else Ok tt) ;;
   result <- Backend.json response ;;
   route <- Backend.get_method result "optimized_route" (PList []) ;;
   expl <- Backend.get_method result "explanation" (PStr "") ;;
   time <- Backend.get_method result "total_estimated_time" PNone ;;
   Backend.RouteResponse_init route expl time) = Ok r ->
  Backend.status_code response = 200%Z
  /\ exists v,
       Backend.json response = Ok v
       /\ Notions.kept v (Backend.optimized_route r) (Backend.explanation r)
                       (Backend.total_estimated_time r).
Proof.
  intros H.
  apply bind_ok_inv in H. destruct H as ([] & Hcode & H).
  apply bind_ok_inv in H. destruct H as (v & Hjson & H).
  apply bind_ok_inv in H. destruct H as (route & Hroute & H).
  apply bind_ok_inv in H. destruct H as (expl & Hexpl & H).
  apply bind_ok_inv in H. destruct H as (time & Htime & H).
  apply RouteResponse_init_inv in H. destruct H as (-> & -> & ->).
  split.
  - destruct (Z.eqb_spec (Backend.status_code response) 200); [assumption|].
    discriminate.
  - exists v. split; [assumption|].
    destruct v as [| | | | | |d]; try discriminate.
    exists d. auto.
Qed.

Section GatewayReplies.

Variable AGENT_URL : string.
Variable post : string -> pyval -> Z -> pyresult Backend.Response.
Variable b : Backend.DeliveryRequestBody.
Hypothesis two_addresses : (2 <= List.length (Backend.body_addresses b))%nat.

Let request := Backend.DeliveryRequest_validate b.

Lemma two_validated : (2 <= List.length (Backend.addresses request))%nat.
Proof. simpl. now rewrite length_map. Qed.

Lemma optimize_route_ok_inv (response : Backend.Response)
      (r : Backend.RouteResponse) :
  post (AGENT_URL ++ "/optimize") (Backend.agent_data request) 30%Z = Ok response ->
  Backend.optimize_route AGENT_URL post request = Ok r ->
  Backend.status_code response = 200%Z
  /\ exists v,
       Backend.json response = Ok v
       /\ Notions.kept v (Backend.optimized_route r) (Backend.explanation r)
                       (Backend.total_estimated_time r).
Proof.
  intros Hpost H. pose proof two_validated as Hlen.
  unfold Backend.optimize_route in H. apply gateway_try_ok_inv in H.
  destruct (Backend.addresses request) as [|a [|a' l]] eqn:Ha;
    simpl in Hlen; try lia.
  cbn [bind List.length Nat.ltb Nat.leb] in H. rewrite Hpost in H.
  cbn [bind] in H. now apply reply_ok_inv in H.
Qed.

Lemma optimize_route_crewai_ok_inv (response : Backend.Response)
      (r : Backend.RouteResponse) :
  post (AGENT_URL ++ "/optimize-crewai") (Backend.agent_data request) 60%Z
    = Ok response ->
  Backend.optimize_route_crewai AGENT_URL post request = Ok r ->
  Backend.status_code response = 200%Z
  /\ exists v,
       Backend.json response = Ok v
       /\ Notions.kept v (Backend.optimized_route r) (Backend.explanation r)
                       (Backend.total_estimated_time r).
Proof.
  intros Hpost H. pose proof two_validated as Hlen.
  unfold Backend.optimize_route_crewai in H. apply gateway_try_ok_inv in H.
  destruct (Backend.addresses request) as [|a [|a' l]] eqn:Ha;
    simpl in Hlen; try lia.
  cbn [bind List.length Nat.ltb Nat.leb] in H. rewrite Hpost in H.
  cbn [bind] in H. now apply reply_ok_inv in H.
Qed.

Lemma optimize_route_crewai_upstream_raises (e : exn) :
  post (AGENT_URL ++ "/optimize-crewai") (Backend.agent_data request) 60%Z
    = Raise e ->
  Backend.optimize_route_crewai AGENT_URL post request = handle
    [(is_TimeoutException,
      fun _ => Raise (Backend.http_exception 504 "Таймаут запроса к CrewAI агенту"));
     (is_ConnectError,
      fun _ => Raise (Backend.http_exception 503 "CrewAI агент недоступен"));
     (Exception,
      fun e => Raise (Backend.http_exception 500
                        ("Внутренняя ошибка сервера: " ++ exn_str e)))] e.
Proof.
  intros Hpost. pose proof two_validated as Hlen.
  unfold Backend.optimize_route_crewai.
  destruct (Backend.addresses request) as [|a [|a' l]] eqn:Ha;
    simpl in Hlen; try lia.
  simpl. rewrite Hpost. reflexivity.
Qed.

End GatewayReplies.

(** X2.  For a request with two addresses or more, a failure of the call of
    the agent is answered by its class: a timeout with 504, a refused
    connection with 503, each with a fixed detail, and any other exception
    with 500 and a detail that ends with the text of the exception. *)
Theorem gateway_upstream_failure :
  forall (AGENT_URL : string)
         (post : string -> pyval -> Z -> pyresult Backend.Response)
         (b : Backend.DeliveryRequestBody) (e : exn),
    (2 <= List.length (Backend.body_addresses b))%nat ->
    (post (AGENT_URL ++ "/optimize")
          (Backend.agent_data (Backend.DeliveryRequest_validate b)) 30%Z = Raise e ->
     Backend.post_optimize_route AGENT_URL post b
     = match exn_cls e with
       | TimeoutException =>
           Backend.MkHttpResponse 504
             (PDict [("detail", PStr "Таймаут запроса к агенту")])
       | ConnectError =>
           Backend.MkHttpResponse 503 (PDict [("detail", PStr "Агент недоступен")])
       | _ =>
           Backend.MkHttpResponse 500
             (PDict [("detail",
                      PStr ("Внутренняя ошибка сервера: " ++ exn_str e))])
       end)
    /\ (post (AGENT_URL ++ "/optimize-crewai")
             (Backend.agent_data (Backend.DeliveryRequest_validate b)) 60%Z
          = Raise e ->
        Backend.post_optimize_route_crewai AGENT_URL post b
        = match exn_cls e with
          | TimeoutException =>
              Backend.MkHttpResponse 504
                (PDict [("detail", PStr "Таймаут запроса к CrewAI агенту")])
          | ConnectError =>
              Backend.MkHttpResponse 503
                (PDict [("detail", PStr "CrewAI агент недоступен")])
          | _ =>
              Backend.MkHttpResponse 500
                (PDict [("detail",
                         PStr ("Внутренняя ошибка сервера: " ++ exn_str e))])
          end).
Proof.
  intros URL post b e Hlen. split; intros Hpost.
  - unfold Backend.post_optimize_route.
    rewrite (optimize_route_upstream_raises URL post _ e
               (two_validated b Hlen) Hpost).
    destruct e as [[] msg]; reflexivity.
  - unfold Backend.post_optimize_route_crewai.
    rewrite (optimize_route_crewai_upstream_raises URL post b Hlen e Hpost).
    destruct e as [[] msg]; reflexivity.
Qed.

(** X3.  For a request with two addresses or more that the agent answered,
    the gateway answers 200 exactly when the agent's status is 200 and its
    JSON is a dict whose [optimized_route] is a list of strings, whose
    [explanation] is a string and whose [total_estimated_time] is a string or
    null, a missing key counting as the empty list, the empty string and
    null.  Any other reply (another status, a body that is no JSON, a JSON
    list or number, a route with a number in it) is not answered 200. *)
Theorem gateway_200_iff_reply_fits :
  forall (AGENT_URL : string)
         (post : string -> pyval -> Z -> pyresult Backend.Response)
         (b : Backend.DeliveryRequestBody) (response : Backend.Response),
    (2 <= List.length (Backend.body_addresses b))%nat ->
    let fits :=
      Backend.status_code response = 200%Z
      /\ exists v route expl time,
           Backend.json response = Ok v /\ Notions.kept v route expl time in
    (post (AGENT_URL ++ "/optimize")
          (Backend.agent_data (Backend.DeliveryRequest_validate b)) 30%Z
       = Ok response ->
     (Backend.status (Backend.post_optimize_route AGENT_URL post b) = 200%Z
      <-> fits))
    /\ (post (AGENT_URL ++ "/optimize-crewai")
             (Backend.agent_data (Backend.DeliveryRequest_validate b)) 60%Z
          = Ok response ->
        (Backend.status (Backend.post_optimize_route_crewai AGENT_URL post b)
         = 200%Z <-> fits)).
Proof.
  intros URL post b response Hlen fits.
  pose proof (two_validated b Hlen) as Hlen'.
  split; intros Hpost; split.
  - intros Hs. unfold Backend.post_optimize_route in Hs.
    destruct (optimize_route_outcome URL post b) as [[r Hr]|(c & d & Hr & Hc)];
      rewrite Hr in Hs.
    + destruct (optimize_route_ok_inv URL post b Hlen response r Hpost Hr)
        as (Hcode & v & Hj & Hk).
      split; [assumption|]. eauto 10.
    + simpl in Hs. subst c. destruct Hc as [Hc|[Hc|Hc]]; discriminate.
  - intros (Hcode & v & route & expl & time & Hj & d & -> & Hr & He & Ht).
    unfold Backend.post_optimize_route.
    rewrite (optimize_route_200 URL post _ response d Hlen' Hpost Hcode Hj).
    now rewrite (kept_fields d route expl time Hr He Ht).
  - intros Hs. unfold Backend.post_optimize_route_crewai in Hs.
    destruct (optimize_route_crewai_outcome URL post b)
      as [[r Hr]|(c & d & Hr & Hc)]; rewrite Hr in Hs.
    + destruct (optimize_route_crewai_ok_inv URL post b Hlen response r Hpost Hr)
        as (Hcode & v & Hj & Hk).
      split; [assumption|]. eauto 10.
    + simpl in Hs. subst c. destruct Hc as [Hc|[Hc|Hc]]; discriminate.
  - intros (Hcode & v & route & expl & time & Hj & d & -> & Hr & He & Ht).
    unfold Backend.post_optimize_route_crewai.
    rewrite (optimize_route_crewai_200 URL post _ response d Hlen' Hpost Hcode Hj).
    now rewrite (kept_fields d route expl time Hr He Ht).
Qed.

(** X2, an instance: the agent refuses the connection on [/optimize], and
    times out on [/optimize-crewai]. *)
Lemma gateway_upstream_failure_witness :
  Backend.post_optimize_route Samples.agent_url
    (Samples.post_failing Samples.refused) Samples.body_AB
  = Backend.MkHttpResponse 503 (PDict [("detail", PStr "Агент недоступен")])
  /\ Backend.post_optimize_route_crewai Samples.agent_url
       (Samples.post_failing Samples.read_timeout) Samples.body_AB
     = Backend.MkHttpResponse 504
         (PDict [("detail", PStr "Таймаут запроса к CrewAI агенту")]).
Proof.
  split.
  - apply (gateway_upstream_failure Samples.agent_url
             (Samples.post_failing Samples.refused) Samples.body_AB Samples.refused);
      reflexivity.
  - apply (gateway_upstream_failure Samples.agent_url
             (Samples.post_failing Samples.read_timeout) Samples.body_AB
             Samples.read_timeout); reflexivity.
Defined.

(** X3, an instance: the five fields of the pipeline mode fit. *)
Lemma gateway_200_iff_reply_fits_witness :
  Backend.status (Backend.post_optimize_route Samples.agent_url
                    (Samples.post_replying Samples.reply_five_fields)
                    Samples.body_AB) = 200%Z
  /\ Backend.status (Backend.post_optimize_route_crewai Samples.agent_url
                       (Samples.post_replying Samples.reply_five_fields)
                       Samples.body_AB) = 200%Z.
Proof.
  assert (H := gateway_200_iff_reply_fits Samples.agent_url
                 (Samples.post_replying Samples.reply_five_fields) Samples.body_AB
                 (Backend.MkResponse 200 "" (Ok Samples.reply_five_fields))).
  cbv zeta in H. destruct H as [H1 H2]; [reflexivity|].
  assert (Hfits : Backend.status_code
                    (Backend.MkResponse 200 "" (Ok Samples.reply_five_fields))
                  = 200%Z
                  /\ exists v route expl time,
                       Backend.json
                         (Backend.MkResponse 200 "" (Ok Samples.reply_five_fields))
                       = Ok v /\ Notions.kept v route expl time).
  { split; [reflexivity|].
    exists Samples.reply_five_fields, ["B"; "A"], "B is higher priority",
      (Some "1 hour").
    split; [reflexivity|]. eexists. repeat split. }
  split; [apply H1|apply H2]; try reflexivity; exact Hfits.
Defined.

(* ================================================================== *)
(** * Further properties: the endpoints of the agent *)
(* ================================================================== *)

Lemma direct_returns (create : list (string * string) -> pyresult (list (option string)))
      (data : Request.Data) :
  exists v, Agent.optimize_route create data = Ok v.
Proof.
  destruct (direct_cases create data)
    as [[e H]|(content & rest & _ & [(v & _ & H)|[_ H]])]; eauto.
Qed.

Lemma crewai_returns (kickoff : Crew.Tasks -> pyresult pyval)
      (data : Request.Data) (st : Crew.Tasks) :
  exists v,
    Agent.optimize_route_crewai kickoff data st
    = (Ok v, snd (Crew.update_descriptions data st)).
Proof.
  rewrite optimize_route_crewai_same.
  destruct (pipeline_total kickoff data st) as [v H].
  exists v. rewrite <- (pipeline_tasks_after kickoff data st).
  destruct (Crew.optimize_route kickoff data st) as [r st']. simpl in *. now subst r.
Qed.






Ltac answered := do 2 eexists; split; [reflexivity|auto].

Lemma optimize_agent_answer
      (create : list (string * string) -> pyresult (list (option string)))
      (get_json : pyresult (option AgentApp.Body)) :
  Notions.agent_answer (AgentApp.optimize create get_json).
Proof.
  unfold AgentApp.optimize, Notions.agent_answer.
  destruct get_json as [[b|]|e]; [|answered..].
  cbn [bind].
  destruct (AgentApp.not_data (Some b)); [answered|].
  destruct (AgentApp.no_addresses b); [answered|].
  destruct (direct_returns create (AgentApp.data_of b)) as [v ->]. answered.
Qed.

Lemma optimize_crewai_agent_answer (kickoff : Crew.Tasks -> pyresult pyval)
      (get_json : pyresult (option AgentApp.Body)) (st : Crew.Tasks) :
  Notions.agent_answer (fst (AgentApp.optimize_crewai kickoff get_json st)).
Proof.
  unfold AgentApp.optimize_crewai, Crew.mtry, Crew.mbind, Crew.lift,
    Notions.agent_answer.
  destruct get_json as [[b|]|e]; [|answered..].
  destruct (AgentApp.not_data (Some b)); [answered|].
  destruct (AgentApp.no_addresses b); [answered|].
  destruct (crewai_returns kickoff (AgentApp.data_of b) st) as [v ->]. answered.
Qed.

(** X6.  No handler of the agent lets an exception out: whatever the
    requests of a process, in whatever order, and whatever the model and the
    crew do, each one is answered with a JSON body and status 200, 400 or
    500.  [GET /test] has no [try] of its own and relies on
    [optimize_route] for this. *)
Theorem agent_handlers_never_raise :
  forall (create : list (string * string) -> pyresult (list (option string)))
         (kickoff : Crew.Tasks -> pyresult pyval)
         (calls : list AgentApp.call) (st : Crew.Tasks),
    Forall Notions.agent_answer (fst (AgentApp.serve create kickoff calls st))
    /\ List.length (fst (AgentApp.serve create kickoff calls st))
       = List.length calls.
Proof.
  intros create kickoff calls. induction calls as [|c calls IH]; intros st.
  - split; [constructor|reflexivity].
  - cbn [AgentApp.serve].
    destruct (AgentApp.answer create kickoff c st) as [r st'] eqn:Hr.
    specialize (IH st').
    destruct (AgentApp.serve create kickoff calls st') as [rs st''].
    cbn [fst] in *. destruct IH as [IH Hlen].
    split; [|simpl; now rewrite Hlen].
    constructor; [|exact IH].
    destruct c as [get_json|get_json| | |]; cbn [AgentApp.answer] in Hr.
    + injection Hr as <- _. apply optimize_agent_answer.
    + replace r with (fst (AgentApp.optimize_crewai kickoff get_json st))
        by now rewrite Hr.
      apply optimize_crewai_agent_answer.
    + injection Hr as <- _. unfold AgentApp.test_endpoint.
      destruct (direct_returns create AgentApp.test_data) as [v ->].
      exists 200%Z, v. auto.
    + unfold AgentApp.test_crewai_endpoint, Crew.mbind in Hr.
      destruct (crewai_returns kickoff AgentApp.test_data_crewai st) as [v Hv].
      rewrite Hv in Hr. injection Hr as <- _. exists 200%Z, v. auto.
    + injection Hr as <- _. eexists _, _. split; [reflexivity|auto].
Qed.

(* ================================================================== *)
(** * Further properties: from the gateway to the agent *)
(* ================================================================== *)

Lemma read_all_addresses (l : list Backend.Address) :
  AgentApp.read_all AgentApp.read_address
    (map (fun addr => PDict [("address", PStr (Backend.address addr));
                             ("priority", PInt (Backend.priority addr))]) l)
  = Some (map (fun a => Request.MkAddress (Backend.address a) (Backend.priority a)) l).
Proof.
  induction l as [|a l IH]; [reflexivity|].
  cbn [map AgentApp.read_all]. rewrite IH. reflexivity.
Qed.

Lemma read_all_str (l : list string) :
  AgentApp.read_all AgentApp.read_str (map PStr l) = Some l.
Proof.
  induction l as [|a l IH]; [reflexivity|].
  cbn [map AgentApp.read_all]. rewrite IH. reflexivity.
Qed.

Lemma read_all_delays (d : list (string * Z)) :
  AgentApp.read_all AgentApp.read_delay (Deploy.typed_delays d) = Some d.
Proof.
  induction d as [|[k z] d IH]; [reflexivity|].
  unfold Deploy.typed_delays in *. cbn [map AgentApp.read_all]. rewrite IH.
  reflexivity.
Qed.

(** X7.  What the gateway sends is a body the agent can read, and it reads
    back as the validated request: the addresses with their priorities (1
    for one left out), and each of the four other keys present, null when
    the client gave no value.  So behind the gateway no key is ever missing
    and the body is never empty. *)
Theorem gateway_body_as_the_agent_reads_it :
  forall (addrs : list Backend.AddressBody) (weather traffic : option string)
         (delays : option (list (string * Z)))
         (requirements : option (list string)),
    let body :=
      Deploy.forwarded (map Backend.Address_validate addrs) weather traffic
                       delays requirements in
    AgentApp.of_json
      (Backend.agent_data
         (Backend.DeliveryRequest_validate
            (Backend.MkDeliveryRequestBody addrs weather traffic
               (option_map Deploy.typed_delays delays) requirements)))
    = Some body
    /\ AgentApp.not_data (Some body) = false
    /\ AgentApp.is_absent (AgentApp.key_weather_condition body) = false
    /\ AgentApp.is_absent (AgentApp.key_traffic_condition body) = false
    /\ AgentApp.is_absent (AgentApp.key_warehouse_delays body) = false
    /\ AgentApp.is_absent (AgentApp.key_special_requirements body) = false
    /\ AgentApp.other_keys body = [].
Proof.
  intros addrs weather traffic delays requirements body. subst body.
  split.
  - unfold AgentApp.of_json, Backend.agent_data, Backend.DeliveryRequest_validate.
    cbv beta iota delta [dict_get String.eqb Ascii.eqb Bool.eqb AgentApp.read_field
                         AgentApp.read_list Backend.addresses
                         Backend.weather_condition Backend.traffic_condition
                         Backend.warehouse_delays Backend.special_requirements
                         Backend.body_addresses Backend.body_weather_condition
                         Backend.body_traffic_condition
                         Backend.body_warehouse_delays
                         Backend.body_special_requirements
                         AgentApp.read_delays].
    destruct weather, traffic, delays, requirements;
      cbn [option_map Backend.opt_str AgentApp.read_str];
      rewrite ?read_all_addresses, ?read_all_str, ?read_all_delays; reflexivity.
  - destruct weather, traffic, delays, requirements; repeat split; reflexivity.
Qed.

(* ================================================================== *)
(** * Further properties: the task descriptions of a process *)
(* ================================================================== *)

Lemma has_char_app (c : ascii) (a b : string) :
  has_char c (a ++ b) = has_char c a || has_char c b.
Proof.
  induction a as [|x a IH]; [reflexivity|].
  cbn [append has_char]. rewrite IH. now rewrite orb_assoc.
Qed.

Lemma no_brace_app (a b : string) :
  Notions.no_brace (a ++ b) = Notions.no_brace a && Notions.no_brace b.
Proof.
  unfold Notions.no_brace. rewrite !has_char_app.
  destruct (has_char "{" a), (has_char "{" b), (has_char "}" a), (has_char "}" b);
    reflexivity.
Qed.

Lemma no_brace_concat (sep : string) (l : list string) :
  Notions.no_brace sep = true ->
  forallb Notions.no_brace l = true ->
  Notions.no_brace (String.concat sep l) = true.
Proof.
  intros Hsep. induction l as [|x [|y l] IH]; intros H.
  - reflexivity.
  - cbn [forallb] in H. cbn [String.concat]. now destruct (Notions.no_brace x).
  - cbn [forallb] in H. apply andb_true_iff in H. destruct H as [Hx H].
    change (String.concat sep (x :: y :: l))
      with (x ++ sep ++ String.concat sep (y :: l)).
    rewrite !no_brace_app, Hx, Hsep. now apply IH.
Qed.

Lemma no_brace_uint (d : Decimal.uint) :
  Notions.no_brace (NilEmpty.string_of_uint d) = true.
Proof.
  induction d; [reflexivity|..];
    cbn [NilEmpty.string_of_uint];
    match goal with
    | |- Notions.no_brace (String ?c ?s) = true =>
        change (String c s) with (String c "" ++ s)
    end;
    rewrite no_brace_app, IHd; reflexivity.
Qed.

Lemma no_brace_str_of_nat (n : nat) : Notions.no_brace (str_of_nat n) = true.
Proof.
  unfold str_of_nat, NilZero.string_of_uint.
  destruct (Nat.to_uint n); try reflexivity; apply no_brace_uint.
Qed.

Lemma no_brace_str_of_Z (z : Z) : Notions.no_brace (str_of_Z z) = true.
Proof.
  unfold str_of_Z, NilZero.string_of_int.
  destruct (Z.to_int z) as [d|d].
  - unfold NilZero.string_of_uint. destruct d; try reflexivity; apply no_brace_uint.
  - change (Notions.no_brace ("-" ++ NilZero.string_of_uint d) = true).
    rewrite no_brace_app. unfold NilZero.string_of_uint.
    destruct d; try reflexivity; apply no_brace_uint.
Qed.

(** [format] leaves a text without braces as it is, whatever the keywords. *)
Lemma format_with_no_brace (kw : list (string * string)) (s : string) :
  Notions.no_brace s = true ->
  forall fuel, (String.length s < fuel)%nat -> format_with fuel s kw = Ok s.
Proof.
  induction s as [|c s IH]; intros H fuel Hf.
  - destruct fuel; [cbn in Hf; lia|reflexivity].
  - destruct fuel as [|fuel]; [cbn in Hf; lia|].
    change (String c s) with (String c "" ++ s) in H.
    rewrite no_brace_app in H. apply andb_true_iff in H. destruct H as [Hc Hs].
    unfold Notions.no_brace in Hc. cbn [has_char] in Hc.
    rewrite !orb_false_r in Hc. apply andb_true_iff in Hc.
    destruct Hc as [Ho Hcl].
    apply negb_true_iff in Ho, Hcl.
    rewrite Ascii.eqb_sym in Ho. rewrite Ascii.eqb_sym in Hcl.
    cbn [format_with]. rewrite Hcl, Ho.
    rewrite (IH Hs fuel) by (cbn [String.length] in Hf; lia).
    reflexivity.
Qed.

Lemma format_no_brace (kw : list (string * string)) (s : string) :
  Notions.no_brace s = true -> format s kw = Ok s.
Proof.
  intros H. unfold format. apply format_with_no_brace; [exact H|lia].
Qed.

(** With settled descriptions, the three assignments change nothing. *)
Lemma update_descriptions_settled (data : Request.Data) (st : Crew.Tasks) :
  Notions.settled st = true ->
  Crew.update_descriptions data st = (Ok tt, st).
Proof.
  unfold Notions.settled. intros H.
  apply andb_true_iff in H. destruct H as [H Hr].
  apply andb_true_iff in H. destruct H as [Hw Ht].
  destruct st as [w t r c]. cbn [Crew.weather_task Crew.traffic_task Crew.route_task] in *.
  unfold Crew.update_descriptions, Crew.mbind, Crew.read, Crew.lift, Crew.assign.
  cbn [Crew.weather_task]. rewrite (format_no_brace _ w Hw).
  cbn [Crew.set_weather_task Crew.traffic_task]. rewrite (format_no_brace _ t Ht).
  cbn [Crew.set_traffic_task Crew.route_task Crew.weather_task Crew.traffic_task
       Crew.coordination_task].
  rewrite (format_no_brace _ r Hr). reflexivity.
Qed.

Lemma no_brace_address_lines (addrs : list Request.Address) (start : nat) :
  forallb (fun a => Notions.no_brace (Request.address a)) addrs = true ->
  forallb Notions.no_brace
    (map (fun ia => Rendering.address_line (fst ia + 1) (snd ia))
         (enumerate addrs start)) = true.
Proof.
  revert start. induction addrs as [|a addrs IH]; intros start H; [reflexivity|].
  cbn [forallb] in H. apply andb_true_iff in H. destruct H as [Ha H].
  cbn [enumerate map forallb fst snd]. rewrite (IH (S start) H), andb_true_r.
  unfold Rendering.address_line.
  rewrite !no_brace_app, no_brace_str_of_nat, no_brace_str_of_Z, Ha. reflexivity.
Qed.

Lemma no_brace_priorities (addrs : list Request.Address) :
  forallb (fun a => Notions.no_brace (Request.address a)) addrs = true ->
  forallb Notions.no_brace
    (map (fun addr => Request.address addr ++ ": "
                      ++ str_of_Z (Request.priority addr)) addrs) = true.
Proof.
  induction addrs as [|a addrs IH]; intros H; [reflexivity|].
  cbn [forallb] in H. apply andb_true_iff in H. destruct H as [Ha H].
  cbn [map forallb]. rewrite (IH H), andb_true_r.
  rewrite !no_brace_app, no_brace_str_of_Z, Ha. reflexivity.
Qed.

(** A request without braces leaves no brace in the descriptions of a fresh
    process. *)
Lemma settled_described (data : Request.Data) :
  Notions.brace_free data = true ->
  Notions.settled (Rendering.described data) = true.
Proof.
  unfold Notions.brace_free. intros H.
  apply andb_true_iff in H. destruct H as [H Hr].
  apply andb_true_iff in H. destruct H as [H Ht].
  apply andb_true_iff in H. destruct H as [Ha Hw].
  assert (Hreq : Notions.no_brace (Rendering.requirements_str data) = true).
  { unfold Rendering.requirements_str.
    destruct (Request.get_or (Request.special_requirements data) (Some []))
      as [[|r rs]|]; try reflexivity.
    now apply no_brace_concat. }
  assert (Haddr : Notions.no_brace (Rendering.addresses_str data) = true).
  { apply no_brace_concat; [reflexivity|]. now apply no_brace_address_lines. }
  assert (Hprio : Notions.no_brace (Rendering.priorities_str data) = true).
  { apply no_brace_concat; [reflexivity|]. now apply no_brace_priorities. }
  unfold Notions.settled, Rendering.described.
  cbn [Crew.weather_task Crew.traffic_task Crew.route_task].
  rewrite !andb_true_iff. split; [split|].
  - apply no_brace_concat; [reflexivity|].
    cbn [forallb]. rewrite no_brace_app, Hw. reflexivity.
  - apply no_brace_concat; [reflexivity|].
    cbn [forallb]. rewrite no_brace_app, Ht. reflexivity.
  - apply no_brace_concat; [reflexivity|].
    cbn [forallb]. rewrite !no_brace_app, Haddr, Hprio, Hreq. reflexivity.
Qed.

(** What a call of the crew gives once [update_descriptions] has succeeded
    and left the tasks [st']. *)
Lemma pipeline_after_update (kickoff : Crew.Tasks -> pyresult pyval)
      (data : Request.Data) (st st' : Crew.Tasks) :
  Crew.update_descriptions data st = (Ok tt, st') ->
  Agent.optimize_route_crewai kickoff data st
  = (match kickoff st' with
     | Ok result =>
         match Crew.process_result (Request.addresses data) result with
         | Ok v => Ok v
         | Raise e => Ok (Crew.error_result data e)
         end
     | Raise e => Ok (Crew.error_result data e)
     end, st').
Proof.
  intros H. rewrite optimize_route_crewai_same.
  destruct (kickoff st') as [result|e] eqn:Hk.
  - apply (pipeline_kickoff_returns kickoff data st st' result H Hk).
  - apply (pipeline_kickoff_raises kickoff data st st' e H Hk).
Qed.

Lemma optimize_crewai_tasks (kickoff : Crew.Tasks -> pyresult pyval)
      (get_json : pyresult (option AgentApp.Body)) (st : Crew.Tasks) :
  snd (AgentApp.optimize_crewai kickoff get_json st)
  = match get_json with
    | Ok (Some b) =>
        if AgentApp.no_addresses b then st
        else snd (Crew.update_descriptions (AgentApp.data_of b) st)
    | _ => st
    end.
Proof.
  unfold AgentApp.optimize_crewai, Crew.mtry, Crew.mbind, Crew.lift.
  destruct get_json as [[b|]|e]; try reflexivity.
  destruct (AgentApp.not_data (Some b)) eqn:Hn.
  - unfold AgentApp.not_data in Hn. unfold AgentApp.no_addresses.
    destruct (AgentApp.key_addresses b); try discriminate. reflexivity.
  - destruct (AgentApp.no_addresses b); [reflexivity|].
    destruct (crewai_returns kickoff (AgentApp.data_of b) st) as [v ->].
    reflexivity.
Qed.

Lemma answer_settled
      (create : list (string * string) -> pyresult (list (option string)))
      (kickoff : Crew.Tasks -> pyresult pyval) (c : AgentApp.call)
      (st : Crew.Tasks) :
  Notions.settled st = true ->
  snd (AgentApp.answer create kickoff c st) = st.
Proof.
  intros H. destruct c as [get_json|get_json| | |]; try reflexivity.
  - cbn [AgentApp.answer]. rewrite optimize_crewai_tasks.
    destruct get_json as [[b|]|e]; try reflexivity.
    destruct (AgentApp.no_addresses b); [reflexivity|].
    now rewrite update_descriptions_settled.
  - cbn [AgentApp.answer]. unfold AgentApp.test_crewai_endpoint, Crew.mbind.
    destruct (crewai_returns kickoff AgentApp.test_data_crewai st) as [v ->].
    now rewrite update_descriptions_settled.
Qed.

Lemma serve_settled
      (create : list (string * string) -> pyresult (list (option string)))
      (kickoff : Crew.Tasks -> pyresult pyval) (calls : list AgentApp.call)
      (st : Crew.Tasks) :
  Notions.settled st = true ->
  snd (AgentApp.serve create kickoff calls st) = st.
Proof.
  intros H. induction calls as [|c calls IH]; [reflexivity|].
  cbn [AgentApp.serve].
  pose proof (answer_settled create kickoff c st H) as Hc.
  destruct (AgentApp.answer create kickoff c st) as [r st']. cbn [snd] in Hc.
  subst st'.
  destruct (AgentApp.serve create kickoff calls st) as [rs st'']. exact IH.
Qed.

(** X8.  The first call of the crew on a fresh process never fails in
    [format], whatever the request (braces in an address are copied, not
    read as fields): the crew runs with the three templates filled with the
    numbered address lines, the priorities, the requirements or ["нет"], and
    the weather and traffic words, and these descriptions stay on the
    process. *)
Theorem first_call_fills_the_templates :
  forall (kickoff : Crew.Tasks -> pyresult pyval) (data : Request.Data),
    Agent.optimize_route_crewai kickoff data Crew.setup_tasks
    = (match kickoff (Rendering.described data) with
       | Ok result =>
           match Crew.process_result (Request.addresses data) result with
           | Ok v => Ok v
           | Raise e => Ok (Crew.error_result data e)
           end
       | Raise e => Ok (Crew.error_result data e)
       end, Rendering.described data).
Proof.
  intros kickoff data. apply pipeline_after_update, update_descriptions_fresh.
Qed.

(** X9.  Once a process has served a request without braces in its
    addresses, weather, traffic and requirements, its task descriptions are
    those of that request for good: whatever requests follow, on whatever
    endpoint, the descriptions stay the same, and every later call of the
    crew runs with them; the data of a later request only reaches the
    fallback route of the result. *)
Theorem first_request_fixes_descriptions :
  forall (create : list (string * string) -> pyresult (list (option string)))
         (kickoff : Crew.Tasks -> pyresult pyval)
         (first : Request.Data) (calls : list AgentApp.call),
    Notions.brace_free first = true ->
    let st := snd (Agent.optimize_route_crewai kickoff first Crew.setup_tasks) in
    st = Rendering.described first
    /\ snd (AgentApp.serve create kickoff calls st) = st
    /\ forall data,
         Agent.optimize_route_crewai kickoff data st
         = (match kickoff st with
            | Ok result =>
                match Crew.process_result (Request.addresses data) result with
                | Ok v => Ok v
                | Raise e => Ok (Crew.error_result data e)
                end
            | Raise e => Ok (Crew.error_result data e)
            end, st).
Proof.
  intros create kickoff first calls H st.
  assert (Hst : st = Rendering.described first).
  { subst st.
    now rewrite (pipeline_after_update kickoff first _ _
                   (update_descriptions_fresh first)). }
  pose proof (settled_described first H) as Hs. rewrite <- Hst in Hs.
  split; [exact Hst|]. split; [now apply serve_settled|].
  intros data. apply pipeline_after_update.
  now apply update_descriptions_settled.
Qed.

(** X9, an instance: after the request for A and B, a request for C and D
    and the test request leave the descriptions of A and B. *)
Lemma first_request_fixes_descriptions_witness :
  let st := snd (Agent.optimize_route_crewai Samples.kickoff_echo Samples.data_AB
                   Crew.setup_tasks) in
  snd (AgentApp.serve Samples.create_failing Samples.kickoff_echo
         [AgentApp.PostOptimizeCrewai (Ok (Some Samples.direct_CD));
          AgentApp.GetTestCrewai] st) = st.
Proof.
  apply (first_request_fixes_descriptions Samples.create_failing
           Samples.kickoff_echo Samples.data_AB).
  reflexivity.
Defined.

(** X10.  [GET /test-crewai] is not harmless: as the first request of a
    process it fixes the task descriptions to those of its own test data,
    and every later request, whatever it asks for, runs the crew with the
    three test addresses. *)
Theorem test_crewai_fixes_descriptions :
  forall (create : list (string * string) -> pyresult (list (option string)))
         (kickoff : Crew.Tasks -> pyresult pyval) (calls : list AgentApp.call),
    snd (AgentApp.serve create kickoff (AgentApp.GetTestCrewai :: calls)
           Crew.setup_tasks)
    = Rendering.described AgentApp.test_data_crewai
    /\ infix "1. ул. Ленина, 10, Москва (приоритет: 3/5)"
             (Crew.route_task
                (snd (AgentApp.serve create kickoff
                        (AgentApp.GetTestCrewai :: calls) Crew.setup_tasks))).
Proof.
  intros create kickoff calls.
  assert (H : snd (AgentApp.serve create kickoff (AgentApp.GetTestCrewai :: calls)
                     Crew.setup_tasks)
              = Rendering.described AgentApp.test_data_crewai).
  { cbn [AgentApp.serve AgentApp.answer].
    unfold AgentApp.test_crewai_endpoint, Crew.mbind.
    rewrite (pipeline_after_update kickoff AgentApp.test_data_crewai _ _
               (update_descriptions_fresh AgentApp.test_data_crewai)).
    pose proof (serve_settled create kickoff calls
                  (Rendering.described AgentApp.test_data_crewai)
                  (settled_described AgentApp.test_data_crewai eq_refl)) as Hs.
    destruct (kickoff (Rendering.described AgentApp.test_data_crewai))
      as [result|e];
      [destruct (Crew.process_result
                   (Request.addresses AgentApp.test_data_crewai) result)|];
      unfold Crew.ret;
      destruct (AgentApp.serve create kickoff calls
                  (Rendering.described AgentApp.test_data_crewai)) as [rs st''];
      exact Hs. }
  split; [exact H|]. rewrite H.
  exists ("Create an optimized delivery route for the following addresses:" ++ nl
          ++ "            ").
  eexists. vm_compute. reflexivity.
Qed.

(* ================================================================== *)
(** * Further properties: the reply of the model *)
(* ================================================================== *)

Lemma has_char_through_last_close (s : string) :
  has_char "}" s = false -> through_last_close s = None.
Proof.
  induction s as [|c s IH]; [reflexivity|].
  cbn [has_char through_last_close]. intros H.
  apply orb_false_iff in H. destruct H as [Hc Hs].
  rewrite (IH Hs). rewrite Ascii.eqb_sym in Hc. now rewrite Hc.
Qed.

Lemma through_last_close_app (body post : string) :
  has_char "}" post = false ->
  through_last_close (body ++ String "}" post) = Some (body ++ "}").
Proof.
  intros Hp. induction body as [|c body IH].
  - cbn [append through_last_close].
    now rewrite (has_char_through_last_close post Hp).
  - cbn [append through_last_close] in *. now rewrite IH.
Qed.

Lemma search_braces_app (pre body post : string) :
  has_char "{" pre = false ->
  has_char "}" post = false ->
  search_braces (pre ++ "{" ++ body ++ "}" ++ post) = Some ("{" ++ body ++ "}").
Proof.
  intros Hpre Hpost.
  change (pre ++ "{" ++ body ++ "}" ++ post)
    with (pre ++ String "{" (body ++ String "}" post)).
  change ("{" ++ body ++ "}") with (String "{" (body ++ "}")).
  induction pre as [|c pre IH].
  - cbn [append search_braces].
    change (Ascii.eqb "{" "{") with true. cbv iota.
    now rewrite (through_last_close_app body post Hpost).
  - cbn [has_char] in Hpre. apply orb_false_iff in Hpre. destruct Hpre as [Hc Hpre].
    cbn [append search_braces]. rewrite Ascii.eqb_sym in Hc. rewrite Hc.
    now apply IH.
Qed.

(** X11.  In the pipeline mode an object inside a reply is found and
    returned whenever the text before it has no opening brace and the text
    after it no closing brace: the match is then exactly the object, braces
    inside it included, and its parsed value is the result. *)
Theorem embedded_object_is_returned :
  forall (kickoff : Crew.Tasks -> pyresult pyval) (data : Request.Data)
         (st st' : Crew.Tasks) (pre body post : string) (v : pyval),
    Crew.update_descriptions data st = (Ok tt, st') ->
    kickoff st' = Ok (PStr (pre ++ "{" ++ body ++ "}" ++ post)) ->
    has_char "{" pre = false ->
    has_char "}" post = false ->
    json_loads ("{" ++ body ++ "}") = Ok v ->
    search_braces (pre ++ "{" ++ body ++ "}" ++ post) = Some ("{" ++ body ++ "}")
    /\ fst (Crew.optimize_route kickoff data st) = Ok v.
Proof.
  intros kickoff data st st' pre body post v Hu Hk Hpre Hpost Hj.
  pose proof (search_braces_app pre body post Hpre Hpost) as Hs.
  split; [exact Hs|].
  apply (pipeline_processed kickoff data st st' _ v Hu Hk).
  now apply (process_parsed _ _ _ v Hs).
Qed.

(** X11, an instance: an object with a nested object between two lines of
    prose. *)
Lemma embedded_object_is_returned_witness :
  fst (Crew.optimize_route (Samples.kickoff_replying Samples.text_nested_in_prose)
         Samples.data_AB Crew.setup_tasks)
  = Ok (PDict [("optimized_route", PList [PStr "B"; PStr "A"]);
               ("explanation", PStr "B first");
               ("times", PDict [("B", PInt 1); ("A", PInt 2)])]).
Proof.
  apply (embedded_object_is_returned
           (Samples.kickoff_replying Samples.text_nested_in_prose)
           Samples.data_AB Crew.setup_tasks
           (snd (Crew.update_descriptions Samples.data_AB Crew.setup_tasks))
           ("Plan:" ++ nl)
           (q "~optimized_route~: [~B~, ~A~], ~explanation~: ~B first~, ~times~: {~B~: 1, ~A~: 2}")
           (nl ++ "Done.")).
  - vm_compute. reflexivity.
  - reflexivity.
  - reflexivity.
  - reflexivity.
  - vm_compute. reflexivity.
Defined.

(** X12.  The direct mode reads the first choice of the reply and no other.
    A reply without choices, or one whose first message has no content, is
    reported in the explanation of the error result; otherwise the result is
    the one of a reply made of the first choice alone. *)
Theorem direct_mode_reads_first_choice :
  forall (create : list (string * string) -> pyresult (list (option string)))
         (data : Request.Data),
    let msgs := Agent.messages (Agent.create_prompt data) in
    let failed text :=
      Ok (PDict [("optimized_route", PList (Request.address_strings data));
                 ("explanation", PStr ("Ошибка при обращении к ChatGPT: " ++ text));
                 ("total_estimated_time", PStr "неизвестно")]) in
    (create msgs = Ok [] ->
     Agent.optimize_route create data = failed "list index out of range")
    /\ (forall rest,
           create msgs = Ok (None :: rest) ->
           Agent.optimize_route create data
           = failed "'NoneType' object has no attribute 'strip'")
    /\ (forall content rest,
           create msgs = Ok (Some content :: rest) ->
           Agent.optimize_route create data
           = Agent.optimize_route (fun _ => Ok [Some content]) data).
Proof.
  intros create data msgs failed. split; [|split].
  - intros H. now rewrite (direct_no_choice create data H).
  - intros rest H. now rewrite (direct_no_content create data rest H).
  - intros content rest H.
    destruct (json_loads (strip content)) as [v|e] eqn:Hj.
    + rewrite (direct_parsed create data content rest v H Hj).
      now rewrite (direct_parsed (fun _ => Ok [Some content]) data content [] v).
    + destruct (is_JSONDecodeError e) eqn:He.
      * rewrite (direct_not_json create data content rest e H Hj He).
        now rewrite (direct_not_json (fun _ => Ok [Some content]) data content []
                       e eq_refl Hj He).
      * rewrite (direct_loads_raises_other create data content rest e H Hj He).
        now rewrite (direct_loads_raises_other (fun _ => Ok [Some content]) data
                       content [] e eq_refl Hj He).
Qed.

(** X12, an instance of each case. *)
Lemma direct_mode_reads_first_choice_witness :
  Agent.optimize_route (fun _ => Ok []) Samples.data_AB
     = Ok (PDict [("optimized_route", PList [PStr "A"; PStr "B"]);
                  ("explanation",
                   PStr "Ошибка при обращении к ChatGPT: list index out of range");
                  ("total_estimated_time", PStr "неизвестно")])
  /\ Agent.optimize_route (fun _ => Ok [None; Some Samples.text_json])
                          Samples.data_AB
     = Ok (PDict [("optimized_route", PList [PStr "A"; PStr "B"]);
                  ("explanation",
                   PStr "Ошибка при обращении к ChatGPT: 'NoneType' object has no attribute 'strip'");
                  ("total_estimated_time", PStr "неизвестно")])
  /\ Agent.optimize_route (fun _ => Ok [Some Samples.text_plain;
                                        Some Samples.text_json])
                          Samples.data_AB
     = Agent.optimize_route (fun _ => Ok [Some Samples.text_plain]) Samples.data_AB.
Proof.
  split; [|split].
  - apply (direct_mode_reads_first_choice (fun _ => Ok []) Samples.data_AB).
    reflexivity.
  - apply (direct_mode_reads_first_choice
             (fun _ => Ok [None; Some Samples.text_json]) Samples.data_AB)
      with (rest := [Some Samples.text_json]).
    reflexivity.
  - apply (direct_mode_reads_first_choice
             (fun _ => Ok [Some Samples.text_plain; Some Samples.text_json])
             Samples.data_AB)
      with (rest := [Some Samples.text_json]).
    reflexivity.
Defined.


(* ================================================================== *)
(** * Further properties: the prompt *)
(* ================================================================== *)

(** X13.  [create_prompt] makes no difference between a condition that is
    left out, one that is null and one that is empty: the weather, the
    traffic and the warehouse delays of such a request leave no line in the
    prompt. *)
Theorem prompt_omits_empty_conditions :
  forall (addrs : list Request.Address) (w t : Request.field string)
         (d : Request.field (list (string * Z)))
         (r : Request.field (list string)),
    Agent.create_prompt (Request.MkData addrs Request.Null t d r)
    = Agent.create_prompt (Request.MkData addrs Request.Absent t d r)
    /\ Agent.create_prompt (Request.MkData addrs (Request.Given "") t d r)
       = Agent.create_prompt (Request.MkData addrs Request.Absent t d r)
    /\ Agent.create_prompt (Request.MkData addrs w Request.Null d r)
       = Agent.create_prompt (Request.MkData addrs w Request.Absent d r)
    /\ Agent.create_prompt (Request.MkData addrs w (Request.Given "") d r)
       = Agent.create_prompt (Request.MkData addrs w Request.Absent d r)
    /\ Agent.create_prompt (Request.MkData addrs w t Request.Null r)
       = Agent.create_prompt (Request.MkData addrs w t Request.Absent r)
    /\ Agent.create_prompt (Request.MkData addrs w t (Request.Given []) r)
       = Agent.create_prompt (Request.MkData addrs w t Request.Absent r)
    /\ (Agent.create_prompt
          (Request.MkData addrs Request.Absent Request.Absent Request.Absent
                          Request.Absent)
        = Agent.prompt_head
          ++ String.concat ""
               (map (fun ia => Rendering.address_line (fst ia) (snd ia) ++ nl)
                    (enumerate addrs 1))
          ++ (nl ++ "УСЛОВИЯ:" ++ nl) ++ Agent.prompt_tail).
Proof.
  intros addrs w t d r. rewrite !create_prompt_parts.
  repeat split.
Qed.

(* ================================================================== *)
(** * Further properties: the gateway in front of this agent *)
(* ================================================================== *)

(** What the agent reads in the body of the gateway, whatever the warehouse
    delays are. *)
Lemma of_json_agent_data (request : Backend.DeliveryRequest) (body : AgentApp.Body) :
  AgentApp.of_json (Backend.agent_data request) = Some body ->
  AgentApp.key_addresses body
  = Request.Given (map (fun a => Request.MkAddress (Backend.address a)
                                                   (Backend.priority a))
                       (Backend.addresses request))
  /\ AgentApp.key_weather_condition body
     = Deploy.field_of_option (Backend.weather_condition request)
  /\ AgentApp.key_traffic_condition body
     = Deploy.field_of_option (Backend.traffic_condition request)
  /\ AgentApp.key_special_requirements body
     = Deploy.field_of_option (Backend.special_requirements request).
Proof.
  destruct request as [addrs weather traffic delays requirements].
  unfold AgentApp.of_json, Backend.agent_data.
  cbv beta iota delta [dict_get String.eqb Ascii.eqb Bool.eqb AgentApp.read_field
                       AgentApp.read_list Backend.addresses
                       Backend.weather_condition Backend.traffic_condition
                       Backend.warehouse_delays Backend.special_requirements
                       AgentApp.read_delays].
  rewrite read_all_addresses.
  destruct weather, traffic, requirements;
    cbn [Backend.opt_str AgentApp.read_str];
    rewrite ?read_all_str;
    (destruct delays as [d|];
     [destruct (AgentApp.read_all AgentApp.read_delay d); [|discriminate]|]);
    intros H; injection H as <-; repeat split.
Qed.

Section BehindTheGateway.

Variable AGENT_URL : string.
Variable post : string -> pyval -> Z -> pyresult Backend.Response.
Variable b : Backend.DeliveryRequestBody.
Variable body : AgentApp.Body.
Hypothesis two_addresses : (2 <= List.length (Backend.body_addresses b))%nat.
Hypothesis readable :
  AgentApp.of_json (Backend.agent_data (Backend.DeliveryRequest_validate b))
  = Some body.

Lemma forwarded_addresses :
  Request.addresses (AgentApp.data_of body)
  = map (fun a => Request.MkAddress (Backend.address a) (Backend.priority a))
        (map Backend.Address_validate (Backend.body_addresses b)).
Proof.
  destruct (of_json_agent_data _ _ readable) as (Ha & _).
  unfold AgentApp.data_of. cbn [Request.addresses]. now rewrite Ha.
Qed.

Lemma forwarded_address_strings :
  Request.address_strings (AgentApp.data_of body)
  = map PStr (map Backend.body_address (Backend.body_addresses b)).
Proof.
  unfold Request.address_strings. rewrite forwarded_addresses.
  rewrite !map_map. reflexivity.
Qed.

Lemma forwarded_has_addresses :
  AgentApp.not_data (Some body) = false /\ AgentApp.no_addresses body = false.
Proof.
  destruct (of_json_agent_data _ _ readable) as (Ha & _).
  unfold AgentApp.not_data, AgentApp.no_addresses. rewrite Ha.
  cbn [Backend.DeliveryRequest_validate Backend.addresses].
  destruct (Backend.body_addresses b) as [|a l]; [simpl in two_addresses; lia|].
  split; reflexivity.
Qed.

(** The direct mode behind the gateway: status 200 and the result of
    [optimize_route]. *)
Lemma agent_answers_200
      (create : list (string * string) -> pyresult (list (option string)))
      (response : Backend.Response) :
  Deploy.agent_answers create body response ->
  Backend.status_code response = 200%Z
  /\ exists v,
       Agent.optimize_route create (AgentApp.data_of body) = Ok v
       /\ Backend.json response = Ok v.
Proof.
  intros (code & result & H & Hc & Hj).
  destruct forwarded_has_addresses as [Hn Ha].
  unfold AgentApp.optimize in H. cbn [bind] in H. rewrite Hn, Ha in H.
  destruct (direct_returns create (AgentApp.data_of body)) as [v Hv].
  rewrite Hv in H. cbn [bind try_except] in H. injection H as <- <-.
  split; [exact Hc|]. now exists v.
Qed.

Lemma crew_answers_200 (kickoff : Crew.Tasks -> pyresult pyval) (st : Crew.Tasks)
      (response : Backend.Response) :
  Deploy.crew_answers kickoff st body response ->
  Backend.status_code response = 200%Z
  /\ exists v,
       fst (Crew.optimize_route kickoff (AgentApp.data_of body) st) = Ok v
       /\ Backend.json response = Ok v.
Proof.
  intros (code & result & H & Hc & Hj).
  destruct forwarded_has_addresses as [Hn Ha].
  unfold AgentApp.optimize_crewai, Crew.mtry, Crew.mbind, Crew.lift in H.
  rewrite Hn, Ha in H.
  destruct (crewai_returns kickoff (AgentApp.data_of body) st) as [v Hv].
  rewrite Hv in H. cbn [Crew.ret fst] in H. injection H as <- <-.
  split; [exact Hc|]. exists v. split; [|exact Hj].
  now rewrite <- optimize_route_crewai_same, Hv.
Qed.

End BehindTheGateway.

(** X14.  Behind the gateway this agent always answers 200, in both modes,
    whatever the model or the crew does and whatever the state of the
    process: its own checks of the body (status 400) cannot fail on a body
    that passed the gateway.  So the branch of the gateway for an agent
    status other than 200 is never taken with this agent, and a failure of
    the model never shows in a status. *)
Theorem agent_answers_200_behind_the_gateway :
  forall (create : list (string * string) -> pyresult (list (option string)))
         (kickoff : Crew.Tasks -> pyresult pyval) (st : Crew.Tasks)
         (b : Backend.DeliveryRequestBody) (body : AgentApp.Body),
    (2 <= List.length (Backend.body_addresses b))%nat ->
    AgentApp.of_json (Backend.agent_data (Backend.DeliveryRequest_validate b))
    = Some body ->
    (exists v, AgentApp.optimize create (Ok (Some body)) = Ok (200%Z, v))
    /\ (exists v,
          fst (AgentApp.optimize_crewai kickoff (Ok (Some body)) st)
          = Ok (200%Z, v)).
Proof.
  intros create kickoff st b body Hlen Hread.
  destruct (forwarded_has_addresses b body Hlen Hread) as [Hn Ha].
  split.
  - unfold AgentApp.optimize. cbn [bind]. rewrite Hn, Ha.
    destruct (direct_returns create (AgentApp.data_of body)) as [v ->].
    now exists v.
  - unfold AgentApp.optimize_crewai, Crew.mtry, Crew.mbind, Crew.lift.
    rewrite Hn, Ha.
    destruct (crewai_returns kickoff (AgentApp.data_of body) st) as [v ->].
    now exists v.
Qed.


(** X14, an instance: the request for A and B, with a model and a crew that
    time out. *)
Lemma agent_answers_200_behind_the_gateway_witness :
  (exists v,
      AgentApp.optimize Samples.create_failing (Ok (Some Samples.forwarded_AB))
      = Ok (200%Z, v))
  /\ (exists v,
        fst (AgentApp.optimize_crewai Samples.kickoff_failing
               (Ok (Some Samples.forwarded_AB)) Crew.setup_tasks)
        = Ok (200%Z, v)).
Proof.
  apply (agent_answers_200_behind_the_gateway Samples.create_failing
           Samples.kickoff_failing Crew.setup_tasks Samples.body_AB
           Samples.forwarded_AB); reflexivity.
Defined.

(** X15.  A model that cannot be reached is answered with status 200 by the
    gateway, in both modes: the client receives its own addresses in the
    order it sent them, the text of the exception in the explanation and
    ["неизвестно"] as the time; the [success_probability] 1 of the pipeline
    mode does not reach it. *)
Theorem model_outage_is_answered_200 :
  forall (AGENT_URL : string)
         (post : string -> pyval -> Z -> pyresult Backend.Response)
         (b : Backend.DeliveryRequestBody) (body : AgentApp.Body)
         (response : Backend.Response) (e : exn),
    (2 <= List.length (Backend.body_addresses b))%nat ->
    AgentApp.of_json (Backend.agent_data (Backend.DeliveryRequest_validate b))
    = Some body ->
    let answer words :=
      Backend.MkHttpResponse 200
        (PDict [("optimized_route",
                 PList (map PStr (map Backend.body_address
                                      (Backend.body_addresses b))));
                ("explanation", PStr (words ++ exn_str e));
                ("total_estimated_time", PStr "неизвестно")]) in
    (forall create,
        post (AGENT_URL ++ "/optimize")
             (Backend.agent_data (Backend.DeliveryRequest_validate b)) 30%Z
        = Ok response ->
        Deploy.agent_answers create body response ->
        create (Agent.messages (Agent.create_prompt (AgentApp.data_of body)))
        = Raise e ->
        Backend.post_optimize_route AGENT_URL post b
        = answer "Ошибка при обращении к ChatGPT: ")
    /\ (forall kickoff st st',
           post (AGENT_URL ++ "/optimize-crewai")
                (Backend.agent_data (Backend.DeliveryRequest_validate b)) 60%Z
           = Ok response ->
           Deploy.crew_answers kickoff st body response ->
           Crew.update_descriptions (AgentApp.data_of body) st = (Ok tt, st') ->
           kickoff st' = Raise e ->
           Backend.post_optimize_route_crewai AGENT_URL post b
           = answer "Ошибка CrewAI: ").
Proof.
  intros URL post b body response e Hlen Hread answer. subst answer. split.
  - intros create Hpost Hagent Hcreate.
    destruct (agent_answers_200 b body Hlen Hread create response Hagent)
      as (Hcode & v & Hv & Hjson).
    rewrite (direct_create_raises create _ e Hcreate) in Hv. injection Hv as <-.
    unfold Agent.error_result in Hjson.
    rewrite (forwarded_address_strings b body Hread) in Hjson.
    unfold Backend.post_optimize_route.
    rewrite (optimize_route_200 URL post _ response _ (two_validated b Hlen)
               Hpost Hcode Hjson).
    now rewrite (kept_fields
                   [("optimized_route",
                     PList (map PStr (map Backend.body_address
                                          (Backend.body_addresses b))));
                    ("explanation",
                     PStr ("Ошибка при обращении к ChatGPT: " ++ exn_str e));
                    ("total_estimated_time", PStr "неизвестно")]
                   (map Backend.body_address (Backend.body_addresses b))
                   ("Ошибка при обращении к ChatGPT: " ++ exn_str e)
                   (Some "неизвестно") eq_refl eq_refl eq_refl).
  - intros kickoff st st' Hpost Hcrew Hupdate Hkickoff.
    destruct (crew_answers_200 b body Hlen Hread kickoff st response Hcrew)
      as (Hcode & v & Hv & Hjson).
    rewrite (pipeline_kickoff_raises kickoff _ st st' e Hupdate Hkickoff) in Hv.
    injection Hv as <-.
    unfold Crew.error_result in Hjson.
    rewrite (forwarded_address_strings b body Hread) in Hjson.
    unfold Backend.post_optimize_route_crewai.
    rewrite (optimize_route_crewai_200 URL post _ response _
               (two_validated b Hlen) Hpost Hcode Hjson).
    now rewrite (kept_fields
                   [("optimized_route",
                     PList (map PStr (map Backend.body_address
                                          (Backend.body_addresses b))));
                    ("explanation", PStr ("Ошибка CrewAI: " ++ exn_str e));
                    ("total_estimated_time", PStr "неизвестно");
                    ("risk_assessment", PStr "Ошибка в процессе анализа");
                    ("success_probability", PInt 1)]
                   (map Backend.body_address (Backend.body_addresses b))
                   ("Ошибка CrewAI: " ++ exn_str e)
                   (Some "неизвестно") eq_refl eq_refl eq_refl).
Qed.


(** X15, an instance: the request for A and B when the model, or the crew,
    times out. *)
Lemma model_outage_is_answered_200_witness :
  Backend.post_optimize_route Samples.agent_url
    (Samples.post_replying
       (Agent.error_result (AgentApp.data_of Samples.forwarded_AB)
          Samples.timed_out))
    Samples.body_AB
  = Backend.MkHttpResponse 200
      (PDict [("optimized_route", PList [PStr "A"; PStr "B"]);
              ("explanation",
               PStr "Ошибка при обращении к ChatGPT: Request timed out.");
              ("total_estimated_time", PStr "неизвестно")])
  /\ Backend.post_optimize_route_crewai Samples.agent_url
       (Samples.post_replying
          (Crew.error_result (AgentApp.data_of Samples.forwarded_AB)
             Samples.timed_out))
       Samples.body_AB
     = Backend.MkHttpResponse 200
         (PDict [("optimized_route", PList [PStr "A"; PStr "B"]);
                 ("explanation", PStr "Ошибка CrewAI: Request timed out.");
                 ("total_estimated_time", PStr "неизвестно")]).
Proof.
  split.
  - assert (H := model_outage_is_answered_200 Samples.agent_url
                   (Samples.post_replying
                      (Agent.error_result (AgentApp.data_of Samples.forwarded_AB)
                         Samples.timed_out))
                   Samples.body_AB Samples.forwarded_AB
                   (Backend.MkResponse 200 ""
                      (Ok (Agent.error_result
                             (AgentApp.data_of Samples.forwarded_AB)
                             Samples.timed_out)))
                   Samples.timed_out).
    cbv zeta in H. destruct H as [H _]; [reflexivity|reflexivity|].
    apply (H Samples.create_failing).
    + reflexivity.
    + eexists _, _. split; [reflexivity|]. split; reflexivity.
    + reflexivity.
  - assert (H := model_outage_is_answered_200 Samples.agent_url
                   (Samples.post_replying
                      (Crew.error_result (AgentApp.data_of Samples.forwarded_AB)
                         Samples.timed_out))
                   Samples.body_AB Samples.forwarded_AB
                   (Backend.MkResponse 200 ""
                      (Ok (Crew.error_result
                             (AgentApp.data_of Samples.forwarded_AB)
                             Samples.timed_out)))
                   Samples.timed_out).
    cbv zeta in H. destruct H as [_ H]; [reflexivity|reflexivity|].
    apply (H Samples.kickoff_failing Crew.setup_tasks
             (snd (Crew.update_descriptions (AgentApp.data_of Samples.forwarded_AB)
                     Crew.setup_tasks))).
    + reflexivity.
    + eexists _, _. split; [vm_compute; reflexivity|]. split; reflexivity.
    + vm_compute. reflexivity.
    + reflexivity.
Defined.

(** X16.  A reply of the model that is valid JSON but no object (a number,
    a list, a string) is returned by the direct mode as it is, and makes the
    gateway answer 500: the gateway calls [.get] on it. *)
Theorem reply_that_is_no_object_is_answered_500 :
  forall (AGENT_URL : string)
         (post : string -> pyval -> Z -> pyresult Backend.Response)
         (create : list (string * string) -> pyresult (list (option string)))
         (b : Backend.DeliveryRequestBody) (body : AgentApp.Body)
         (response : Backend.Response) (content : string)
         (rest : list (option string)) (v : pyval),
    (2 <= List.length (Backend.body_addresses b))%nat ->
    AgentApp.of_json (Backend.agent_data (Backend.DeliveryRequest_validate b))
    = Some body ->
    post (AGENT_URL ++ "/optimize")
         (Backend.agent_data (Backend.DeliveryRequest_validate b)) 30%Z
    = Ok response ->
    Deploy.agent_answers create body response ->
    create (Agent.messages (Agent.create_prompt (AgentApp.data_of body)))
    = Ok (Some content :: rest) ->
    json_loads (strip content) = Ok v ->
    (forall d, v <> PDict d) ->
    Backend.post_optimize_route AGENT_URL post b
    = Backend.MkHttpResponse 500
        (PDict [("detail",
                 PStr ("Внутренняя ошибка сервера: '" ++ Backend.type_name v
                       ++ "' object has no attribute 'get'"))]).
Proof.
  intros URL post create b body response content rest v Hlen Hread Hpost Hagent
         Hcreate Hloads Hv.
  destruct (agent_answers_200 b body Hlen Hread create response Hagent)
    as (Hcode & v' & Hv' & Hjson).
  rewrite (direct_parsed create _ content rest v Hcreate Hloads) in Hv'.
  injection Hv' as <-.
  pose proof (two_validated b Hlen) as Hlen'.
  unfold Backend.post_optimize_route, Backend.optimize_route.
  destruct (Backend.addresses (Backend.DeliveryRequest_validate b))
    as [|a [|a' l]] eqn:Ha; simpl in Hlen'; try lia.
  cbn [bind List.length Nat.ltb Nat.leb]. rewrite Hpost. cbn [bind].
  rewrite Hcode, Hjson. cbn [bind Z.eqb Pos.eqb negb].
  destruct v; try reflexivity. now destruct (Hv d).
Qed.

(** X16, an instance: the model replies [42]. *)
Lemma reply_that_is_no_object_is_answered_500_witness :
  Backend.post_optimize_route Samples.agent_url
    (Samples.post_replying (PInt 42)) Samples.body_AB
  = Backend.MkHttpResponse 500
      (PDict [("detail",
               PStr "Внутренняя ошибка сервера: 'int' object has no attribute 'get'")]).
Proof.
  apply (reply_that_is_no_object_is_answered_500 Samples.agent_url
           (Samples.post_replying (PInt 42))
           (Samples.create_replying Samples.text_number)
           Samples.body_AB Samples.forwarded_AB
           (Backend.MkResponse 200 "" (Ok (PInt 42))) Samples.text_number []
           (PInt 42)).
  - reflexivity.
  - reflexivity.
  - reflexivity.
  - eexists _, _. split; [vm_compute; reflexivity|]. split; reflexivity.
  - reflexivity.
  - vm_compute. reflexivity.
  - discriminate.
Defined.

(** X17.  The default ["unknown"] of the pipeline mode is for a key that is
    left out, and behind the gateway no key is: a request without weather or
    traffic reaches the agent with null, and the crew is asked to analyse
    the weather conditions ["None"].  Only a request sent to the agent
    itself, without the key, gives ["unknown"]. *)
Theorem missing_condition_reads_None_behind_the_gateway :
  forall (kickoff : Crew.Tasks -> pyresult pyval)
         (b : Backend.DeliveryRequestBody) (body : AgentApp.Body),
    (2 <= List.length (Backend.body_addresses b))%nat ->
    AgentApp.of_json (Backend.agent_data (Backend.DeliveryRequest_validate b))
    = Some body ->
    let after sent :=
      snd (AgentApp.optimize_crewai kickoff (Ok (Some sent)) Crew.setup_tasks) in
    (Backend.body_weather_condition b = None ->
     Crew.weather_task (after body) = Rendering.weather_description "None")
    /\ (Backend.body_traffic_condition b = None ->
        Crew.traffic_task (after body) = Rendering.traffic_description "None")
    /\ (forall direct,
           AgentApp.no_addresses direct = false ->
           (AgentApp.key_weather_condition direct = Request.Absent ->
            Crew.weather_task (after direct)
            = Rendering.weather_description "unknown")
           /\ (AgentApp.key_traffic_condition direct = Request.Absent ->
               Crew.traffic_task (after direct)
               = Rendering.traffic_description "unknown")).
Proof.
  intros kickoff b body Hlen Hread after.
  assert (Hafter : forall sent,
             AgentApp.no_addresses sent = false ->
             after sent = Rendering.described (AgentApp.data_of sent)).
  { intros sent Hs. subst after. cbv beta.
    rewrite optimize_crewai_tasks, Hs.
    now rewrite update_descriptions_fresh. }
  destruct (forwarded_has_addresses b body Hlen Hread) as [_ Ha].
  destruct (of_json_agent_data _ _ Hread) as (_ & Hw & Ht & _).
  cbn [Backend.DeliveryRequest_validate Backend.weather_condition
       Backend.traffic_condition] in Hw, Ht.
  split; [|split].
  - intros H. rewrite (Hafter body Ha). unfold Rendering.described, AgentApp.data_of.
    cbn [Crew.weather_task Request.weather_condition]. now rewrite Hw, H.
  - intros H. rewrite (Hafter body Ha). unfold Rendering.described, AgentApp.data_of.
    cbn [Crew.traffic_task Request.traffic_condition]. now rewrite Ht, H.
  - intros direct Hd. rewrite (Hafter direct Hd).
    unfold Rendering.described, AgentApp.data_of.
    cbn [Crew.weather_task Crew.traffic_task Request.weather_condition
         Request.traffic_condition].
    split; intros ->; reflexivity.
Qed.

(** X17, an instance: two addresses and nothing else. *)
Lemma missing_condition_reads_None_behind_the_gateway_witness :
  Crew.weather_task
    (snd (AgentApp.optimize_crewai Samples.kickoff_failing
            (Ok (Some Samples.forwarded_AB_bare)) Crew.setup_tasks))
  = Rendering.weather_description "None"
  /\ Crew.weather_task
       (snd (AgentApp.optimize_crewai Samples.kickoff_failing
               (Ok (Some Samples.direct_AB)) Crew.setup_tasks))
     = Rendering.weather_description "unknown".
Proof.
  assert (H := missing_condition_reads_None_behind_the_gateway
                 Samples.kickoff_failing Samples.body_AB_bare
                 Samples.forwarded_AB_bare).
  cbv zeta in H. destruct H as (Hw & _ & Hd); [reflexivity|reflexivity|].
  split.
  - apply Hw. reflexivity.
  - apply (Hd Samples.direct_AB); reflexivity.
Defined.
